(** * Groundnut leaf-disease services

    A shallow embedding of the Python scripts of the repository:
    - [ViT]       : [final year project/test2_0.py], the Flask service around the
                    fine-tuned DeiT classifier (multi-file [/predict], [/weather]);
    - [Keras]     : [nuuuttsss.py], the Flask service around the Keras [.h5] model
                    (single-file [/predict], [/weather]);
    - [ModelInfo] : [final year project/modelinfo.py], the checkpoint loader;
    - [Benchmark] : the parameter count and the timing loop of the same script,
                    its float arithmetic rounded as in [Float];
    - [Training]  : [final year project/vitmodel.py], the training loop with its
                    gradient accumulation;
    - [Page], [Heatmap] : what the scripts of the two HTML pages compute from
                    the replies of their services;
    - [Console]   : the three [except] handlers with the [print] they make.

    Python values are modelled as follows.  A [str] is a [string] (its UTF-8
    bytes); a [float] score is a rational [Q], which contains every finite
    float, so comparisons agree with the ones numpy and torch make on finite
    scores (NaN and infinities are outside the model); a raised exception is a
    value of [outcome]; code that calls out of the process runs in [io], which
    threads the calls made so far and, for the ViT service, the upload folder;
    a [try: ... except Exception] block is [io_try].  Library calls the
    scripts make into PIL, torch, TensorFlow and requests are fields of a
    backend class, one per script. *)

From Stdlib Require Import ZArith QArith Qround String Ascii List Bool Lia Lqa.
From stdpp Require Import base option list strings gmap.
Import ListNotations.

Open Scope string_scope.
Open Scope list_scope.

(* ===================================================================== *)
(** ** Python primitives used by the scripts *)
(* ===================================================================== *)

Module Py.

(** An exception object: its class name and the text [str(e)] yields. *)
Record exn := Exception { exn_class : string; exn_msg : string }.

Definition str_exn (e : exn) : string := exn_msg e.

Definition KeyError (k : string) : exn := Exception "KeyError" ("'" +:+ k +:+ "'").
Definition TypeError (msg : string) : exn := Exception "TypeError" msg.
Definition AttributeError (msg : string) : exn := Exception "AttributeError" msg.
Definition IndexError (msg : string) : exn := Exception "IndexError" msg.
Definition ValueError (msg : string) : exn := Exception "ValueError" msg.

(** The result of evaluating an expression: a value or a raised exception. *)
Inductive outcome (A : Type) : Type :=
| Ret (a : A)
| Raise (e : exn).
Arguments Ret {A} a.
Arguments Raise {A} e.

Definition bind {A B} (m : outcome A) (k : A -> outcome B) : outcome B :=
  match m with
  | Ret a => k a
  | Raise e => Raise e
  end.

Definition raises {A} (m : outcome A) : bool :=
  match m with Ret _ => false | Raise _ => true end.

(** The value, or [None] where a handler turns any exception into [None]. *)
Definition value_or_none {A} (m : outcome A) : option A :=
  match m with Ret a => Some a | Raise _ => None end.

(** *** Strings *)

(** [sub in s] for two strings. *)
Fixpoint str_in (sub s : string) : bool :=
  String.prefix sub s ||
  match s with
  | EmptyString => false
  | String _ s' => str_in sub s'
  end.

Definition is_upper (c : ascii) : bool :=
  (65 <=? nat_of_ascii c)%nat && (nat_of_ascii c <=? 90)%nat.

Definition lower_char (c : ascii) : ascii :=
  if is_upper c then ascii_of_nat (nat_of_ascii c + 32) else c.

(** [s.lower()].  On the UTF-8 bytes of [s] only the letters A-Z change.
    Python lowers two non-ASCII characters to text with ASCII letters, U+212A
    to k and U+0130 to i followed by U+0307; neither letter group can complete
    any of the words the scripts compare against (png, jpg, jpeg, webp, rain),
    so the comparisons made by the scripts are the same on bytes. *)
Fixpoint lower (s : string) : string :=
  match s with
  | EmptyString => EmptyString
  | String c s' => String (lower_char c) (lower s')
  end.

(** Position of the split made by [s.rsplit(sep, 1)] for a one-character
    separator: the text before and the text after the last [sep]. *)
Fixpoint rsplit_last (sep : ascii) (s : string) : option (string * string) :=
  match s with
  | EmptyString => None
  | String c s' =>
      match rsplit_last sep s' with
      | Some (before, after) => Some (String c before, after)
      | None => if Ascii.eqb c sep then Some (EmptyString, s') else None
      end
  end.

(** [s.rsplit(sep, 1)] *)
Definition rsplit1 (s : string) (sep : ascii) : list string :=
  match rsplit_last sep s with
  | Some (before, after) => [before; after]
  | None => [s]
  end.

(** [s.startswith(p)] *)
Definition startswith (s p : string) : bool := String.prefix p s.

(** [s[n:]] *)
Fixpoint slice_from (n : nat) (s : string) : string :=
  match n, s with
  | O, _ => s
  | S n', String _ s' => slice_from n' s'
  | S _, EmptyString => EmptyString
  end.

(** [os.path.join(a, b)] on POSIX for two components. *)
Definition os_path_join (a b : string) : string :=
  if String.prefix "/" b then b
  else if (a =? "")%string then b
  else if String.eqb (slice_from (String.length a - 1) a) "/" then a +:+ b
  else a +:+ "/" +:+ b.

(** *** Sequences *)

(** [l[i]] for a list and a non-negative index. *)
Definition getitem_list {A} (l : list A) (i : nat) : outcome A :=
  match l !! i with
  | Some x => Ret x
  | None => Raise (IndexError "list index out of range")
  end.

Definition Qltb (x y : Q) : bool := negb (Qle_bool y x).

(** Scan of [argmax]: [best] is the largest score so far, at index [besti];
    a later score replaces it only when strictly larger. *)
Fixpoint argmax_from (best : Q) (besti i : nat) (l : list Q) : nat :=
  match l with
  | [] => besti
  | x :: l' =>
      if Qltb best x then argmax_from x i (S i) l'
      else argmax_from best besti (S i) l'
  end.

(** [np.argmax(v)] / [v.argmax()] on a vector: the index of the first
    maximal score; an empty vector raises. *)
Definition argmax (v : list Q) : outcome nat :=
  match v with
  | [] => Raise (ValueError "attempt to get argmax of an empty sequence")
  | x :: v' => Ret (argmax_from x 0 1 v')
  end.

(** *** JSON values, also used for the dicts the handlers return *)

#[warnings="-register-all"]
Inductive json : Type :=
| JNull
| JBool (b : bool)
| JNum (q : Q)
| JStr (s : string)
| JArr (items : list json)
| JObj (fields : list (string * json)).

Fixpoint assoc {V} (k : string) (kv : list (string * V)) : option V :=
  match kv with
  | [] => None
  | (k', v) :: kv' => if String.eqb k k' then Some v else assoc k kv'
  end.

(** [o[k]] with a string key. *)
Definition getitem (o : json) (k : string) : outcome json :=
  match o with
  | JObj fields =>
      match assoc k fields with
      | Some v => Ret v
      | None => Raise (KeyError k)
      end
  | JArr _ => Raise (TypeError "list indices must be integers or slices, not str")
  | JStr _ => Raise (TypeError "string indices must be integers, not 'str'")
  | _ => Raise (TypeError "object is not subscriptable")
  end.

(** [o.get(k, default)] *)
Definition dict_get (o : json) (k : string) (default : json) : outcome json :=
  match o with
  | JObj fields =>
      match assoc k fields with
      | Some v => Ret v
      | None => Ret default
      end
  | _ => Raise (AttributeError "object has no attribute 'get'")
  end.

(** [o.lower()] *)
Definition json_lower (o : json) : outcome string :=
  match o with
  | JStr s => Ret (lower s)
  | _ => Raise (AttributeError "object has no attribute 'lower'")
  end.

Definition keys {V} (kv : list (string * V)) : list string := map fst kv.

(** *** Effectful code: a state [S] threaded through calls that may raise.
    The state an exception leaves behind is kept, as in Python. *)

Definition io (S A : Type) : Type := S -> outcome A * S.

Definition io_ret {S A} (a : A) : io S A := fun s => (Ret a, s).

Definition io_bind {S A B} (m : io S A) (k : A -> io S B) : io S B :=
  fun s =>
    match m s with
    | (Ret a, s') => k a s'
    | (Raise e, s') => (Raise e, s')
    end.

Definition io_lift {S A} (o : outcome A) : io S A := fun s => (o, s).

(** [try: body except Exception as e: handler(e)] *)
Definition io_try {S A} (body : io S A) (handler : exn -> io S A) : io S A :=
  fun s =>
    match body s with
    | (Ret a, s') => (Ret a, s')
    | (Raise e, s') => handler e s'
    end.

End Py.

Export Py.

Notation "'let!' x ':=' m 'in' k" := (Py.bind m (fun x => k))
  (at level 10, x name, m at level 100, k at level 200).
Notation "'let*' x ':=' m 'in' k" := (Py.io_bind m (fun x => k))
  (at level 10, x name, m at level 100, k at level 200).
Notation "'run*' m 'in' k" := (Py.io_bind m (fun _ => k))
  (at level 10, m at level 100, k at level 200).

(* ===================================================================== *)
(** ** Shapes of the dicts both services build *)
(* ===================================================================== *)

(** One value of [DISEASE_INFO]: every entry of both tables has these five
    keys. *)
Record disease_record := {
  name : string;
  causes : list string;
  cure : list string;
  prevention : list string;
  weather_alerts : list (string * string)
}.

(** The dict a successful prediction returns. *)
Record prediction := {
  predicted_class : string;
  confidence : Q;
  all_confidences : list Q;
  pred_causes : list string;
  pred_cure : list string;
  pred_prevention : list string;
  pred_weather_alerts : list (string * string)
}.

(** The dict built at the end of a prediction, from the label, its table
    entry [info = DISEASE_INFO.get(label, {})], the confidence and the score
    vector; each [info.get(key, default)] falls back when [info] is empty. *)
Definition result_dict (label : string) (info : option disease_record)
                       (conf : Q) (scores : list Q) : prediction := {|
  predicted_class := match info with Some r => name r | None => label end;
  confidence := conf;
  all_confidences := scores;
  pred_causes := match info with Some r => causes r | None => [] end;
  pred_cure := match info with Some r => cure r | None => [] end;
  pred_prevention := match info with Some r => prevention r | None => [] end;
  pred_weather_alerts := match info with Some r => weather_alerts r | None => [] end
|}.

(** An uploaded file as Flask hands it over: the client's file name and the
    uploaded bytes. *)
Record FileStorage (content : Type) := {
  filename : string;
  stream : content
}.
Arguments filename {content} f.
Arguments stream {content} f.

(** [bool(file)]: a [FileStorage] is truthy when its file name is not empty. *)
Definition file_truthy {content} (f : FileStorage content) : bool :=
  negb (filename f =? "")%string.

(** [requests.get(url, timeout=...)]: the arguments of the call. *)
Record http_call := {
  url : string;
  timeout : option Z
}.

(** What [requests.get] returns: the status and what [.json()] does. *)
Record http_response := {
  status_code : Z;
  json_body : outcome json
}.

(* ===================================================================== *)
(** ** [final year project/test2_0.py]: the ViT service *)
(* ===================================================================== *)

Module ViT.

Definition UPLOAD_FOLDER : string := "uploads".

Definition CLASS_NAMES : list string := [
  "ALTERNARIA LEAF SPOT"; "ROSETTE"; "early_leaf_spot_1"; "early_rust_1";
  "healthy_leaf_1"; "late_leaf_spot_1"; "nutrition_deficiency_1"; "rust_1"
].

Definition DISEASE_INFO : list (string * disease_record) := [
  ("ALTERNARIA LEAF SPOT", {|
     name := "Alternaria Leaf Spot";
     causes := [
       "Caused by Alternaria spp. (e.g., A. alternata)";
       "Favored by warm, humid conditions";
       "Spread by wind and rain splash";
       "Infected debris sustains inoculum"
     ];
     cure := [
       "Apply Mancozeb, Chlorothalonil, or Copper oxychloride";
       "Remove and destroy infected leaves";
       "Rotate fungicides to avoid resistance"
     ];
     prevention := [
       "Use resistant varieties";
       "Crop rotation and field sanitation";
       "Avoid overhead irrigation";
       "Ensure good airflow"
     ];
     weather_alerts := [
       ("high_humidity", "High humidity increases Alternaria risk. Monitor closely.")
     ] |});
  ("ROSETTE", {|
     name := "Groundnut Rosette Disease";
     causes := [
       "Caused by Groundnut Rosette Virus (GRV) + satellite RNA";
       "Transmitted by aphids (Aphis craccivora)";
       "Stressed plants more susceptible"
     ];
     cure := [
       "No cure — remove and destroy infected plants";
       "Control aphids with Imidacloprid or botanical sprays"
     ];
     prevention := [
       "Use certified virus-free seeds";
       "Plant resistant varieties";
       "Early planting to avoid peak aphid season";
       "Integrated pest management (IPM)"
     ];
     weather_alerts := [
       ("aphid_risk", "Warm, dry conditions favor aphid migration — monitor vectors.")
     ] |});
  ("early_leaf_spot_1", {|
     name := "Early Leaf Spot";
     causes := ["High humidity"; "Warm temperatures"; "Poor airflow"; "Infected residues"];
     cure := ["Copper fungicides"; "Propiconazole 25% EC"; "Remove infected leaves"];
     prevention := ["Resistant varieties"; "Drip irrigation"; "Wider spacing"];
     weather_alerts := [("high_humidity", "High humidity promotes leaf spot — use drip irrigation.")] |});
  ("early_rust_1", {|
     name := "Early Rust";
     causes := ["20–25°C + high humidity"; "Dew/rain"; "Wind-borne spores"];
     cure := ["Triadimefon 25% WP"; "Hexaconazole 5% SC"; "Remove infected leaves"];
     prevention := ["Resistant varieties"; "Balanced nutrition"; "Early monitoring"];
     weather_alerts := [("high_humidity", "Rust risk rising — increase scouting.")] |});
  ("healthy_leaf_1", {|
     name := "Healthy Leaf";
     causes := ["Optimal conditions"; "Balanced nutrition"; "Good management"];
     cure := ["Continue best practices"; "Regular monitoring"];
     prevention := ["High-quality seeds"; "Crop rotation"; "Avoid over-irrigation"];
     weather_alerts := [("high_humidity", "Healthy now, but watch for fungal risks in humidity.")] |});
  ("late_leaf_spot_1", {|
     name := "Late Leaf Spot";
     causes := [">85% humidity"; "20–25°C"; "Prolonged leaf wetness"];
     cure := ["Chlorothalonil 75% WP"; "Tebuconazole + Sulphur"; "Alternate fungicides"];
     prevention := ["Resistant cultivars"; "Morning irrigation"; "Remove debris"];
     weather_alerts := [("high_humidity", "Late leaf spot risk high — avoid overhead watering.")] |});
  ("nutrition_deficiency_1", {|
     name := "Nutritional Deficiency";
     causes := ["Imbalanced fertilization"; "Soil pH issues"; "Poor organic matter"];
     cure := ["Soil test"; "Correct fertilizers"; "Foliar sprays"];
     prevention := ["Maintain soil pH"; "Add compost"; "Follow fertilizer schedule"];
     weather_alerts := [("high_rain", "Heavy rain may leach nutrients — test soil.")] |});
  ("rust_1", {|
     name := "Advanced Rust";
     causes := ["Untreated early rust"; "Persistent humidity"; "Delayed action"];
     cure := ["Propiconazole 25% EC"; "Systemic + contact mix"; "Frequent sprays"];
     prevention := ["Early detection"; "Monitor weather"; "Maintain plant health"];
     weather_alerts := [("high_humidity", "Advanced rust detected — urgent action required!")] |})
].

(** The extension set written inline in [allowed_file]. *)
Definition ALLOWED : gset string := {[ "png"; "jpg"; "jpeg"; "webp" ]}.

(** ['.' in filename and filename.rsplit('.', 1)[1].lower() in {...}] *)
Definition allowed_file (filename : string) : bool :=
  str_in "." filename &&
  match getitem_list (rsplit1 filename ".") 1 with
  | Ret ext => bool_decide (lower ext ∈ ALLOWED)
  | Raise _ => false
  end.

(** What the script gets from PIL, torchvision, transformers, the upload
    folder and requests. *)
Class Backend := {
  content : Type;
  image : Type;
  tensor : Type;
  (** [Image.open(path).convert("RGB")] on the bytes stored at [path] *)
  pil_open : content -> outcome image;
  (** [transform(image).unsqueeze(0).to(device)] *)
  transform : image -> outcome tensor;
  (** [model(img_tensor).logits], the row of the one image in the batch *)
  model : tensor -> outcome (list Q);
  (** [torch.softmax(outputs, dim=1).cpu().numpy()[0]] *)
  softmax : list Q -> list Q;
  (** whether [file.save(path)] can write at [path]; it raises otherwise *)
  save_ok : string -> bool;
  (** [requests.get] *)
  requests_get : http_call -> outcome http_response
}.

(** Calls that leave the process; each carries the path or request it is
    made for. *)
Inductive event :=
| EvSave (path : string)
| EvOpen (path : string)
| EvTransform (path : string)
| EvModel (path : string)
| EvGet (call : http_call).

Section Service.
Context {B : Backend}.

(** The upload folder and the calls made so far.  The folder is keyed by
    the path as the handler writes it; two such texts may name one file on
    disk ([uploads/a.png] and [uploads/./a.png]), which the map does not
    tell. *)
Record world := {
  disk : gmap string content;
  log : list event
}.

Definition emit (e : event) : io world unit :=
  fun w => (Ret tt, {| disk := disk w; log := log w ++ [e] |}).

(** [file.save(filepath)] *)
Definition file_save (file : FileStorage content) (filepath : string) : io world unit :=
  run* emit (EvSave filepath) in
  fun w =>
    if save_ok filepath
    then (Ret tt, {| disk := <[filepath := stream file]> (disk w); log := log w |})
    else (Raise (Exception "OSError" filepath), w).

(** [Image.open(image_path).convert("RGB")] *)
Definition image_open (image_path : string) : io world image :=
  run* emit (EvOpen image_path) in
  fun w =>
    match disk w !! image_path with
    | Some bytes => (pil_open bytes, w)
    | None => (Raise (Exception "FileNotFoundError" image_path), w)
    end.

Definition run_transform (image_path : string) (img : image) : io world tensor :=
  run* emit (EvTransform image_path) in io_lift (transform img).

Definition run_model (image_path : string) (t : tensor) : io world (list Q) :=
  run* emit (EvModel image_path) in io_lift (model t).

(** The [try] block of [predict_image]. *)
Definition predict_image_body (image_path : string) : io world prediction :=
  let* image := image_open image_path in
  let* img_tensor := run_transform image_path image in
  let* outputs := run_model image_path img_tensor in
  let probs := softmax outputs in
  let* class_id := io_lift (argmax outputs) in
  let* predicted_class := io_lift (getitem_list CLASS_NAMES class_id) in
  let info := assoc predicted_class DISEASE_INFO in
  let* conf := io_lift (getitem_list probs class_id) in
  io_ret (result_dict predicted_class info conf probs).

(** The same steps as a function of the bytes found at the path, and the
    calls they make. *)
Definition classify (bytes : content) : outcome prediction :=
  let! image := pil_open bytes in
  let! img_tensor := transform image in
  let! outputs := model img_tensor in
  let probs := softmax outputs in
  let! class_id := argmax outputs in
  let! predicted_class := getitem_list CLASS_NAMES class_id in
  let info := assoc predicted_class DISEASE_INFO in
  let! conf := getitem_list probs class_id in
  Ret (result_dict predicted_class info conf probs).

Definition classify_events (image_path : string) (bytes : content) : list event :=
  EvOpen image_path ::
  match pil_open bytes with
  | Raise _ => []
  | Ret image =>
      EvTransform image_path ::
      match transform image with
      | Raise _ => []
      | Ret _ => [EvModel image_path]
      end
  end.

(** [predict_image]: the dict, or [None] after any exception.  The handler
    also prints the exception; this is the function on a console that takes
    the message, and [Console.predict_image] has the print. *)
Definition predict_image (image_path : string) : io world (option prediction) :=
  io_try
    (let* p := predict_image_body image_path in io_ret (Some p))
    (fun _ => io_ret None).

(** [requests.get(url, timeout=10)] *)
Definition http_get (call : http_call) : io world http_response :=
  run* emit (EvGet call) in io_lift (requests_get call).

(** The [try] block of [get_weather]. *)
Definition get_weather_body (city : string) : io world json :=
  let api_key := "f3ac3e90c50e44c29cb141812252509" in
  let url := "http://api.weatherapi.com/v1/current.json?key=" +:+ api_key
             +:+ "&q=" +:+ city +:+ "&aqi=no" in
  let* res := http_get {| url := url; timeout := Some 10%Z |} in
  io_lift (
    let! data := json_body res in
    if (status_code res =? 200)%Z then
      let! current := getitem data "current" in
      let! temp := getitem current "temp_c" in
      let! current := getitem data "current" in
      let! humidity := getitem current "humidity" in
      let! current := getitem data "current" in
      let! condition := getitem current "condition" in
      let! text := getitem condition "text" in
      let! current := getitem data "current" in
      let! condition := getitem current "condition" in
      let! text' := getitem condition "text" in
      let! lowered := json_lower text' in
      Ret (JObj [("temp", temp); ("humidity", humidity); ("weather", text);
                 ("rain", JBool (str_in "rain" lowered))])
    else
      let! err := dict_get data "error" (JObj []) in
      let! message := dict_get err "message" (JStr "Weather fetch failed") in
      Ret (JObj [("error", message)])).

Definition get_weather (city : string) : io world json :=
  io_try (get_weather_body city)
         (fun e => io_ret (JObj [("error", JStr (str_exn e))])).

(** One element of the list [/predict] returns. *)
Inductive entry :=
| Prediction (p : prediction)
| Error (msg : string).

(** What a route gives back to Flask. *)
Inductive reply :=
| JsonError (msg : string) (status : Z)
| JsonList (results : list entry).

(** The [for file in files] loop of [predict], from the results so far. *)
Fixpoint predict_loop (files : list (FileStorage content)) (results : list entry)
  : io world (list entry) :=
  match files with
  | [] => io_ret results
  | file :: files' =>
      if file_truthy file && allowed_file (filename file) then
        let filepath := os_path_join UPLOAD_FOLDER (filename file) in
        run* file_save file filepath in
        let* pred := predict_image filepath in
        match pred with
        | Some p => predict_loop files' (results ++ [Prediction p])
        | None => predict_loop files' (results ++ [Error "Failed to process image"])
        end
      else
        predict_loop files' (results ++ [Error ("Invalid file: " +:+ filename file)])
  end.

(** [request.files]: the uploaded parts in order, each under its field name. *)
Definition Request : Type := list (string * FileStorage content).

Definition getlist (field : string) (request_files : Request) : list (FileStorage content) :=
  map snd (List.filter (fun kv => String.eqb (fst kv) field) request_files).

(** The [/predict] route.  An exception that leaves it, [Raise], is answered
    by Flask with status 500 and no result list. *)
Definition predict (request_files : Request) : io world reply :=
  if negb (existsb (String.eqb "images") (keys request_files)) then
    io_ret (JsonError "No images provided" 400)
  else
    let files := getlist "images" request_files in
    if match files with [] => true | _ => false end
       || forallb (fun f => (filename f =? "")%string) files then
      io_ret (JsonError "No files selected" 400)
    else
      let* results := predict_loop files [] in
      io_ret (JsonList results).

(** The [/weather] route; the city defaults to eMpangeni. *)
Definition weather (city : option string) : io world json :=
  get_weather (match city with Some c => c | None => "eMpangeni" end).

End Service.

End ViT.

(* ===================================================================== *)
(** ** [nuuuttsss.py]: the Keras service *)
(* ===================================================================== *)

Module Keras.

Definition ALLOWED_EXTENSIONS : gset string := {[ "png"; "jpg"; "jpeg"; "webp" ]}.

Definition CLASSES : list string := [
  "early_rust_1";
  "late_leaf_spot_1";
  "nutrition_deficiency_1";
  "healthy_leaf_1";
  "early_leaf_spot_1";
  "rust_1"
].

Definition DISEASE_INFO : list (string * disease_record) := [
  ("early_rust_1", {|
     name := "Early Rust";
     causes := [
       "Moderate temperatures (20-25°C) with high humidity";
       "Frequent dew or rainfall";
       "Wind-borne spores from nearby infected plants";
       "Nutrient deficiency weakening plant immunity"
     ];
     cure := [
       "Apply Triadimefon 25% WP @ 1g/L";
       "Use Hexaconazole 5% SC @ 2ml/L";
       "Improve air circulation in the field";
       "Remove and destroy infected leaves"
     ];
     prevention := [
       "Plant rust-resistant varieties";
       "Maintain good irrigation practices";
       "Balance soil nutrients";
       "Regularly inspect crops for early signs"
     ];
     weather_alerts := [
       ("high_humidity", "High humidity detected! Increase monitoring for rust spread.")
     ] |});
  ("late_leaf_spot_1", {|
     name := "Late Leaf Spot";
     causes := [
       "High humidity (>85%)";
       "Cool to moderate temperatures (20-25°C)";
       "Prolonged leaf wetness";
       "Dense plant canopy restricting airflow"
     ];
     cure := [
       "Apply Chlorothalonil 75% WP @ 2g/L";
       "Use Tebuconazole + Sulphur mix";
       "Alternate between contact and systemic fungicides"
     ];
     prevention := [
       "Use resistant cultivars";
       "Increase plant spacing";
       "Irrigate in mornings for faster drying";
       "Remove infected crop debris"
     ];
     weather_alerts := [
       ("high_humidity", "High humidity may worsen leaf spot. Avoid overhead irrigation.")
     ] |});
  ("nutrition_deficiency_1", {|
     name := "Nutritional Deficiency";
     causes := [
       "Imbalanced or inadequate fertilization";
       "Soil pH too low or too high";
       "Poor organic matter in soil";
       "Waterlogged or excessively dry conditions"
     ];
     cure := [
       "Conduct soil testing";
       "Apply correct fertilizers based on deficiency";
       "Use foliar sprays for quick correction"
     ];
     prevention := [
       "Maintain optimal soil pH";
       "Add compost or manure regularly";
       "Follow recommended fertilizer schedules"
     ];
     weather_alerts := [
       ("high_rain", "Heavy rain may leach nutrients. Check soil health.")
     ] |});
  ("healthy_leaf_1", {|
     name := "Healthy Leaf";
     causes := [
       "Optimal growing conditions";
       "Balanced nutrition";
       "Good soil health";
       "Effective pest and disease management"
     ];
     cure := [
       "Continue good agricultural practices";
       "Regular monitoring for early problem detection"
     ];
     prevention := [
       "Use high-quality seeds";
       "Maintain crop rotation";
       "Avoid over- or under-irrigation"
     ];
     weather_alerts := [
       ("high_humidity", "Healthy leaves detected, but monitor for fungal risks in humid conditions.")
     ] |});
  ("early_leaf_spot_1", {|
     name := "Early Leaf Spot";
     causes := [
       "High humidity and warm temperatures";
       "Poor air circulation";
       "Overhead irrigation causing wet leaves";
       "Infected crop residues in soil"
     ];
     cure := [
       "Apply copper-based fungicides";
       "Use Propiconazole 25% EC";
       "Remove infected leaves immediately"
     ];
     prevention := [
       "Use disease-resistant varieties";
       "Improve plant spacing";
       "Switch to drip irrigation"
     ];
     weather_alerts := [
       ("high_humidity", "High humidity increases leaf spot risk. Use drip irrigation.")
     ] |});
  ("rust_1", {|
     name := "Advanced Rust";
     causes := [
       "Untreated early rust progression";
       "Persistent humid conditions";
       "Delayed disease control measures"
     ];
     cure := [
       "Apply Propiconazole 25% EC";
       "Combine systemic and contact fungicides";
       "Increase spraying frequency"
     ];
     prevention := [
       "Early detection and treatment";
       "Monitor weather for rust-favoring conditions";
       "Maintain optimal plant health"
     ];
     weather_alerts := [
       ("high_humidity", "Advanced rust detected! Urgent action needed in humid conditions.")
     ] |})
].

(** ['.' in filename and filename.rsplit('.', 1)[1].lower() in ALLOWED_EXTENSIONS] *)
Definition allowed_file (filename : string) : bool :=
  str_in "." filename &&
  match getitem_list (rsplit1 filename ".") 1 with
  | Ret ext => bool_decide (lower ext ∈ ALLOWED_EXTENSIONS)
  | Raise _ => false
  end.

(** What the script gets from PIL, numpy, TensorFlow and requests. *)
Class Backend := {
  content : Type;
  array : Type;
  (** the [try] block of [preprocess_image]: open, convert to RGB, resize to
      224x224, scale by 1/255, add the batch dimension *)
  pil_preprocess : content -> outcome array;
  (** the global [model]: [None] when [load_model] raised at start-up,
      otherwise [model.predict(image_array)[0]] *)
  model : option (array -> outcome (list Q));
  (** [requests.get] *)
  requests_get : http_call -> outcome http_response
}.

(** Calls that leave the process. *)
Inductive event :=
| EvPreprocess (fname : string)
| EvModel
| EvGet (call : http_call).

Section Service.
Context {B : Backend}.

Definition emit (e : event) : io (list event) unit :=
  fun w => (Ret tt, (w ++ [e])%list).

(** [preprocess_image]: the array, or [None] after any exception.  The
    handler also prints the exception; this is the function on a console that
    takes the message, and [Console.preprocess_image] has the print. *)
Definition preprocess_image (image_file : FileStorage content) : io (list event) (option array) :=
  io_try
    (run* emit (EvPreprocess (filename image_file)) in
     let* image_array := io_lift (pil_preprocess (stream image_file)) in
     io_ret (Some image_array))
    (fun _ => io_ret None).

(** [model.predict(image_array)] followed by [[0]] *)
Definition model_predict (predict_fn : array -> outcome (list Q)) (image_array : array)
  : io (list event) (list Q) :=
  run* emit EvModel in io_lift (predict_fn image_array).

(** The [try] block of [predict_class]. *)
Definition predict_class_body (image_array : array) : io (list event) prediction :=
  let* predict_fn :=
    io_lift (match model with
             | None => Raise (Exception "Exception" "Model not loaded")
             | Some f => Ret f
             end) in
  let* predictions0 := model_predict predict_fn image_array in
  let* predicted_class_idx := io_lift (argmax predictions0) in
  let* conf := io_lift (getitem_list predictions0 predicted_class_idx) in
  let* predicted_class := io_lift (getitem_list CLASSES predicted_class_idx) in
  let info := assoc predicted_class DISEASE_INFO in
  io_ret (result_dict predicted_class info conf predictions0).

(** The same steps as a function of the array. *)
Definition classify (image_array : array) : outcome prediction :=
  let! predict_fn :=
    match model with
    | None => Raise (Exception "Exception" "Model not loaded")
    | Some f => Ret f
    end in
  let! predictions0 := predict_fn image_array in
  let! predicted_class_idx := argmax predictions0 in
  let! conf := getitem_list predictions0 predicted_class_idx in
  let! predicted_class := getitem_list CLASSES predicted_class_idx in
  let info := assoc predicted_class DISEASE_INFO in
  Ret (result_dict predicted_class info conf predictions0).

(** [predict_class]: the dict, or [None] after any exception.  The handler
    also prints the exception; this is the function on a console that takes
    the message, and [Console.predict_class] has the print. *)
Definition predict_class (image_array : array) : io (list event) (option prediction) :=
  io_try
    (let* p := predict_class_body image_array in io_ret (Some p))
    (fun _ => io_ret None).

(** [requests.get(url)] *)
Definition http_get (call : http_call) : io (list event) http_response :=
  run* emit (EvGet call) in io_lift (requests_get call).

(** The [try] block of [get_weather]. *)
Definition get_weather_body (city : string) : io (list event) json :=
  let api_key := "f3ac3e90c50e44c29cb141812252509" in
  let url := "http://api.weatherapi.com/v1/current.json?key=" +:+ api_key
             +:+ "&q=" +:+ city +:+ "&aqi=no" in
  let* response := http_get {| url := url; timeout := None |} in
  io_lift (
    let! data := json_body response in
    if (status_code response =? 200)%Z then
      let! current := getitem data "current" in
      let! temp := getitem current "temp_c" in
      let! current := getitem data "current" in
      let! humidity := getitem current "humidity" in
      let! current := getitem data "current" in
      let! condition := getitem current "condition" in
      let! text := getitem condition "text" in
      let! current := getitem data "current" in
      let! condition := getitem current "condition" in
      let! text' := getitem condition "text" in
      let! lowered := json_lower text' in
      Ret (JObj [("temp", temp); ("humidity", humidity); ("weather", text);
                 ("rain", JBool (str_in "rain" lowered))])
    else
      let! err := dict_get data "error" (JObj []) in
      let! message := dict_get err "message" (JStr "Failed to fetch weather") in
      Ret (JObj [("error", message)])).

Definition get_weather (city : string) : io (list event) json :=
  io_try (get_weather_body city)
         (fun e => io_ret (JObj [("error", JStr (str_exn e))])).

(** What [/predict] gives back to Flask: a JSON body and a status. *)
Inductive reply :=
| JsonError (msg : string) (status : Z)
| JsonPrediction (p : prediction).

(** [request.files]: the uploaded parts in order, each under its field name. *)
Definition Request : Type := list (string * FileStorage content).

(** The [/predict] route; [request.files['image']] is the first part under
    that field, and there is none exactly when ['image' not in request.files]. *)
Definition predict (request_files : Request) : io (list event) reply :=
  match assoc "image" request_files with
  | None => io_ret (JsonError "No image file provided" 400)
  | Some file =>
      if (filename file =? "")%string then
        io_ret (JsonError "No file selected" 400)
      else if negb (allowed_file (filename file)) then
        io_ret (JsonError "Invalid file type. Please upload PNG, JPG, JPEG, or WebP files." 400)
      else
        let* image_array := preprocess_image file in
        match image_array with
        | None => io_ret (JsonError "Error processing image" 500)
        | Some arr =>
            let* prediction_result := predict_class arr in
            match prediction_result with
            | None => io_ret (JsonError "Error making prediction" 500)
            | Some p => io_ret (JsonPrediction p)
            end
        end
  end.

(** The [/weather] route; the city defaults to eMpangeni.  [get_weather]
    never returns [None], so only the test for an "error" key matters. *)
Definition weather (city : option string) : io (list event) (json * Z) :=
  let* weather_data := get_weather (match city with Some c => c | None => "eMpangeni" end) in
  match weather_data with
  | JObj fields =>
      if existsb (String.eqb "error") (keys fields) then
        match assoc "error" fields with
        | Some message => io_ret (JObj [("error", message)], 400%Z)
        | None => io_ret (JObj [("error", JStr "Unable to fetch weather data")], 400%Z)
        end
      else io_ret (weather_data, 200%Z)
  | _ => io_lift (Raise (TypeError "argument is not iterable"))
  end.

End Service.

End Keras.

(* ===================================================================== *)
(** ** [final year project/modelinfo.py]: the checkpoint loader *)
(* ===================================================================== *)

Module ModelInfo.

(** What [torch.load] can return, as far as [load_model] inspects it: a
    tensor, a dict with string keys (its items in insertion order), or any
    other object. *)
#[warnings="-register-all"]
Inductive pyobj (tensor : Type) : Type :=
| Tensor (t : tensor)
| Dict (items : list (string * pyobj tensor))
| Other.
Arguments Tensor {tensor} t.
Arguments Dict {tensor} items.
Arguments Other {tensor}.

(** What the script gets from torch. *)
Class Backend := {
  tensor : Type;
  (** the [ViT()] instance after weights are loaded, moved and set to eval *)
  loaded_model : Type;
  (** [torch.load(model_path, map_location=device)] *)
  torch_load : string -> outcome (pyobj tensor);
  (** [model.load_state_dict(new_checkpoint)] on a fresh [ViT()], then
      [model.to(device)] and [model.eval()] *)
  load_state_dict : gmap string (pyobj tensor) -> outcome loaded_model
}.

Section Loader.
Context {B : Backend}.

(** The [for k, v in checkpoint.items()] loop, from the dict built so far. *)
Fixpoint strip_loop (items : list (string * pyobj tensor))
                    (new_checkpoint : gmap string (pyobj tensor))
  : gmap string (pyobj tensor) :=
  match items with
  | [] => new_checkpoint
  | (k, v) :: items' =>
      if startswith k "module." then
        strip_loop items' (<[slice_from 7 k := v]> new_checkpoint)
      else
        strip_loop items' (<[k := v]> new_checkpoint)
  end.

(** [load_model] from the object [torch.load] returned. *)
Definition load_checkpoint (checkpoint : pyobj tensor) : outcome loaded_model :=
  let checkpoint :=
    match checkpoint with
    | Dict items =>
        match assoc "state_dict" items with
        | Some inner => inner
        | None => checkpoint
        end
    | _ => checkpoint
    end in
  let! items :=
    match checkpoint with
    | Dict items => Ret items
    | _ => Raise (AttributeError "object has no attribute 'items'")
    end in
  let new_checkpoint := strip_loop items ∅ in
  load_state_dict new_checkpoint.

Definition load_model (model_path : string) : outcome loaded_model :=
  let! checkpoint := torch_load model_path in
  load_checkpoint checkpoint.

End Loader.

(** The key a checkpoint key is stored under by the loop. *)
Definition stripped (k : string) : string :=
  if startswith k "module." then slice_from 7 k else k.

(** The same checkpoint as saved from a model wrapped for distributed
    training: every key carries the prefix. *)
Definition with_prefix {tensor} (items : list (string * pyobj tensor))
  : list (string * pyobj tensor) :=
  map (fun kv => ("module." +:+ fst kv, snd kv)) items.

End ModelInfo.

(* ===================================================================== *)
(** ** The specification's own wording, to be compared with the code *)
(* ===================================================================== *)

Module Wording.

(** "The substring after the last '.'": reading the name left to right, each
    '.' makes the rest of the name the candidate; [None] when the name has no
    '.' at all. *)
Fixpoint extension_from (s : string) (candidate : option string) : option string :=
  match s with
  | EmptyString => candidate
  | String c s' =>
      if Ascii.eqb c "." then extension_from s' (Some s')
      else extension_from s' candidate
  end.

Definition extension (filename : string) : option string :=
  extension_from filename None.

(** "Lowercased, is one of {png, jpg, jpeg, webp}". *)
Definition supported (filename : string) : bool :=
  match extension filename with
  | None => false
  | Some ext =>
      existsb (String.eqb (lower ext)) ["png"; "jpg"; "jpeg"; "webp"]
  end.

(** "The maximum element" of a score vector. *)
Definition is_maximum (x : Q) (v : list Q) : Prop :=
  In x v /\ forall y, In y v -> (y <= x)%Q.

(** A probability vector keeps the order of the logits it is computed from:
    checked on all pairs of positions. *)
Definition order_kept (logits probs : list Q) : bool :=
  (length logits =? length probs)%nat &&
  forallb (fun a =>
    forallb (fun b => implb (Qle_bool (fst a) (fst b)) (Qle_bool (snd a) (snd b)))
            (combine logits probs))
    (combine logits probs).

(** "A snapshot dict with keys temp, humidity, weather, rain". *)
Definition is_snapshot (r : json) : Prop :=
  exists temp humidity text rain,
    r = JObj [("temp", temp); ("humidity", humidity);
              ("weather", JStr text); ("rain", JBool rain)].

(** "A dict containing an "error" message string". *)
Definition is_error_message (r : json) : Prop :=
  exists msg, r = JObj [("error", JStr msg)].

(** "The human-readable disease name and non-empty causes, cure, and
    prevention lists". *)
Definition described (r : disease_record) : bool :=
  negb (name r =? "")%string &&
  negb (length (causes r) =? 0)%nat &&
  negb (length (cure r) =? 0)%nat &&
  negb (length (prevention r) =? 0)%nat.

(** "Every label in the class list is a key of the dictionary", with such a
    record. *)
Definition covered (labels : list string) (table : list (string * disease_record)) : bool :=
  forallb (fun label =>
             match assoc label table with
             | Some r => described r
             | None => false
             end) labels.

End Wording.

(* ===================================================================== *)
(** ** Accounts of the routes as functions of their inputs *)
(* ===================================================================== *)

Module Account.

Section Upload.
Context {B : ViT.Backend}.

Definition upload_path (file : FileStorage ViT.content) : string :=
  os_path_join ViT.UPLOAD_FOLDER (filename file).

(** "A prediction object for each file that is valid and processed
    successfully, and an error entry for each file that is invalid or fails
    processing": the entry of one file, from that file alone. *)
Definition entry_of (file : FileStorage ViT.content) : ViT.entry :=
  if Wording.supported (filename file) then
    match ViT.classify (stream file) with
    | Ret p => ViT.Prediction p
    | Raise _ => ViT.Error "Failed to process image"
    end
  else ViT.Error ("Invalid file: " +:+ filename file).

(** Every accepted upload can be written where the handler puts it. *)
Definition storable (files : list (FileStorage ViT.content)) : bool :=
  forallb (fun f => implb (Wording.supported (filename f)) (ViT.save_ok (upload_path f)))
          files.

(** What the loop returns: the entries in upload order, unless a write
    raises, which ends the request. *)
Fixpoint loop_outcome (files : list (FileStorage ViT.content)) (results : list ViT.entry)
  : outcome (list ViT.entry) :=
  match files with
  | [] => Ret results
  | f :: files' =>
      if Wording.supported (filename f) && negb (ViT.save_ok (upload_path f))
      then Raise (Exception "OSError" (upload_path f))
      else loop_outcome files' (results ++ [entry_of f])
  end.

(** The calls the loop makes. *)
Fixpoint loop_events (files : list (FileStorage ViT.content)) : list ViT.event :=
  match files with
  | [] => []
  | f :: files' =>
      if Wording.supported (filename f) then
        ViT.EvSave (upload_path f) ::
        (if ViT.save_ok (upload_path f)
         then ViT.classify_events (upload_path f) (stream f) ++ loop_events files'
         else [])
      else loop_events files'
  end.

(** The upload folder the loop leaves. *)
Fixpoint loop_disk (files : list (FileStorage ViT.content)) (d : gmap string ViT.content)
  : gmap string ViT.content :=
  match files with
  | [] => d
  | f :: files' =>
      if Wording.supported (filename f) then
        if ViT.save_ok (upload_path f)
        then loop_disk files' (<[upload_path f := stream f]> d)
        else d
      else loop_disk files' d
  end.

End Upload.


(** The URL both scripts request for a city. *)
Definition weather_url (city : string) : string :=
  "http://api.weatherapi.com/v1/current.json?key=f3ac3e90c50e44c29cb141812252509&q="
  +:+ city +:+ "&aqi=no".

(** What [get_weather] makes of a response, in either script; [default] is
    the script's message for an error body without one. *)
Definition weather_payload (default : string) (res : http_response) : outcome json :=
  let! data := json_body res in
  if (status_code res =? 200)%Z then
    let! current := getitem data "current" in
    let! temp := getitem current "temp_c" in
    let! humidity := getitem current "humidity" in
    let! condition := getitem current "condition" in
    let! text := getitem condition "text" in
    let! lowered := json_lower text in
    Ret (JObj [("temp", temp); ("humidity", humidity); ("weather", text);
               ("rain", JBool (str_in "rain" lowered))])
  else
    let! err := dict_get data "error" (JObj []) in
    let! message := dict_get err "message" (JStr default) in
    Ret (JObj [("error", message)]).

(** What [get_weather] returns for an outcome of the request. *)
Definition weather_reply (default : string) (got : outcome http_response) : json :=
  match bind got (weather_payload default) with
  | Ret r => r
  | Raise e => JObj [("error", JStr (str_exn e))]
  end.

(** The shapes a reply to [got] can have: a snapshot, only after a 200
    response; an error with a message string; or the [error.message] of a
    non-200 response (the default when the body has none) passed on as it is. *)
Definition reply_shape (default : string) (got : outcome http_response) (r : json) : Prop :=
  (Wording.is_snapshot r /\ exists res, got = Ret res /\ status_code res = 200%Z) \/
  Wording.is_error_message r \/
  (exists res data err v,
      got = Ret res /\ status_code res <> 200%Z /\ json_body res = Ret data /\
      dict_get data "error" (JObj []) = Ret err /\
      dict_get err "message" (JStr default) = Ret v /\
      r = JObj [("error", v)]).


End Account.

(* ===================================================================== *)
(** ** Small backends to run the services on *)
(* ===================================================================== *)

Module Examples.

(** A stand-in for softmax on rational scores: weights [2 ^ floor x],
    divided by their sum. *)
Definition softmax2 (l : list Q) : list Q :=
  let weights := map (fun x => Qpower 2 (Qfloor x)) l in
  let total := fold_right Qplus 0%Q weights in
  map (fun x => Qred (x / total)) weights.

(** Uploads are text; PIL reads those that start with "img". *)
Definition read_image (bytes : string) : outcome string :=
  if String.prefix "img" bytes then Ret bytes
  else Raise (Exception "UnidentifiedImageError" "cannot identify image file").

(** Only files directly under [uploads/] can be written. *)
Definition in_upload_folder (path : string) : bool :=
  String.prefix "uploads/" path && negb (str_in "/" (slice_from 8 path)).

(** The weather service: a snapshot for eMpangeni, a documented error for
    an unknown place, an error whose message is a number for "Atlantis", and
    no connection for an empty city. *)
Definition weather_api (call : http_call) : outcome http_response :=
  if str_in "&q=eMpangeni&" (url call) then
    Ret {| status_code := 200;
           json_body := Ret (JObj [("current", JObj [
             ("temp_c", JNum (47 # 2));
             ("humidity", JNum 81);
             ("condition", JObj [("text", JStr "Light Rain")])])]) |}
  else if str_in "&q=Atlantis&" (url call) then
    Ret {| status_code := 400;
           json_body := Ret (JObj [("error", JObj [("message", JNum 1006)])]) |}
  else if str_in "&q=&" (url call) then
    Raise (Exception "ConnectionError" "Max retries exceeded")
  else
    Ret {| status_code := 400;
           json_body := Ret (JObj [("error", JObj [
             ("code", JNum 1006);
             ("message", JStr "No matching location found.")])]) |}.

(** The ViT service on a classifier whose logits depend on the length of
    the upload. *)
Definition vit : ViT.Backend := {|
  ViT.content := string;
  ViT.image := string;
  ViT.tensor := nat;
  ViT.pil_open := read_image;
  ViT.transform := fun img => Ret (String.length img);
  ViT.model := fun t => Ret [0; inject_Z (Z.of_nat t); 2; 1; 0; 0; 0; 0]%Q;
  ViT.softmax := softmax2;
  ViT.save_ok := in_upload_folder;
  ViT.requests_get := weather_api
|}.

Definition empty_world : @ViT.world vit := {| ViT.disk := ∅; ViT.log := [] |}.

(** The Keras service on a model with six outputs. *)
Definition keras : Keras.Backend := {|
  Keras.content := string;
  Keras.array := nat;
  Keras.pil_preprocess := fun bytes => bind (read_image bytes) (fun img => Ret (String.length img));
  Keras.model := Some (fun n => Ret [(1 # 10); (1 # 10); (6 # 10); (1 # 10); (1 # 20); (1 # 20)]%Q);
  Keras.requests_get := weather_api
|}.



(** The loader on checkpoints whose tensors are numbers, for a model with
    the two parameters [head.weight] and [head.bias]. *)
Definition loader : ModelInfo.Backend := {|
  ModelInfo.tensor := nat;
  ModelInfo.loaded_model := gmap string (ModelInfo.pyobj nat);
  ModelInfo.torch_load := fun _ => Raise (Exception "FileNotFoundError" "no such file");
  ModelInfo.load_state_dict := fun sd =>
    if bool_decide (dom sd = ({[ "head.weight"; "head.bias" ]} : gset string))
    then Ret sd
    else Raise (Exception "RuntimeError" "Error(s) in loading state_dict for ViT")
|}.

(** A checkpoint of that model, and one that holds [head.weight] twice, once
    under the prefixed key. *)
Definition plain_checkpoint : list (string * ModelInfo.pyobj nat) :=
  [("head.weight", ModelInfo.Tensor 1%nat); ("head.bias", ModelInfo.Tensor 2%nat)].

Definition colliding_checkpoint : list (string * ModelInfo.pyobj nat) :=
  [("module.head.weight", ModelInfo.Tensor 1%nat);
   ("head.weight", ModelInfo.Tensor 2%nat);
   ("head.bias", ModelInfo.Tensor 3%nat)].

(** Three uploads: a readable image, a text file, and a file named as an
    image that PIL cannot read. *)
Definition leaf : FileStorage string := {| filename := "leaf.PNG"; stream := "img-abc" |}.


(** Two parts with no file chosen, as a browser sends them. *)
(** A good upload followed by one whose name points into a folder that does
    not exist. *)
Definition second_unwritable : @ViT.Request vit :=
  [("images", leaf);
   ("images", {| filename := "batch/leaf.png"; stream := "img-def" |})].


End Examples.

(* ===================================================================== *)
(** ** The upload folder of the ViT service *)
(* ===================================================================== *)

Module Folder.

Section Uploads.
Context {B : ViT.Backend}.


End Uploads.

End Folder.

(* ===================================================================== *)
(** ** More small backends and inputs *)
(* ===================================================================== *)

Module MoreExamples.





End MoreExamples.

(* ===================================================================== *)
(** ** Float arithmetic *)
(* ===================================================================== *)

(** A Python float is a binary64 number, and the result of an operation on
    floats is the exact result rounded to the nearest float, ties to the
    even significand.  Finite floats are rationals; overflow to infinity is
    outside the model. *)
Module Float.

(** [2 ^ k] for any integer [k]. *)
Definition pow2 (k : Z) : Q :=
  if (0 <=? k)%Z then inject_Z (2 ^ k) else 1 # Z.to_pos (2 ^ (- k)).

(** The [e] with [2 ^ e <= n / d < 2 ^ (e + 1)]. *)
Definition exponent (n d : positive) : Z :=
  let e0 := (Z.log2 (Zpos n) - Z.log2 (Zpos d))%Z in
  if Qle_bool (pow2 e0) (Zpos n # d) then e0 else (e0 - 1)%Z.

(** [N / D] rounded to the nearest integer, ties to even, for [0 <= N] and
    [0 < D]. *)
Definition round_half_even (N D : Z) : Z :=
  let q := (N / D)%Z in
  match (2 * (N mod D) ?= D)%Z with
  | Lt => q
  | Gt => (q + 1)%Z
  | Eq => if Z.even q then q else (q + 1)%Z
  end.

(** The float nearest to [n / d]: 53 significant bits, and multiples of
    [2 ^ -1074] below [2 ^ -1022]. *)
Definition round_pos (n d : positive) : Q :=
  let p := Z.max (exponent n d - 52) (-1074) in
  let m := if (0 <=? p)%Z
           then round_half_even (Zpos n) (Zpos d * 2 ^ p)
           else round_half_even (Zpos n * 2 ^ (- p)) (Zpos d) in
  (inject_Z m * pow2 p)%Q.

(** The float nearest to a rational, in lowest terms. *)
Definition round (q : Q) : Q :=
  Qred match Qnum q with
       | Z0 => 0%Q
       | Zpos n => round_pos n (Qden q)
       | Zneg n => (- round_pos n (Qden q))%Q
       end.

(** [a - b] of two floats. *)
Definition sub (a b : Q) : Q := round (a - b).

(** [float(n)] of an int, as in an operation that mixes the two. *)
Definition of_int (n : Z) : outcome Q :=
  let f := round (inject_Z n) in
  if Qle_bool (pow2 1024) f || Qle_bool f (- pow2 1024)
  then Raise (Exception "OverflowError" "int too large to convert to float")
  else Ret f.

(** [a / n] of a float by an int. *)
Definition div_int (a : Q) (n : Z) : outcome Q :=
  let! d := of_int n in
  if Qeq_bool d 0
  then Raise (Exception "ZeroDivisionError" "float division by zero")
  else Ret (round (a / d)).

End Float.

(* ===================================================================== *)
(** ** [final year project/modelinfo.py]: the report functions *)
(* ===================================================================== *)

Module Benchmark.

(** One tensor of [model.parameters()]: [p.numel()] and [p.requires_grad]. *)
Record parameter := {
  numel : nat;
  requires_grad : bool
}.

(** [sum(...)] over a generator of ints: added from the left, from 0. *)
Definition py_sum (l : list nat) : nat := fold_left Nat.add l 0%nat.

(** [count_parameters]: the pair [(total_params, trainable_params)]. *)
Definition count_parameters (parameters : list parameter) : nat * nat :=
  let total_params := py_sum (map numel parameters) in
  let trainable_params :=
    py_sum (map numel (List.filter requires_grad parameters)) in
  (total_params, trainable_params).

(** What [average_inference_time] gets from torch and the clock. *)
Class Backend := {
  (** [model(dummy_input)]: what the n-th forward pass of the process does *)
  forward_pass : nat -> outcome unit;
  (** [time.time()]: the n-th reading of the clock, a float *)
  clock : nat -> Q
}.

(** Forward passes started and clock readings made so far. *)
Record world := {
  passes : nat;
  reads : nat
}.

Section Timing.
Context {B : Backend}.

(** [_ = model(dummy_input)] *)
Definition model_call : io world unit :=
  fun w => (forward_pass (passes w), {| passes := S (passes w); reads := reads w |}).

(** [time.time()] *)
Definition time_time : io world Q :=
  fun w => (Ret (clock (reads w)), {| passes := passes w; reads := S (reads w) |}).

(** [for _ in range(n): _ = model(dummy_input)] *)
Fixpoint repeat_call (n : nat) : io world unit :=
  match n with
  | O => io_ret tt
  | S n' => run* model_call in repeat_call n'
  end.

(** [average_inference_time(model, device, runs=runs)] for an int [runs];
    [range(runs)] is empty for a negative [runs], and [(end - start) / runs]
    is a float subtraction followed by the division of a float by an int. *)
Definition average_inference_time (runs : Z) : io world Q :=
  run* repeat_call 10 in
  let* start := time_time in
  run* repeat_call (Z.to_nat runs) in
  let* stop := time_time in
  io_lift (Float.div_int (Float.sub stop start) runs).

End Timing.

End Benchmark.

(* ===================================================================== *)
(** ** [final year project/vitmodel.py]: the training script *)
(* ===================================================================== *)

Module Training.

Definition BATCH_SIZE : nat := 4.
Definition EPOCHS : nat := 10.
Definition ACCUMULATION_STEPS : nat := 4.

(** What the script gets from torch, torchvision and transformers. *)
Class Backend := {
  (** one [(images, labels)] pair as a loader yields it *)
  batch : Type;
  labels : batch -> list nat;
  (** [model(images).logits], one row per image: in train mode ([true]) or
      eval mode, at the given epoch and step (which stand for the random
      state of the call), under the weights the optimizer steps taken so far
      have produced *)
  logits : bool -> nat -> nat -> list (list batch) -> batch -> outcome (list (list Q));
  (** [criterion(outputs, labels)] *)
  criterion : list (list Q) -> list nat -> outcome Q;
  (** the batches [train_loader] yields in the given epoch; it shuffles *)
  train_loader : nat -> list batch;
  val_loader : list batch;
  (** [len(train_data)] and [len(val_data)] *)
  len_train_data : nat;
  len_val_data : nat
}.

Section Script.
Context {B : Backend}.

(** The optimizer and the gradients it sees: the optimizer steps taken, each
    with the batches whose gradients it applied, and the batches whose
    gradients are accumulated in [.grad] since the last [zero_grad]. *)
Record optimizer_state := {
  steps : list (list batch);
  grads : list batch
}.

(** [optimizer.zero_grad()] *)
Definition zero_grad (o : optimizer_state) : optimizer_state :=
  {| steps := steps o; grads := [] |}.

(** [loss.backward()] for the loss of batch [b] *)
Definition backward (b : batch) (o : optimizer_state) : optimizer_state :=
  {| steps := steps o; grads := grads o ++ [b] |}.

(** [optimizer.step()] *)
Definition optimizer_step (o : optimizer_state) : optimizer_state :=
  {| steps := steps o ++ [grads o]; grads := grads o |}.

(** [(outputs.argmax(1) == labels).sum().item()]; rows and labels of
    different numbers cannot be compared. *)
Fixpoint count_correct (outputs : list (list Q)) (targets : list nat) : outcome nat :=
  match outputs, targets with
  | [], [] => Ret 0%nat
  | row :: outputs', target :: targets' =>
      let! predicted := argmax row in
      let! rest := count_correct outputs' targets' in
      Ret ((if (predicted =? target)%nat then 1 else 0) + rest)%nat
  | _, _ => Raise (Exception "RuntimeError" "The size of tensor a must match the size of tensor b")
  end.

(** [a / b] for two ints. *)
Definition true_div (a b : nat) : outcome Q :=
  if (b =? 0)%nat then Raise (Exception "ZeroDivisionError" "division by zero")
  else Ret (inject_Z (Z.of_nat a) / inject_Z (Z.of_nat b))%Q.

(** The running values of one epoch. *)
Record progress := {
  opt : optimizer_state;
  total_loss : Q;
  correct : nat
}.

(** The [for step, (images, labels) in enumerate(loop)] loop, from [step]. *)
Fixpoint train_steps (epoch step : nat) (batches : list batch) (p : progress)
  : outcome progress :=
  match batches with
  | [] => Ret p
  | b :: batches' =>
      let! outputs := logits true epoch step (steps (opt p)) b in
      let! full_loss := criterion outputs (labels b) in
      let loss := (full_loss / inject_Z (Z.of_nat ACCUMULATION_STEPS))%Q in
      let o := backward b (opt p) in
      let o := if ((step + 1) mod ACCUMULATION_STEPS =? 0)%nat
               then zero_grad (optimizer_step o)
               else o in
      let total := (total_loss p + loss * inject_Z (Z.of_nat ACCUMULATION_STEPS))%Q in
      let! hits := count_correct outputs (labels b) in
      train_steps epoch (S step) batches'
                  {| opt := o; total_loss := total; correct := (correct p + hits)%nat |}
  end.

(** The validation loop, from the count so far. *)
Fixpoint validate (epoch step : nat) (weights : list (list batch)) (batches : list batch)
                  (val_correct : nat) : outcome nat :=
  match batches with
  | [] => Ret val_correct
  | b :: batches' =>
      let! outputs := logits false epoch step weights b in
      let! hits := count_correct outputs (labels b) in
      validate epoch (S step) weights batches' (val_correct + hits)%nat
  end.

(** What one epoch prints. *)
Record epoch_report := {
  mean_loss : Q;
  train_acc : Q;
  val_acc : Q
}.

(** The body of [for epoch in range(EPOCHS)]. *)
Definition run_epoch (epoch : nat) (o : optimizer_state)
  : outcome (optimizer_state * epoch_report) :=
  let o := zero_grad o in
  let! p := train_steps epoch 0 (train_loader epoch)
                        {| opt := o; total_loss := 0; correct := 0 |} in
  let! acc := true_div (correct p) len_train_data in
  let! mean :=
    if (length (train_loader epoch) =? 0)%nat
    then Raise (Exception "ZeroDivisionError" "division by zero")
    else Ret (total_loss p / inject_Z (Z.of_nat (length (train_loader epoch))))%Q in
  let! val_correct := validate epoch 0 (steps (opt p)) val_loader 0 in
  let! vacc := true_div val_correct len_val_data in
  Ret (opt p, {| mean_loss := mean; train_acc := acc; val_acc := vacc |}).

(** Epochs [epoch], [epoch + 1], ..., [n] of them. *)
Fixpoint run_epochs (n epoch : nat) (o : optimizer_state) (printed : list epoch_report)
  : outcome (optimizer_state * list epoch_report) :=
  match n with
  | O => Ret (o, printed)
  | S n' =>
      let! r := run_epoch epoch o in
      run_epochs n' (S epoch) (fst r) (printed ++ [snd r])
  end.

(** The script: the weights [torch.save] writes, as the optimizer steps that
    produced them, and the lines printed. *)
Definition train : outcome (list (list batch) * list epoch_report) :=
  let! r := run_epochs EPOCHS 0 {| steps := []; grads := [] |} [] in
  Ret (steps (fst r), snd r).

End Script.

(** Groups of four consecutive batches; fewer than four left at the end make
    no group. *)
Fixpoint full_groups {A} (l : list A) : list (list A) :=
  match l with
  | a :: b :: c :: d :: rest => [a; b; c; d] :: full_groups rest
  | _ => []
  end.

End Training.

(* ========================================================================= *)
(** * Example runs of the two scripts *)
(* ========================================================================= *)

Module ScriptExamples.

(** A model whose forward pass succeeds, on a clock that reads 5 s and then
    7 s. *)
Definition steady : Benchmark.Backend :=
  {| Benchmark.forward_pass := fun _ => Ret tt;
     Benchmark.clock := fun n => match n with O => 5%Q | _ => 7%Q end |}.

Definition fresh : Benchmark.world := {| Benchmark.passes := 0; Benchmark.reads := 0 |}.

(** A data set of 18 training images in five batches and 4 validation images
    in one; a batch is given by the labels of its images. The model puts
    class 1 first for every image, and every batch has loss 1/2. *)
Definition small_run : Training.Backend :=
  {| Training.batch := list nat;
     Training.labels := fun b => b;
     Training.logits := fun _ _ _ _ b => Ret (map (fun _ => [1 # 10; 9 # 10]%Q) b);
     Training.criterion := fun _ _ => Ret (1 # 2)%Q;
     Training.train_loader := fun _ =>
       [[1; 0; 1; 1]; [0; 1; 1; 0]; [1; 1; 0; 0]; [0; 0; 1; 1]; [1; 0]]%nat;
     Training.val_loader := [[1; 1; 0; 1]]%nat;
     Training.len_train_data := 18;
     Training.len_val_data := 4 |}.

(** The same data set in batches so large that an epoch has three of them. *)
Definition three_batches : Training.Backend :=
  {| Training.batch := list nat;
     Training.labels := fun b => b;
     Training.logits := fun _ _ _ _ b => Ret (map (fun _ => [1 # 10; 9 # 10]%Q) b);
     Training.criterion := fun _ _ => Ret (1 # 2)%Q;
     Training.train_loader := fun _ =>
       [[1; 0; 1; 1; 0; 1]; [1; 0; 1; 1; 0; 0]; [0; 0; 1; 1; 1; 0]]%nat;
     Training.val_loader := [[1; 1; 0; 1]]%nat;
     Training.len_train_data := 18;
     Training.len_val_data := 4 |}.

(** What the script saves and prints on [small_run]. *)
Definition small_run_saved : list (list (list nat)) :=
  Eval vm_compute in
    match @Training.train small_run with Ret r => fst r | Raise _ => [] end.

Definition small_run_reports : list Training.epoch_report :=
  Eval vm_compute in
    match @Training.train small_run with Ret r => snd r | Raise _ => [] end.

End ScriptExamples.


(* ========================================================================= *)
(** * The scripts of the two pages *)
(* ========================================================================= *)

(** Both services send one HTML page whose script posts the images, reads the
    JSON replies of [/predict] and [/weather] and fills the result cards and
    the charts. This part embeds what that script computes from the replies:
    which weather warning it puts on a card, which history entries it counts
    as healthy and which bar it highlights. *)
Module Page.

(** A value of the script: what [res.json()] gives, or [undefined] ([None]).
    An object has each key once, as the dicts the services send. *)
Definition js : Type := option json.

(** ToNumber of a string, an array or an object ([None] is NaN). *)
Class Engine := {
  to_number : json -> option Q
}.

(** [o.k], for a name that no built-in prototype defines (as all the names
    read below). *)
Definition read (o : js) (k : string) : outcome js :=
  match o with
  | None => Raise (TypeError "Cannot read properties of undefined")
  | Some JNull => Raise (TypeError "Cannot read properties of null")
  | Some (JObj fields) => Ret (assoc k fields)
  | Some _ => Ret None
  end.

(** A value used as a condition. *)
Definition truthy (v : js) : bool :=
  match v with
  | None => false
  | Some JNull => false
  | Some (JBool b) => b
  | Some (JNum q) => negb (Qeq_bool q 0)
  | Some (JStr s) => negb (s =? "")%string
  | Some (JArr _) => true
  | Some (JObj _) => true
  end.

(** [v > n] for a number literal [n]. *)
Definition gt {E : Engine} (v : js) (n : Q) : bool :=
  match v with
  | None => false
  | Some JNull => Qltb n 0
  | Some (JBool b) => Qltb n (if b then 1 else 0)
  | Some (JNum q) => Qltb n q
  | Some v' =>
      match to_number v' with
      | Some q => Qltb n q
      | None => false
      end
  end.

(** [jsonify] of the dict of a prediction, as [res.json()] gives it back. *)
Definition jsonify_prediction (p : prediction) : json :=
  JObj [("predicted_class", JStr (predicted_class p));
        ("confidence", JNum (confidence p));
        ("all_confidences", JArr (map JNum (all_confidences p)));
        ("causes", JArr (map JStr (pred_causes p)));
        ("cure", JArr (map JStr (pred_cure p)));
        ("prevention", JArr (map JStr (pred_prevention p)));
        ("weather_alerts",
         JObj (map (fun kv => (fst kv, JStr (snd kv))) (pred_weather_alerts p)))].

(** What a card shows under the confidence: nothing, or a warning with the
    interpolated value. *)
Inductive shown :=
| NoAlert
| Warning (message : js).

Section Script.
Context {E : Engine}.

(** The test of one branch: [data.weather_alerts && data.weather_alerts.k]
    in the ViT page ([guarded]), [data.weather_alerts.k] in the Keras page. *)
Definition has_alert (guarded : bool) (data : js) (k : string) : outcome bool :=
  if guarded then
    let! alerts := read data "weather_alerts" in
    if truthy alerts then
      let! alerts := read data "weather_alerts" in
      let! message := read alerts k in
      Ret (truthy message)
    else Ret false
  else
    let! alerts := read data "weather_alerts" in
    let! message := read alerts k in
    Ret (truthy message).

(** The [if ... else if ...] that picks the warning of a card. *)
Definition weather_alert (guarded : bool) (weather data : js) : outcome shown :=
  let! humidity := read weather "humidity" in
  let! humid := if gt humidity 80 then has_alert guarded data "high_humidity"
                else Ret false in
  if humid then
    let! alerts := read data "weather_alerts" in
    let! message := read alerts "high_humidity" in
    Ret (Warning message)
  else
    let! rain := read weather "rain" in
    let! rainy := if truthy rain then has_alert guarded data "high_rain"
                  else Ret false in
    if rainy then
      let! alerts := read data "weather_alerts" in
      let! message := read alerts "high_rain" in
      Ret (Warning message)
    else Ret NoAlert.

(** In [analyzeImages] of [test2_0.py]. *)
Definition analyzeImages_alert : js -> js -> outcome shown := weather_alert true.

(** In [uploadImage] of [nuuuttsss.py]. *)
Definition uploadImage_alert : js -> js -> outcome shown := weather_alert false.

End Script.

(** [v.toLowerCase()]; the names met here are ASCII. *)
Definition toLowerCase (v : js) : outcome string :=
  match v with
  | Some (JStr s) => Ret (lower s)
  | None => Raise (TypeError "Cannot read properties of undefined")
  | Some JNull => Raise (TypeError "Cannot read properties of null")
  | Some _ => Raise (TypeError "toLowerCase is not a function")
  end.

(** The filter of [updateCharts] in [test2_0.py], on [h.predicted_class]:
    [h.predicted_class && h.predicted_class.toLowerCase().includes('healthy')] *)
Definition vit_healthy (predicted_class : js) : outcome bool :=
  if truthy predicted_class then
    let! lowered := toLowerCase predicted_class in
    Ret (str_in "healthy" lowered)
  else Ret false.

(** The filter of [updateCharts] in [nuuuttsss.py], on [h.label]:
    [h.label.includes("Healthy")], of a string or of an array. *)
Definition keras_healthy (label : js) : outcome bool :=
  match label with
  | Some (JStr s) => Ret (str_in "Healthy" s)
  | Some (JArr items) =>
      Ret (existsb (fun v => match v with
                             | JStr s => (s =? "Healthy")%string
                             | _ => false
                             end) items)
  | None => Raise (TypeError "Cannot read properties of undefined")
  | Some JNull => Raise (TypeError "Cannot read properties of null")
  | Some _ => Raise (TypeError "includes is not a function")
  end.

(** [history.filter(f).length] on the values the filter reads; a filter that
    throws ends [updateCharts]. *)
Fixpoint count_filter (f : js -> outcome bool) (history : list js) : outcome nat :=
  match history with
  | [] => Ret 0%nat
  | h :: history' =>
      let! keep := f h in
      let! rest := count_filter f history' in
      Ret ((if keep then 1 else 0) + rest)%nat
  end.

(** [Math.max(...a)] of an array of numbers; [None] is [-Infinity]. *)
Definition Math_max (a : list Q) : option Q :=
  match a with
  | [] => None
  | x :: a' => Some (fold_left (fun m y => if Qltb m y then y else m) a' x)
  end.

(** [a.indexOf(x)], counted from [i]: the first position of a number equal to
    [x], or -1. *)
Fixpoint indexOf_from (x : Q) (i : Z) (a : list Q) : Z :=
  match a with
  | [] => (-1)%Z
  | y :: a' => if Qeq_bool y x then i else indexOf_from x (i + 1)%Z a'
  end.

(** [maxIndex] of [updateCharts] in [nuuuttsss.py], for the scores of the
    latest entry: [a.indexOf(Math.max(...a))]. *)
Definition maxIndex (a : list Q) : Z :=
  match Math_max a with
  | None => (-1)%Z
  | Some m => indexOf_from m 0 a
  end.

(** The labels under the bars of [nuuuttsss.py]. *)
Definition categoryBar_labels : list string :=
  ["Early Rust"; "Late Leaf Spot"; "Nutritional Deficiency"; "Healthy Leaf";
   "Early Leaf Spot"; "Advanced Rust"].

End Page.

Module PageExamples.

(** An engine for which no string, array or object is a number. *)
Definition plain : Page.Engine := {| Page.to_number := fun _ => None |}.

(** A humid, rainy day as [/weather] reports it, and a failed lookup. *)
Definition humid_rain : json :=
  JObj [("temp", JNum 24); ("humidity", JNum 91); ("weather", JStr "Light rain");
        ("rain", JBool true)].

Definition no_weather : json := JObj [("error", JStr "No matching location found.")].

End PageExamples.


(* ========================================================================= *)
(** * The heat map of the Keras page *)
(* ========================================================================= *)

(** [createHeatmap] of [nuuuttsss.py]: where it puts one spot and one label
    per score, and what its [mousemove] listener does to the cursor and to
    the labels. The drawing calls are not part of the model. *)
Module Heatmap.

(** An element of [points]. *)
Record point := {
  x : Q;
  y : Q;
  conf : Q;
  className : option string
}.

(** A label in [heatmapLabels]: [parseFloat] of its [style.left] and
    [style.top], and its [style.opacity]. *)
Record label := {
  left : Q;
  top : Q;
  opacity : string
}.

(** What the listener changes: [canvas.style.cursor] and the labels. *)
Record dom := {
  cursor : string;
  labels : list label
}.

Definition cols : nat := 3.
Definition rows : nat := 2.

Definition Math_abs (q : Q) : Q := if Qltb q 0 then (- q)%Q else q.

Section Canvas.
(** [canvas.width] and [canvas.height], as set from the element's size. *)
Variables (width height : nat).

Definition cellWidth : Q := (inject_Z (Z.of_nat width) / inject_Z (Z.of_nat cols))%Q.
Definition cellHeight : Q := (inject_Z (Z.of_nat height) / inject_Z (Z.of_nat rows))%Q.

(** The callback of [confidences.map], for the score at index [i]. *)
Definition place (classNames : list string) (i : nat) (c : Q) : point :=
  let row := (i / cols)%nat in
  let col := (i mod cols)%nat in
  {| x := (inject_Z (Z.of_nat col) * cellWidth + cellWidth / 2)%Q;
     y := (inject_Z (Z.of_nat row) * cellHeight + cellHeight / 2)%Q;
     conf := c;
     className := classNames !! i |}.

Fixpoint points_from (classNames : list string) (i : nat) (confidences : list Q)
  : list point :=
  match confidences with
  | [] => []
  | c :: confidences' => place classNames i c :: points_from classNames (S i) confidences'
  end.

(** [createHeatmap(confidences, classNames)]: its [points], and the labels it
    leaves in the emptied container. *)
Definition createHeatmap (confidences : list Q) (classNames : list string)
  : list point * list label :=
  let points := points_from classNames 0 confidences in
  (points, map (fun pt => {| left := x pt; top := y pt; opacity := "" |}) points).

(** [Math.sqrt(dx * dx + dy * dy) < cellWidth / 2.5] *)
Definition near (pt : point) (mouseX mouseY : Q) : bool :=
  let dx := (mouseX - x pt)%Q in
  let dy := (mouseY - y pt)%Q in
  let reach := (cellWidth / (5 # 2))%Q in
  Qltb 0 reach && Qltb (dx * dx + dy * dy) (reach * reach).

Definition set_opacity (o : string) (l : label) : label :=
  {| left := left l; top := top l; opacity := o |}.

(** The first label within 5 px of the point gets opacity 1. *)
Fixpoint light_hovered (pt : point) (ls : list label) : list label :=
  match ls with
  | [] => []
  | l :: ls' =>
      if Qltb (Math_abs (left l - x pt)) 5 && Qltb (Math_abs (top l - y pt)) 5
      then set_opacity "1" l :: ls'
      else l :: light_hovered pt ls'
  end.

(** The callback of [points.forEach] in the listener. *)
Definition on_point (mouseX mouseY : Q) (d : dom) (pt : point) : dom :=
  if near pt mouseX mouseY then
    {| cursor := "pointer";
       labels := light_hovered pt (map (set_opacity "0.5") (labels d)) |}
  else
    {| cursor := "default";
       labels := map (set_opacity "1") (labels d) |}.

(** The [mousemove] listener, with the pointer at [(mouseX, mouseY)] of the
    canvas. *)
Definition mousemove (points : list point) (mouseX mouseY : Q) (d : dom) : dom :=
  fold_left (on_point mouseX mouseY) points d.

End Canvas.

End Heatmap.


(* ========================================================================= *)
(** * The handlers' messages on the console *)
(* ========================================================================= *)

(** The [except] handlers of [predict_image], [preprocess_image] and
    [predict_class] print the exception before they return [None].
    [ViT.predict_image], [Keras.preprocess_image] and [Keras.predict_class]
    above are these functions on a console that takes every message.  Here
    the [print] is a call of its own, which raises when [sys.stdout] cannot
    take the text (UnicodeEncodeError on an encoding that lacks one of its
    characters, an OSError or ValueError on a closed stream): an exception
    raised in a handler leaves the function. *)
Module Console.

Class Stdout := {
  (** [print(message)] *)
  print : string -> outcome unit
}.

Section ViTService.
Context {B : ViT.Backend} {O : Stdout}.

(** [predict_image] of [test2_0.py], with its handler. *)
Definition predict_image (image_path : string) : io ViT.world (option prediction) :=
  io_try
    (let* p := ViT.predict_image_body image_path in io_ret (Some p))
    (fun e =>
       run* io_lift (print ("Prediction error: " +:+ str_exn e)) in
       io_ret None).

End ViTService.

Section KerasService.
Context {B : Keras.Backend} {O : Stdout}.

(** [preprocess_image] of [nuuuttsss.py], with its handler. *)
Definition preprocess_image (image_file : FileStorage Keras.content)
  : io (list Keras.event) (option Keras.array) :=
  io_try
    (run* Keras.emit (Keras.EvPreprocess (filename image_file)) in
     let* image_array := io_lift (Keras.pil_preprocess (stream image_file)) in
     io_ret (Some image_array))
    (fun e =>
       run* io_lift (print ("Error preprocessing image: " +:+ str_exn e)) in
       io_ret None).

(** [predict_class] of [nuuuttsss.py], with its handler. *)
Definition predict_class (image_array : Keras.array)
  : io (list Keras.event) (option prediction) :=
  io_try
    (let* p := Keras.predict_class_body image_array in io_ret (Some p))
    (fun e =>
       run* io_lift (print ("Error in prediction: " +:+ str_exn e)) in
       io_ret None).

(** The [/predict] route of [nuuuttsss.py] over these two. *)
Definition predict (request_files : Keras.Request) : io (list Keras.event) Keras.reply :=
  match assoc "image" request_files with
  | None => io_ret (Keras.JsonError "No image file provided" 400)
  | Some file =>
      if (filename file =? "")%string then
        io_ret (Keras.JsonError "No file selected" 400)
      else if negb (Keras.allowed_file (filename file)) then
        io_ret (Keras.JsonError
                  "Invalid file type. Please upload PNG, JPG, JPEG, or WebP files." 400)
      else
        let* image_array := preprocess_image file in
        match image_array with
        | None => io_ret (Keras.JsonError "Error processing image" 500)
        | Some arr =>
            let* prediction_result := predict_class arr in
            match prediction_result with
            | None => io_ret (Keras.JsonError "Error making prediction" 500)
            | Some p => io_ret (Keras.JsonPrediction p)
            end
        end
  end.

End KerasService.

(** What the handler's print makes of the exception [e] of a [try] block:
    [None] is returned when the message [prefix + str(e)] is printed, and the
    exception of the print leaves the function otherwise. *)
Definition handled {O : Stdout} {A} (prefix : string) (e : exn) : outcome (option A) :=
  match print (prefix +:+ str_exn e) with
  | Ret _ => Ret None
  | Raise e' => Raise e'
  end.

(** A console that takes every message, and an ASCII console, which raises
    on a message with a byte outside ASCII. *)
Definition accepting : Stdout := {| print := fun _ => Ret tt |}.

Fixpoint is_ascii (s : string) : bool :=
  match s with
  | EmptyString => true
  | String c s' => (nat_of_ascii c <? 128)%nat && is_ascii s'
  end.

Definition ascii_only : Stdout :=
  {| print := fun message =>
       if is_ascii message then Ret tt
       else Raise (Exception "UnicodeEncodeError"
                             "'ascii' codec can't encode character") |}.

End Console.


(* ===================================================================== *)
(** * Properties *)
(* ===================================================================== *)

(** ** File names and extensions *)

Lemma prefix_dot (c : ascii) (s : string) :
  String.prefix "." (String c s) = Ascii.eqb c ".".
Proof.
  change (String.prefix "." (String c s))
    with (if ascii_dec "." c then String.prefix "" s else false).
  destruct (ascii_dec "." c) as [<- | Hne].
  - destruct s; reflexivity.
  - symmetry. apply Ascii.eqb_neq. congruence.
Qed.

Lemma str_in_dot (s : string) :
  str_in "." s = match rsplit_last "." s with Some _ => true | None => false end.
Proof.
  induction s as [| c s IH]; [reflexivity |].
  cbn [str_in rsplit_last]. rewrite prefix_dot, IH.
  destruct (rsplit_last "." s) as [[before after] |].
  - apply orb_true_r.
  - destruct (Ascii.eqb c "."); reflexivity.
Qed.

Lemma extension_from_rsplit (s : string) (candidate : option string) :
  Wording.extension_from s candidate =
  match rsplit_last "." s with
  | Some (_, after) => Some after
  | None => candidate
  end.
Proof.
  revert candidate. induction s as [| c s IH]; intros candidate; [reflexivity |].
  cbn [Wording.extension_from rsplit_last].
  destruct (Ascii.eqb c ".") eqn:Hc; rewrite IH;
    destruct (rsplit_last "." s) as [[before after] |]; reflexivity.
Qed.

Lemma in_extension_set (ext : string) :
  bool_decide (ext ∈ ViT.ALLOWED) =
  existsb (String.eqb ext) ["png"; "jpg"; "jpeg"; "webp"].
Proof.
  unfold ViT.ALLOWED. cbn [existsb].
  destruct (String.eqb_spec ext "png") as [-> | H1]; [vm_compute; reflexivity |].
  destruct (String.eqb_spec ext "jpg") as [-> | H2]; [vm_compute; reflexivity |].
  destruct (String.eqb_spec ext "jpeg") as [-> | H3]; [vm_compute; reflexivity |].
  destruct (String.eqb_spec ext "webp") as [-> | H4]; [vm_compute; reflexivity |].
  apply bool_decide_eq_false.
  rewrite !elem_of_union, !elem_of_singleton. intuition congruence.
Qed.

(** The check written in both scripts is the one the specification words. *)
Lemma vit_allowed_file_supported (filename : string) :
  ViT.allowed_file filename = Wording.supported filename.
Proof.
  unfold ViT.allowed_file, Wording.supported, Wording.extension, rsplit1.
  rewrite str_in_dot, extension_from_rsplit.
  destruct (rsplit_last "." filename) as [[before after] |]; cbn.
  - apply in_extension_set.
  - reflexivity.
Qed.

Lemma keras_allowed_file_supported (filename : string) :
  Keras.allowed_file filename = Wording.supported filename.
Proof.
  unfold Keras.allowed_file, Wording.supported, Wording.extension, rsplit1.
  rewrite str_in_dot, extension_from_rsplit.
  destruct (rsplit_last "." filename) as [[before after] |]; cbn.
  - apply in_extension_set.
  - reflexivity.
Qed.

Lemma supported_nonempty (filename : string) :
  Wording.supported filename = true -> filename <> "".
Proof. intros H ->. discriminate H. Qed.

(** ** Class labels *)

(** C1: the two serving scripts assign different labels to class indices:
    the ViT list has 8 labels and the Keras list 6, some index carries two
    different labels, and in fact every index the Keras list has does; so a
    class index means one disease in one service and another in the other. *)
Theorem class_label_orderings_differ :
  length ViT.CLASS_NAMES = 8%nat /\
  length Keras.CLASSES = 6%nat /\
  (exists (i : nat) (a b : string),
      ViT.CLASS_NAMES !! i = Some a /\ Keras.CLASSES !! i = Some b /\ a <> b) /\
  forallb (fun i => negb (bool_decide (ViT.CLASS_NAMES !! i = Keras.CLASSES !! i)))
          (seq 0 (length Keras.CLASSES)) = true.
Proof.
  split; [reflexivity |]. split; [reflexivity |]. split.
  - exists 0%nat, "ALTERNARIA LEAF SPOT", "early_rust_1".
    split; [reflexivity |]. split; [reflexivity |]. discriminate.
  - vm_compute. reflexivity.
Qed.

(** ** The ViT prediction pipeline *)

Section ViTPipeline.
Context {B : ViT.Backend}.

(** [predict_image] on a path that holds an upload: the dict of [classify],
    [None] when it raises, and the calls of [classify_events]. *)
Lemma predict_image_stored (path : string) (bytes : ViT.content) (w : ViT.world) :
  ViT.disk w !! path = Some bytes ->
  ViT.predict_image path w =
  (Ret (value_or_none (ViT.classify bytes)),
   {| ViT.disk := ViT.disk w;
      ViT.log := ViT.log w ++ ViT.classify_events path bytes |}).
Proof.
  intros Hdisk.
  unfold ViT.predict_image, ViT.predict_image_body, ViT.classify, ViT.classify_events,
    ViT.image_open, ViT.run_transform, ViT.run_model, ViT.emit,
    io_try, io_bind, io_lift, io_ret, bind.
  cbn. rewrite Hdisk.
  destruct (ViT.pil_open bytes) as [img | e]; cbn; [| reflexivity].
  destruct (ViT.transform img) as [t | e]; cbn;
    [| rewrite <- List.app_assoc; reflexivity].
  destruct (ViT.model t) as [outputs | e]; cbn;
    [| rewrite <- !List.app_assoc; reflexivity].
  destruct (argmax outputs) as [class_id | e]; cbn;
    [| rewrite <- !List.app_assoc; reflexivity].
  destruct (getitem_list ViT.CLASS_NAMES class_id) as [label | e]; cbn;
    [| rewrite <- !List.app_assoc; reflexivity].
  destruct (getitem_list (ViT.softmax outputs) class_id) as [conf | e]; cbn;
    rewrite <- !List.app_assoc; reflexivity.
Qed.

(** [predict_image] on a path that holds nothing. *)
Lemma predict_image_missing (path : string) (w : ViT.world) :
  ViT.disk w !! path = None ->
  ViT.predict_image path w =
  (Ret None, {| ViT.disk := ViT.disk w; ViT.log := ViT.log w ++ [ViT.EvOpen path] |}).
Proof.
  intros Hdisk.
  unfold ViT.predict_image, ViT.predict_image_body, ViT.image_open, ViT.emit,
    io_try, io_bind, io_lift, io_ret.
  cbn. rewrite Hdisk. reflexivity.
Qed.

(** What a successful [classify] used. *)
Lemma classify_inv (bytes : ViT.content) (p : prediction) :
  ViT.classify bytes = Ret p ->
  exists img t outputs class_id label conf,
    ViT.pil_open bytes = Ret img /\
    ViT.transform img = Ret t /\
    ViT.model t = Ret outputs /\
    argmax outputs = Ret class_id /\
    ViT.CLASS_NAMES !! class_id = Some label /\
    ViT.softmax outputs !! class_id = Some conf /\
    p = result_dict label (assoc label ViT.DISEASE_INFO) conf (ViT.softmax outputs).
Proof.
  unfold ViT.classify, bind, getitem_list.
  destruct (ViT.pil_open bytes) as [img | e] eqn:Hi; [| discriminate].
  destruct (ViT.transform img) as [t | e] eqn:Ht; [| discriminate].
  destruct (ViT.model t) as [outputs | e] eqn:Ho; [| discriminate].
  destruct (argmax outputs) as [class_id | e] eqn:Ha; [| discriminate].
  destruct (ViT.CLASS_NAMES !! class_id) as [label |] eqn:Hl; [| discriminate].
  destruct (ViT.softmax outputs !! class_id) as [conf |] eqn:Hc; [| discriminate].
  intros [= <-]. exists img, t, outputs, class_id, label, conf.
  repeat (split; [first [assumption | reflexivity] |]). reflexivity.
Qed.

(** A dict returned by [predict_image] is the [classify] of what the path
    held. *)
Lemma predict_image_some (path : string) (w w' : ViT.world) (p : prediction) :
  ViT.predict_image path w = (Ret (Some p), w') ->
  exists bytes, ViT.disk w !! path = Some bytes /\ ViT.classify bytes = Ret p.
Proof.
  intros H. destruct (ViT.disk w !! path) as [bytes |] eqn:Hdisk.
  - rewrite (predict_image_stored _ _ _ Hdisk) in H. exists bytes. split; [reflexivity |].
    destruct (ViT.classify bytes) as [q | e]; cbn in H; congruence.
  - rewrite (predict_image_missing _ _ Hdisk) in H. congruence.
Qed.

End ViTPipeline.

(** ** The ViT upload loop *)

Section ViTLoop.
Context {B : ViT.Backend}.

(** The test the loop makes, [file and allowed_file(file.filename)], is the
    extension check alone: a supported name is never empty. *)
Lemma loop_test (file : FileStorage ViT.content) :
  file_truthy file && ViT.allowed_file (filename file) =
  Wording.supported (filename file).
Proof.
  rewrite vit_allowed_file_supported. unfold file_truthy.
  destruct (Wording.supported (filename file)) eqn:Hs.
  - apply supported_nonempty in Hs.
    destruct (String.eqb_spec (filename file) ""); [contradiction | reflexivity].
  - apply andb_false_r.
Qed.

(** The loop does what its account says: result, upload folder and calls. *)
Lemma predict_loop_account (files : list (FileStorage ViT.content))
      (results : list ViT.entry) (w : ViT.world) :
  ViT.predict_loop files results w =
  (Account.loop_outcome files results,
   {| ViT.disk := Account.loop_disk files (ViT.disk w);
      ViT.log := ViT.log w ++ Account.loop_events files |}).
Proof.
  revert results w. induction files as [| f files IH]; intros results w.
  - cbn. unfold io_ret. destruct w as [d l]. cbn. rewrite List.app_nil_r. reflexivity.
  - cbn [ViT.predict_loop Account.loop_outcome Account.loop_disk Account.loop_events].
    rewrite loop_test. unfold Account.entry_of.
    fold (Account.upload_path f).
    destruct (Wording.supported (filename f)) eqn:Hs; cbn [andb negb].
    + unfold io_bind at 1. unfold ViT.file_save, io_bind, ViT.emit. cbn.
      destruct (ViT.save_ok (Account.upload_path f)) eqn:Hok; cbn; [| reflexivity].
      rewrite (predict_image_stored (Account.upload_path f) (stream f));
        [| cbn; apply lookup_insert_eq].
      cbn. destruct (ViT.classify (stream f)) as [p | e]; cbn;
        rewrite IH; cbn; rewrite <- !List.app_assoc; reflexivity.
    + rewrite IH. reflexivity.
Qed.


(** Whatever the upload folder does, a returned list holds the entry of each
    file at the file's position. *)
Lemma loop_outcome_ret (files : list (FileStorage ViT.content))
      (results out : list ViT.entry) :
  Account.loop_outcome files results = Ret out ->
  out = results ++ map Account.entry_of files.
Proof.
  revert results. induction files as [| f files IH]; intros results H.
  - cbn in H. injection H as <-. cbn. rewrite List.app_nil_r. reflexivity.
  - cbn [Account.loop_outcome] in H.
    destruct (Wording.supported (filename f) && negb (ViT.save_ok (Account.upload_path f)));
      [discriminate |].
    apply IH in H. rewrite H, <- List.app_assoc. reflexivity.
Qed.


End ViTLoop.

(** ** The [/predict] routes *)




Section ViTRoute.
Context {B : ViT.Backend}.

Lemma getlist_field (field : string) (request_files : ViT.Request) :
  ViT.getlist field request_files <> [] ->
  existsb (String.eqb field) (keys request_files) = true.
Proof.
  unfold ViT.getlist, keys.
  induction request_files as [| [k f] rest IH]; cbn; [congruence |].
  rewrite (String.eqb_sym field k).
  destruct (String.eqb k field); cbn; [reflexivity |]. exact IH.
Qed.

(** The route on a request that has files under [images]. *)
Lemma predict_account (request_files : ViT.Request) (w : ViT.world) :
  let files := ViT.getlist "images" request_files in
  files <> [] ->
  ViT.predict request_files w =
  if forallb (fun f => (filename f =? "")%string) files then
    (Ret (ViT.JsonError "No files selected" 400), w)
  else
    (match Account.loop_outcome files [] with
     | Ret results => Ret (ViT.JsonList results)
     | Raise e => Raise e
     end,
     {| ViT.disk := Account.loop_disk files (ViT.disk w);
        ViT.log := ViT.log w ++ Account.loop_events files |}).
Proof.
  intros files Hne. unfold ViT.predict.
  rewrite (getlist_field _ _ Hne). cbn [negb]. fold files.
  destruct files as [| f0 files0] eqn:Hfiles; [congruence |].
  cbn [orb]. rewrite <- Hfiles.
  destruct (forallb (fun f => (filename f =? "")%string) files); [reflexivity |].
  unfold io_bind. rewrite predict_loop_account.
  destruct (Account.loop_outcome files []); reflexivity.
Qed.

End ViTRoute.

(** ** The Keras prediction pipeline *)

Section KerasPipeline.
Context {B : Keras.Backend}.

(** [predict_class] returns the dict of [classify], [None] when it raises,
    and calls the model once when there is one. *)
Lemma predict_class_account (image_array : Keras.array) (w : list Keras.event) :
  Keras.predict_class image_array w =
  (Ret (value_or_none (Keras.classify image_array)),
   w ++ match Keras.model with Some _ => [Keras.EvModel] | None => [] end).
Proof.
  unfold Keras.predict_class, Keras.predict_class_body, Keras.classify,
    Keras.model_predict, Keras.emit, io_try, io_bind, io_lift, io_ret, bind.
  destruct Keras.model as [f |]; cbn; [| rewrite List.app_nil_r; reflexivity].
  destruct (f image_array) as [scores | e]; cbn; [| reflexivity].
  destruct (argmax scores) as [idx | e]; cbn; [| reflexivity].
  destruct (getitem_list scores idx) as [conf | e]; cbn; [| reflexivity].
  destruct (getitem_list Keras.CLASSES idx) as [label | e]; cbn; reflexivity.
Qed.

Lemma preprocess_image_account (file : FileStorage Keras.content) (w : list Keras.event) :
  Keras.preprocess_image file w =
  (Ret (value_or_none (Keras.pil_preprocess (stream file))),
   w ++ [Keras.EvPreprocess (filename file)]).
Proof.
  unfold Keras.preprocess_image, Keras.emit, io_try, io_bind, io_lift, io_ret.
  cbn. destruct (Keras.pil_preprocess (stream file)); reflexivity.
Qed.

(** What a successful [classify] used. *)
Lemma keras_classify_inv (image_array : Keras.array) (p : prediction) :
  Keras.classify image_array = Ret p ->
  exists f scores idx label conf,
    Keras.model = Some f /\
    f image_array = Ret scores /\
    argmax scores = Ret idx /\
    scores !! idx = Some conf /\
    Keras.CLASSES !! idx = Some label /\
    p = result_dict label (assoc label Keras.DISEASE_INFO) conf scores.
Proof.
  unfold Keras.classify, bind, getitem_list.
  destruct Keras.model as [f |] eqn:Hm; [| discriminate].
  destruct (f image_array) as [scores | e] eqn:Hf; [| discriminate].
  destruct (argmax scores) as [idx | e] eqn:Ha; [| discriminate].
  destruct (scores !! idx) as [conf |] eqn:Hc; [| discriminate].
  destruct (Keras.CLASSES !! idx) as [label |] eqn:Hl; [| discriminate].
  intros [= <-]. exists f, scores, idx, label, conf.
  repeat (split; [first [assumption | reflexivity] |]). reflexivity.
Qed.

(** The route on a request that has a file under [image]. *)
Lemma keras_predict_account (request_files : Keras.Request)
      (file : FileStorage Keras.content) (w : list Keras.event) :
  assoc "image" request_files = Some file ->
  Keras.predict request_files w =
  if (filename file =? "")%string then
    (Ret (Keras.JsonError "No file selected" 400), w)
  else if Wording.supported (filename file) then
    match Keras.pil_preprocess (stream file) with
    | Raise _ =>
        (Ret (Keras.JsonError "Error processing image" 500),
         w ++ [Keras.EvPreprocess (filename file)])
    | Ret arr =>
        (Ret match Keras.classify arr with
             | Ret p => Keras.JsonPrediction p
             | Raise _ => Keras.JsonError "Error making prediction" 500
             end,
         w ++ Keras.EvPreprocess (filename file) ::
              match Keras.model with Some _ => [Keras.EvModel] | None => [] end)
    end
  else
    (Ret (Keras.JsonError
            "Invalid file type. Please upload PNG, JPG, JPEG, or WebP files." 400), w).
Proof.
  intros Hfile. unfold Keras.predict. rewrite Hfile.
  destruct (filename file =? "")%string; [reflexivity |].
  rewrite keras_allowed_file_supported.
  destruct (Wording.supported (filename file)); cbn [negb]; [| reflexivity].
  unfold io_bind at 1. rewrite preprocess_image_account.
  destruct (Keras.pil_preprocess (stream file)) as [arr | e]; cbn; [| reflexivity].
  unfold io_bind. rewrite predict_class_account.
  rewrite <- List.app_assoc. cbn.
  destruct (Keras.classify arr); reflexivity.
Qed.

End KerasPipeline.

Section ViTCheck.
Context {B : ViT.Backend}.



End ViTCheck.



(** ** [argmax] *)

Lemma Qltb_lt (x y : Q) : Qltb x y = true -> (x < y)%Q.
Proof.
  unfold Qltb. intros H. apply negb_true_iff in H.
  apply Qnot_le_lt. intros Hle. apply Qle_bool_iff in Hle. congruence.
Qed.

Lemma Qltb_ge (x y : Q) : Qltb x y = false -> (y <= x)%Q.
Proof.
  unfold Qltb. intros H. apply negb_false_iff in H. apply Qle_bool_iff. exact H.
Qed.

(** The scan keeps the largest score seen and where it is: [seen] are the
    scores already read, [i] of them, the best one at [besti]. *)
Lemma argmax_from_spec (l seen : list Q) (best : Q) (besti i : nat) :
  length seen = i ->
  seen !! besti = Some best ->
  (forall y, In y seen -> (y <= best)%Q) ->
  exists x, (seen ++ l) !! argmax_from best besti i l = Some x /\
            forall y, In y (seen ++ l) -> (y <= x)%Q.
Proof.
  revert seen best besti i.
  induction l as [| x l IH]; intros seen best besti i Hlen Hbest Hmax.
  - cbn. rewrite List.app_nil_r. exists best. split; assumption.
  - cbn [argmax_from].
    replace (seen ++ x :: l) with ((seen ++ [x]) ++ l)
      by (rewrite <- List.app_assoc; reflexivity).
    destruct (Qltb best x) eqn:Hlt.
    + apply IH.
      * rewrite length_app. cbn. lia.
      * rewrite lookup_app_r by lia. subst i. rewrite Nat.sub_diag. reflexivity.
      * intros y Hy. apply in_app_or in Hy as [Hy | [<- | []]].
        -- apply Qle_trans with best; [apply Hmax; exact Hy |].
           apply Qlt_le_weak, Qltb_lt. exact Hlt.
        -- apply Qle_refl.
    + apply IH.
      * rewrite length_app. cbn. lia.
      * apply lookup_app_l_Some. exact Hbest.
      * intros y Hy. apply in_app_or in Hy as [Hy | [<- | []]].
        -- apply Hmax. exact Hy.
        -- apply Qltb_ge. exact Hlt.
Qed.

(** [argmax] returns a position of the vector whose score no other score
    exceeds. *)
Lemma argmax_spec (v : list Q) (i : nat) :
  argmax v = Ret i ->
  exists x, v !! i = Some x /\ forall y, In y v -> (y <= x)%Q.
Proof.
  destruct v as [| x v]; [discriminate |].
  cbn [argmax]. intros [= <-].
  apply (argmax_from_spec v [x] x 0 1); [reflexivity | reflexivity |].
  intros y [<- | []]. apply Qle_refl.
Qed.

Lemma argmax_maximum (v : list Q) (i : nat) (x : Q) :
  argmax v = Ret i -> v !! i = Some x -> Wording.is_maximum x v.
Proof.
  intros Ha Hx. destruct (argmax_spec v i Ha) as (x' & Hx' & Hmax).
  assert (x' = x) by congruence. subst x'. split; [| exact Hmax].
  apply list_elem_of_In. eapply list_elem_of_lookup_2. exact Hx.
Qed.

Lemma lookup_combine {A C} (l1 : list A) (l2 : list C) (j : nat) (a : A) (c : C) :
  l1 !! j = Some a -> l2 !! j = Some c -> In (a, c) (combine l1 l2).
Proof.
  revert l2 j. induction l1 as [| a1 l1 IH]; intros [| c2 l2] [| j]; cbn;
    try discriminate.
  - intros [= ->] [= ->]. left. reflexivity.
  - intros H1 H2. right. eapply IH; eassumption.
Qed.

(** When the probabilities keep the order of the logits, the probability at
    the argmax of the logits is the largest probability. *)
Lemma order_kept_maximum (logits probs : list Q) (i : nat) (conf : Q) :
  Wording.order_kept logits probs = true ->
  argmax logits = Ret i ->
  probs !! i = Some conf ->
  Wording.is_maximum conf probs.
Proof.
  unfold Wording.order_kept. intros Hk Ha Hc.
  apply andb_prop in Hk as [Hlen Hk]. apply Nat.eqb_eq in Hlen.
  destruct (argmax_spec logits i Ha) as (x & Hx & Hmax).
  split; [apply list_elem_of_In; eapply list_elem_of_lookup_2; exact Hc |].
  intros y Hy. apply list_elem_of_In, list_elem_of_lookup in Hy as [j Hj].
  destruct (logits !! j) as [lj |] eqn:Hlj.
  - rewrite List.forallb_forall in Hk.
    specialize (Hk (lj, y) (lookup_combine _ _ _ _ _ Hlj Hj)).
    rewrite List.forallb_forall in Hk.
    specialize (Hk (x, conf) (lookup_combine _ _ _ _ _ Hx Hc)). cbn in Hk.
    assert (Hle : Qle_bool lj x = true).
    { apply Qle_bool_iff, Hmax, list_elem_of_In.
      eapply list_elem_of_lookup_2. exact Hlj. }
    rewrite Hle in Hk. cbn in Hk. apply Qle_bool_iff. exact Hk.
  - apply lookup_ge_None in Hlj. apply lookup_lt_Some in Hj. lia.
Qed.

(** ** The disease tables *)

Lemma described_fields (r : disease_record) :
  Wording.described r = true ->
  name r <> "" /\ causes r <> [] /\ cure r <> [] /\ prevention r <> [].
Proof.
  unfold Wording.described. intros H.
  apply andb_prop in H as [H Hp]. apply andb_prop in H as [H Hc].
  apply andb_prop in H as [Hn Ha].
  repeat split.
  - intros E. rewrite E in Hn. discriminate.
  - intros E. rewrite E in Ha. discriminate.
  - intros E. rewrite E in Hc. discriminate.
  - intros E. rewrite E in Hp. discriminate.
Qed.

Lemma covered_lookup (labels : list string) (table : list (string * disease_record))
      (label : string) :
  Wording.covered labels table = true ->
  In label labels ->
  exists r, assoc label table = Some r /\ Wording.described r = true.
Proof.
  unfold Wording.covered. rewrite List.forallb_forall. intros H Hin.
  specialize (H label Hin). destruct (assoc label table) as [r |]; [| discriminate].
  exists r. split; [reflexivity | exact H].
Qed.

Lemma lookup_In {A} (l : list A) (i : nat) (x : A) : l !! i = Some x -> In x l.
Proof. intros H. apply list_elem_of_In. eapply list_elem_of_lookup_2. exact H. Qed.

(** The dict built for a label of a covered table carries the record. *)
Lemma result_dict_described (labels : list string) (table : list (string * disease_record))
      (label : string) (conf : Q) (scores : list Q) :
  Wording.covered labels table = true ->
  In label labels ->
  exists r,
    assoc label table = Some r /\
    predicted_class (result_dict label (assoc label table) conf scores) = name r /\
    pred_causes (result_dict label (assoc label table) conf scores) = causes r /\
    pred_cure (result_dict label (assoc label table) conf scores) = cure r /\
    pred_prevention (result_dict label (assoc label table) conf scores) = prevention r /\
    name r <> "" /\ causes r <> [] /\ cure r <> [] /\ prevention r <> [].
Proof.
  intros Hcov Hin. destruct (covered_lookup _ _ _ Hcov Hin) as (r & Hr & Hd).
  exists r. rewrite Hr. cbn.
  repeat (split; [reflexivity |]). apply described_fields. exact Hd.
Qed.

Lemma class_labels_table :
  Wording.covered ViT.CLASS_NAMES ViT.DISEASE_INFO = true /\
  Wording.covered Keras.CLASSES Keras.DISEASE_INFO = true.
Proof. split; vm_compute; reflexivity. Qed.

(** C9: in each serving script every label of the class list is a key of
    that script's [DISEASE_INFO], with a name and non-empty causes, cure and
    prevention lists; so every dict a prediction returns carries the name and
    the three non-empty lists of the record of the predicted label, and the
    defaults of the [.get] lookups are never used. *)
Theorem class_labels_have_disease_info :
  (forall label, In label ViT.CLASS_NAMES ->
     exists r, assoc label ViT.DISEASE_INFO = Some r /\
               name r <> "" /\ causes r <> [] /\ cure r <> [] /\ prevention r <> []) /\
  (forall label, In label Keras.CLASSES ->
     exists r, assoc label Keras.DISEASE_INFO = Some r /\
               name r <> "" /\ causes r <> [] /\ cure r <> [] /\ prevention r <> []) /\
  (forall (B : ViT.Backend) (path : string) (w w' : ViT.world) (p : prediction),
      ViT.predict_image path w = (Ret (Some p), w') ->
      exists label r,
        In label ViT.CLASS_NAMES /\ assoc label ViT.DISEASE_INFO = Some r /\
        predicted_class p = name r /\ pred_causes p = causes r /\
        pred_cure p = cure r /\ pred_prevention p = prevention r /\
        name r <> "" /\ causes r <> [] /\ cure r <> [] /\ prevention r <> []) /\
  (forall (B : Keras.Backend) (image_array : Keras.array)
          (w w' : list Keras.event) (p : prediction),
      Keras.predict_class image_array w = (Ret (Some p), w') ->
      exists label r,
        In label Keras.CLASSES /\ assoc label Keras.DISEASE_INFO = Some r /\
        predicted_class p = name r /\ pred_causes p = causes r /\
        pred_cure p = cure r /\ pred_prevention p = prevention r /\
        name r <> "" /\ causes r <> [] /\ cure r <> [] /\ prevention r <> []).
Proof.
  destruct class_labels_table as [Hv Hk].
  split; [| split; [| split]].
  - intros label Hin. destruct (covered_lookup _ _ _ Hv Hin) as (r & Hr & Hd).
    exists r. split; [exact Hr | apply described_fields; exact Hd].
  - intros label Hin. destruct (covered_lookup _ _ _ Hk Hin) as (r & Hr & Hd).
    exists r. split; [exact Hr | apply described_fields; exact Hd].
  - intros B path w w' p H.
    apply predict_image_some in H as (bytes & _ & Hc).
    apply classify_inv in Hc as (img & t & outputs & idx & label & conf & _ & _ & _ & _ & Hl & _ & ->).
    apply lookup_In in Hl.
    destruct (result_dict_described _ _ label conf (ViT.softmax outputs) Hv Hl)
      as (r & Hr & Hrest).
    exists label, r. split; [exact Hl |]. split; [exact Hr | exact Hrest].
  - intros B image_array w w' p H.
    rewrite predict_class_account in H.
    assert (Hc : Keras.classify image_array = Ret p).
    { destruct (Keras.classify image_array); cbn in H; congruence. }
    apply keras_classify_inv in Hc as (f & scores & idx & label & conf & _ & _ & _ & _ & Hl & ->).
    apply lookup_In in Hl.
    destruct (result_dict_described _ _ label conf scores Hk Hl) as (r & Hr & Hrest).
    exists label, r. split; [exact Hl |]. split; [exact Hr | exact Hrest].
Qed.

(** ** Confidence *)

(** C5: the returned confidence is the probability of the predicted class.
    In both services a returned dict names the class at the argmax index of
    the model output, its confidence is the entry of [all_confidences] at that
    index, and the confidence is the maximum of [all_confidences]: always in
    the Keras service, where the vector is the model output itself, and in the
    ViT service, where the argmax is taken on the logits, when the argmax of
    their softmax is the same index or softmax keeps the order of the logits. *)
Theorem confidence_is_probability_of_predicted_class :
  (forall (B : Keras.Backend) (image_array : Keras.array)
          (w w' : list Keras.event) (p : prediction),
      Keras.predict_class image_array w = (Ret (Some p), w') ->
      exists f scores idx label r,
        Keras.model = Some f /\ f image_array = Ret scores /\
        argmax scores = Ret idx /\
        Keras.CLASSES !! idx = Some label /\
        assoc label Keras.DISEASE_INFO = Some r /\
        predicted_class p = name r /\
        all_confidences p = scores /\
        all_confidences p !! idx = Some (confidence p) /\
        Wording.is_maximum (confidence p) (all_confidences p))
  /\
  (forall (B : ViT.Backend) (path : string) (w w' : ViT.world) (p : prediction),
      ViT.predict_image path w = (Ret (Some p), w') ->
      exists bytes img t logits idx label r,
        ViT.disk w !! path = Some bytes /\ ViT.pil_open bytes = Ret img /\
        ViT.transform img = Ret t /\ ViT.model t = Ret logits /\
        argmax logits = Ret idx /\
        ViT.CLASS_NAMES !! idx = Some label /\
        assoc label ViT.DISEASE_INFO = Some r /\
        predicted_class p = name r /\
        all_confidences p = ViT.softmax logits /\
        all_confidences p !! idx = Some (confidence p) /\
        (argmax (ViT.softmax logits) = Ret idx \/
         Wording.order_kept logits (ViT.softmax logits) = true ->
         Wording.is_maximum (confidence p) (all_confidences p))).
Proof.
  destruct class_labels_table as [Hv Hk].
  split.
  - intros B image_array w w' p H.
    rewrite predict_class_account in H.
    assert (Hc : Keras.classify image_array = Ret p).
    { destruct (Keras.classify image_array); cbn in H; congruence. }
    apply keras_classify_inv in Hc
      as (f & scores & idx & label & conf & Hm & Hf & Ha & Hconf & Hl & ->).
    destruct (result_dict_described _ _ label conf scores Hk (lookup_In _ _ _ Hl))
      as (r & Hr & Hname & _).
    exists f, scores, idx, label, r.
    repeat (split; [first [assumption | reflexivity] |]).
    cbn. apply (argmax_maximum scores idx conf Ha Hconf).
  - intros B path w w' p H.
    apply predict_image_some in H as (bytes & Hdisk & Hc).
    apply classify_inv in Hc
      as (img & t & logits & idx & label & conf & Hi & Ht & Hm & Ha & Hl & Hconf & ->).
    destruct (result_dict_described _ _ label conf (ViT.softmax logits) Hv
                (lookup_In _ _ _ Hl)) as (r & Hr & Hname & _).
    exists bytes, img, t, logits, idx, label, r.
    repeat (split; [first [assumption | reflexivity] |]).
    cbn. intros [Hsame | Hkept].
    + exact (argmax_maximum _ _ _ Hsame Hconf).
    + exact (order_kept_maximum _ _ _ _ Hkept Ha Hconf).
Qed.


(** ** One entry per uploaded file *)





(** ** Failures of the Keras prediction *)



(** ** The weather fetch *)

(** [get_weather] of the ViT service: one request, with a timeout of ten
    seconds, and the reply made of its outcome; no exception leaves it. *)
Lemma vit_get_weather_account {B : ViT.Backend} (city : string) (w : ViT.world) :
  let call := {| url := Account.weather_url city; timeout := Some 10%Z |} in
  ViT.get_weather city w =
  (Ret (Account.weather_reply "Weather fetch failed" (ViT.requests_get call)),
   {| ViT.disk := ViT.disk w; ViT.log := ViT.log w ++ [ViT.EvGet call] |}).
Proof.
  cbv zeta.
  unfold ViT.get_weather, ViT.get_weather_body, ViT.http_get, ViT.emit,
    Account.weather_reply, Account.weather_payload, Account.weather_url,
    io_try, io_bind, io_lift, io_ret, bind.
  cbn.
  destruct (ViT.requests_get _) as [res | e]; cbn; [| reflexivity].
  destruct (json_body res) as [data | e]; cbn; [| reflexivity].
  destruct (status_code res =? 200)%Z.
  - destruct (getitem data "current") as [current | e]; cbn; [| reflexivity].
    destruct (getitem current "temp_c") as [temp | e]; cbn; [| reflexivity].
    destruct (getitem current "humidity") as [humidity | e]; cbn; [| reflexivity].
    destruct (getitem current "condition") as [condition | e]; cbn; [| reflexivity].
    destruct (getitem condition "text") as [text | e]; cbn; [| reflexivity].
    destruct (json_lower text) as [lowered | e]; reflexivity.
  - destruct (dict_get data "error" (JObj [])) as [err | e]; cbn; [| reflexivity].
    destruct (dict_get err "message" _) as [message | e]; reflexivity.
Qed.

(** [get_weather] of the Keras service: one request, without a timeout. *)
Lemma keras_get_weather_account {B : Keras.Backend} (city : string)
      (w : list Keras.event) :
  let call := {| url := Account.weather_url city; timeout := None |} in
  Keras.get_weather city w =
  (Ret (Account.weather_reply "Failed to fetch weather" (Keras.requests_get call)),
   w ++ [Keras.EvGet call]).
Proof.
  cbv zeta.
  unfold Keras.get_weather, Keras.get_weather_body, Keras.http_get, Keras.emit,
    Account.weather_reply, Account.weather_payload, Account.weather_url,
    io_try, io_bind, io_lift, io_ret, bind.
  cbn.
  destruct (Keras.requests_get _) as [res | e]; cbn; [| reflexivity].
  destruct (json_body res) as [data | e]; cbn; [| reflexivity].
  destruct (status_code res =? 200)%Z.
  - destruct (getitem data "current") as [current | e]; cbn; [| reflexivity].
    destruct (getitem current "temp_c") as [temp | e]; cbn; [| reflexivity].
    destruct (getitem current "humidity") as [humidity | e]; cbn; [| reflexivity].
    destruct (getitem current "condition") as [condition | e]; cbn; [| reflexivity].
    destruct (getitem condition "text") as [text | e]; cbn; [| reflexivity].
    destruct (json_lower text) as [lowered | e]; reflexivity.
  - destruct (dict_get data "error" (JObj [])) as [err | e]; cbn; [| reflexivity].
    destruct (dict_get err "message" _) as [message | e]; reflexivity.
Qed.

Lemma weather_reply_shape (default : string) (got : outcome http_response) :
  Account.reply_shape default got (Account.weather_reply default got).
Proof.
  unfold Account.reply_shape.
  unfold Account.weather_reply, Account.weather_payload, bind.
  destruct got as [res | e]; [| right; left; eexists; reflexivity].
  destruct (json_body res) as [data | e] eqn:Hdata;
    [| right; left; eexists; reflexivity].
  destruct (status_code res =? 200)%Z eqn:Hs.
  - apply Z.eqb_eq in Hs.
    destruct (getitem data "current") as [current | e];
      [| right; left; eexists; reflexivity].
    destruct (getitem current "temp_c") as [temp | e];
      [| right; left; eexists; reflexivity].
    destruct (getitem current "humidity") as [humidity | e];
      [| right; left; eexists; reflexivity].
    destruct (getitem current "condition") as [condition | e];
      [| right; left; eexists; reflexivity].
    destruct (getitem condition "text") as [text | e];
      [| right; left; eexists; reflexivity].
    destruct text; cbn; try (right; left; eexists; reflexivity).
    left. split; [eexists _, _, _, _; reflexivity |].
    exists res. split; [reflexivity | exact Hs].
  - apply Z.eqb_neq in Hs.
    destruct (dict_get data "error" (JObj [])) as [err | e] eqn:Herr;
      [| right; left; eexists; reflexivity].
    destruct (dict_get err "message" (JStr default)) as [v | e] eqn:Hv;
      [| right; left; eexists; reflexivity].
    right. right. exists res, data, err, v.
    repeat (split; [first [assumption | reflexivity] |]). reflexivity.
Qed.


(** The other two shapes, on the same service: a snapshot and a message. *)
Example get_weather_snapshot :
  fst (@ViT.get_weather Examples.vit "eMpangeni" Examples.empty_world) =
  Ret (JObj [("temp", JNum (47 # 2)); ("humidity", JNum 81);
             ("weather", JStr "Light Rain"); ("rain", JBool true)]).
Proof. vm_compute. reflexivity. Qed.

Example get_weather_no_connection :
  fst (@Keras.get_weather Examples.keras "" []) =
  Ret (JObj [("error", JStr "Max retries exceeded")]).
Proof. vm_compute. reflexivity. Qed.


(** C7: the request [get_weather] makes.  The ViT service passes a timeout
    of ten seconds; the Keras service passes none, for every city. *)
Theorem weather_request_timeout :
  (forall (B : ViT.Backend) (city : string) (w : ViT.world),
      exists out call,
        ViT.get_weather city w =
        (out, {| ViT.disk := ViT.disk w; ViT.log := ViT.log w ++ [ViT.EvGet call] |}) /\
        url call = Account.weather_url city /\ timeout call = Some 10%Z)
  /\
  (forall (B : Keras.Backend) (city : string) (w : list Keras.event),
      exists out call,
        Keras.get_weather city w = (out, w ++ [Keras.EvGet call]) /\
        url call = Account.weather_url city /\ timeout call = None).
Proof.
  split.
  - intros B city w. eexists _, _. split; [apply vit_get_weather_account |].
    split; reflexivity.
  - intros B city w. eexists _, _. split; [apply keras_get_weather_account |].
    split; reflexivity.
Qed.

(** ** Checkpoint keys *)

Lemma stripped_prefixed (k : string) : ModelInfo.stripped ("module." +:+ k) = k.
Proof.
  unfold ModelInfo.stripped, startswith. cbn. destruct k; reflexivity.
Qed.

Lemma stripped_plain (k : string) :
  startswith k "module." = false -> ModelInfo.stripped k = k.
Proof. unfold ModelInfo.stripped. intros ->. reflexivity. Qed.

Section CheckpointKeys.
Context {B : ModelInfo.Backend}.

(** One round of the loop stores the value under the stripped key. *)
Lemma strip_loop_cons (k : string) (v : ModelInfo.pyobj ModelInfo.tensor)
      (items : list (string * ModelInfo.pyobj ModelInfo.tensor))
      (m : gmap string (ModelInfo.pyobj ModelInfo.tensor)) :
  ModelInfo.strip_loop ((k, v) :: items) m =
  ModelInfo.strip_loop items (<[ModelInfo.stripped k := v]> m).
Proof.
  cbn [ModelInfo.strip_loop]. unfold ModelInfo.stripped.
  destruct (startswith k "module."); reflexivity.
Qed.

(** A key no item is stored under keeps what the dict had. *)
Lemma strip_loop_other (items : list (string * ModelInfo.pyobj ModelInfo.tensor))
      (m : gmap string (ModelInfo.pyobj ModelInfo.tensor)) (k' : string) :
  ~ In k' (map ModelInfo.stripped (keys items)) ->
  ModelInfo.strip_loop items m !! k' = m !! k'.
Proof.
  revert m. induction items as [| [k v] items IH]; intros m Hnot; [reflexivity |].
  rewrite strip_loop_cons. cbn in Hnot.
  rewrite IH by tauto. apply lookup_insert_ne. tauto.
Qed.

(** When no two keys are stored under the same key, every value is found
    under the stripped key of its own key. *)
Lemma strip_loop_stored (items : list (string * ModelInfo.pyobj ModelInfo.tensor))
      (m : gmap string (ModelInfo.pyobj ModelInfo.tensor))
      (k : string) (v : ModelInfo.pyobj ModelInfo.tensor) :
  List.NoDup (map ModelInfo.stripped (keys items)) ->
  In (k, v) items ->
  ModelInfo.strip_loop items m !! ModelInfo.stripped k = Some v.
Proof.
  revert m. induction items as [| [k0 v0] items IH]; intros m Hnd Hin; [destruct Hin |].
  rewrite strip_loop_cons. cbn in Hnd. apply List.NoDup_cons_iff in Hnd as [Hfresh Hnd].
  destruct Hin as [[= -> ->] | Hin].
  - rewrite strip_loop_other by exact Hfresh. apply lookup_insert_eq.
  - apply IH; assumption.
Qed.

(** Every entry of the result comes from an item, or was there before. *)
Lemma strip_loop_source (items : list (string * ModelInfo.pyobj ModelInfo.tensor))
      (m : gmap string (ModelInfo.pyobj ModelInfo.tensor))
      (k' : string) (v : ModelInfo.pyobj ModelInfo.tensor) :
  ModelInfo.strip_loop items m !! k' = Some v ->
  m !! k' = Some v \/ exists k, In (k, v) items /\ ModelInfo.stripped k = k'.
Proof.
  revert m. induction items as [| [k0 v0] items IH]; intros m H; [left; exact H |].
  rewrite strip_loop_cons in H. apply IH in H as [H | (k & Hin & Hk)].
  - destruct (decide (ModelInfo.stripped k0 = k')) as [E | E].
    + rewrite E, lookup_insert_eq in H. injection H as <-.
      right. exists k0. split; [left; reflexivity | exact E].
    + rewrite lookup_insert_ne in H by exact E. left. exact H.
  - right. exists k. split; [right; exact Hin | exact Hk].
Qed.

(** The loop builds the same dict from a checkpoint without prefixed keys
    and from the same checkpoint with the prefix on every key. *)
Lemma strip_loop_with_prefix (items : list (string * ModelInfo.pyobj ModelInfo.tensor))
      (m : gmap string (ModelInfo.pyobj ModelInfo.tensor)) :
  forallb (fun k => negb (startswith k "module.")) (keys items) = true ->
  ModelInfo.strip_loop (ModelInfo.with_prefix items) m = ModelInfo.strip_loop items m.
Proof.
  revert m. induction items as [| [k v] items IH]; intros m Hplain; [reflexivity |].
  cbn in Hplain. apply andb_prop in Hplain as [Hk Hplain].
  apply negb_true_iff in Hk.
  change (ModelInfo.with_prefix ((k, v) :: items))
    with (("module." +:+ k, v) :: ModelInfo.with_prefix items).
  rewrite !strip_loop_cons, stripped_prefixed, (stripped_plain k Hk).
  apply IH. exact Hplain.
Qed.

Lemma with_prefix_no_state_dict (items : list (string * ModelInfo.pyobj ModelInfo.tensor)) :
  assoc "state_dict" (ModelInfo.with_prefix items) = None.
Proof. induction items as [| [k v] items IH]; [reflexivity | exact IH]. Qed.

End CheckpointKeys.

(** A checkpoint dict with the keys [module.head.weight] and [head.weight]:
    the loop stores both under [head.weight], the later value replaces the
    earlier, and the model is loaded with the value of the unprefixed key;
    the value of the prefixed key is not under its stripped key. *)
Lemma strip_loop_collision :
  List.NoDup (keys Examples.colliding_checkpoint) /\
  In ("module." +:+ "head.weight", ModelInfo.Tensor 1%nat) Examples.colliding_checkpoint /\
  @ModelInfo.strip_loop Examples.loader Examples.colliding_checkpoint ∅ !! "head.weight"
  = Some (ModelInfo.Tensor 2%nat) /\
  exists st,
    @ModelInfo.load_checkpoint Examples.loader (ModelInfo.Dict Examples.colliding_checkpoint)
    = Ret st /\
    st !! "head.weight" = Some (ModelInfo.Tensor 2%nat).
Proof.
  split; [| split; [| split]].
  - repeat constructor; cbn; intuition discriminate.
  - left. reflexivity.
  - vm_compute. reflexivity.
  - eexists. split; vm_compute; reflexivity.
Qed.

(** C4, as the code has it: [load_model] stores every checkpoint value under
    its key with one leading "module." removed, other keys as they are.  For
    a checkpoint dict in which no two keys are stored under the same key, a
    key "module." ++ k is found under k with its value, any other key under
    itself with its value, and nothing else is in the dict that is loaded.  A
    checkpoint whose keys all carry the prefix is loaded exactly as the same
    checkpoint without it, bare or under "state_dict". *)
Theorem load_model_strips_module_prefix :
  (forall (B : ModelInfo.Backend)
          (items : list (string * ModelInfo.pyobj ModelInfo.tensor)),
      List.NoDup (map ModelInfo.stripped (keys items)) ->
      (forall k v, In ("module." +:+ k, v) items ->
                   ModelInfo.strip_loop items ∅ !! k = Some v) /\
      (forall k v, In (k, v) items -> startswith k "module." = false ->
                   ModelInfo.strip_loop items ∅ !! k = Some v) /\
      (forall k' v, ModelInfo.strip_loop items ∅ !! k' = Some v ->
                    exists k, In (k, v) items /\ ModelInfo.stripped k = k'))
  /\
  (forall (B : ModelInfo.Backend)
          (items : list (string * ModelInfo.pyobj ModelInfo.tensor)),
      forallb (fun k => negb (startswith k "module.")) (keys items) = true ->
      ModelInfo.strip_loop (ModelInfo.with_prefix items) ∅ = ModelInfo.strip_loop items ∅ /\
      (assoc "state_dict" items = None ->
       ModelInfo.load_checkpoint (ModelInfo.Dict (ModelInfo.with_prefix items)) =
       ModelInfo.load_checkpoint (ModelInfo.Dict items)) /\
      ModelInfo.load_checkpoint
        (ModelInfo.Dict [("state_dict", ModelInfo.Dict (ModelInfo.with_prefix items))]) =
      ModelInfo.load_checkpoint (ModelInfo.Dict [("state_dict", ModelInfo.Dict items)])).
Proof.
  split.
  - intros B items Hnd. split; [| split].
    + intros k v Hin.
      pose proof (strip_loop_stored items ∅ _ v Hnd Hin) as H.
      rewrite stripped_prefixed in H. exact H.
    + intros k v Hin Hk.
      pose proof (strip_loop_stored items ∅ _ v Hnd Hin) as H.
      rewrite (stripped_plain k Hk) in H. exact H.
    + intros k' v H. apply strip_loop_source in H as [H | H]; [| exact H].
      rewrite lookup_empty in H. discriminate.
  - intros B items Hplain. split; [| split].
    + apply strip_loop_with_prefix. exact Hplain.
    + intros Hsd. unfold ModelInfo.load_checkpoint.
      rewrite with_prefix_no_state_dict, Hsd. cbn.
      rewrite strip_loop_with_prefix by exact Hplain. reflexivity.
    + unfold ModelInfo.load_checkpoint. cbn.
      rewrite strip_loop_with_prefix by exact Hplain. reflexivity.
Qed.

(** On the checkpoint of the two-parameter model: saved with the prefix it
    loads, and loads as the plain one does. *)
Lemma load_model_strips_module_prefix_witness :
  @ModelInfo.strip_loop Examples.loader
     (ModelInfo.with_prefix Examples.plain_checkpoint) ∅ !! "head.weight"
  = Some (ModelInfo.Tensor 1%nat) /\
  @ModelInfo.load_checkpoint Examples.loader
     (ModelInfo.Dict (ModelInfo.with_prefix Examples.plain_checkpoint)) =
  @ModelInfo.load_checkpoint Examples.loader (ModelInfo.Dict Examples.plain_checkpoint).
Proof.
  split.
  - refine (proj1 (proj1 load_model_strips_module_prefix Examples.loader
                     (ModelInfo.with_prefix Examples.plain_checkpoint) _)
                  "head.weight" (ModelInfo.Tensor 1%nat) _).
    + repeat constructor; cbn; intuition discriminate.
    + left. reflexivity.
  - exact (proj1 (proj2 (proj2 load_model_strips_module_prefix Examples.loader
                           Examples.plain_checkpoint eq_refl)) eq_refl).
Defined.

(** ** The extension, again: the worded definition is the text after the
    last '.' *)

Lemma rsplit_last_sound (s before after : string) :
  rsplit_last "." s = Some (before, after) ->
  s = before +:+ "." +:+ after /\ rsplit_last "." after = None.
Proof.
  revert before. induction s as [| c s IH]; intros before; [discriminate |].
  cbn [rsplit_last].
  destruct (rsplit_last "." s) as [[b a] |] eqn:Hs.
  - intros [= <- <-]. destruct (IH b eq_refl) as [-> Hnone].
    split; [reflexivity | exact Hnone].
  - destruct (Ascii.eqb_spec c "."); [| discriminate].
    intros [= <- <-]. subst c. split; [reflexivity | exact Hs].
Qed.

Lemma rsplit_last_complete (before after : string) :
  rsplit_last "." after = None ->
  rsplit_last "." (before +:+ "." +:+ after) = Some (before, after).
Proof.
  intros Hnone. induction before as [| c before IH].
  - change ("" +:+ "." +:+ after) with (String "." after).
    cbn [rsplit_last]. rewrite Hnone. reflexivity.
  - change (String c before +:+ "." +:+ after)
      with (String c (before +:+ "." +:+ after)).
    cbn [rsplit_last]. rewrite IH. reflexivity.
Qed.

(** [extension] yields [ext] exactly when the name is some stem, a '.', and
    [ext], with no '.' in [ext]; it yields nothing exactly when the name has
    no '.'. *)
Lemma extension_after_last_dot (filename ext : string) :
  Wording.extension filename = Some ext <->
  exists stem, filename = stem +:+ "." +:+ ext /\ str_in "." ext = false.
Proof.
  unfold Wording.extension. rewrite extension_from_rsplit. split.
  - destruct (rsplit_last "." filename) as [[b a] |] eqn:Hs; [| discriminate].
    intros [= ->]. apply rsplit_last_sound in Hs as [-> Hnone].
    exists b. split; [reflexivity |]. rewrite str_in_dot, Hnone. reflexivity.
  - intros (stem & -> & Hno). rewrite str_in_dot in Hno.
    destruct (rsplit_last "." ext) eqn:Hext; [discriminate |].
    rewrite (rsplit_last_complete stem ext Hext). reflexivity.
Qed.

Lemma extension_none_no_dot (filename : string) :
  Wording.extension filename = None <-> str_in "." filename = false.
Proof.
  unfold Wording.extension. rewrite extension_from_rsplit, str_in_dot.
  destruct (rsplit_last "." filename) as [[b a] |]; split; congruence.
Qed.

Example extension_examples :
  Wording.extension "leaf.v2.PNG" = Some "PNG" /\
  Wording.extension "archive." = Some "" /\
  Wording.extension "README" = None /\
  rsplit1 "leaf.v2.PNG" "." = ["leaf.v2"; "PNG"] /\
  rsplit1 "README" "." = ["README"] /\
  ViT.allowed_file "leaf.v2.PNG" = true /\
  ViT.allowed_file "png" = false /\
  Keras.allowed_file "scan.JpEg" = true /\
  Keras.allowed_file "scan.jpeg.exe" = false.
Proof. repeat split; vm_compute; reflexivity. Qed.

Example os_path_join_examples :
  os_path_join "uploads" "leaf.png" = "uploads/leaf.png" /\
  os_path_join "uploads" "/tmp/leaf.png" = "/tmp/leaf.png" /\
  os_path_join "uploads/" "leaf.png" = "uploads/leaf.png".
Proof. repeat split; vm_compute; reflexivity. Qed.

Example argmax_examples :
  argmax [1 # 10; 6 # 10; 3 # 10]%Q = Ret 1%nat /\
  argmax [1 # 2; 1 # 2]%Q = Ret 0%nat /\
  raises (argmax []) = true.
Proof. repeat split; vm_compute; reflexivity. Qed.

(** On the readable upload of the examples the stand-in softmax keeps the
    order of the logits, and the confidence 128/139 is the largest score. *)
Lemma confidence_is_probability_witness :
  exists p,
    fst (@ViT.predict_image Examples.vit "uploads/leaf.PNG"
           {| ViT.disk := {[ "uploads/leaf.PNG" := "img-abc" ]}; ViT.log := [] |}) =
    Ret (Some p) /\
    confidence p = (128 # 139)%Q /\
    Wording.is_maximum (confidence p) (all_confidences p).
Proof.
  set (w := {| ViT.disk := {[ "uploads/leaf.PNG" := "img-abc" ]}; ViT.log := [] |}
            : @ViT.world Examples.vit).
  destruct (@ViT.predict_image Examples.vit "uploads/leaf.PNG" w) as [out w'] eqn:Hrun.
  assert (Hout : exists p, out = Ret (Some p) /\ confidence p = (128 # 139)%Q).
  { apply (f_equal fst) in Hrun. cbn [fst] in Hrun. subst out.
    eexists. split; vm_compute; reflexivity. }
  destruct Hout as (p & -> & Hconf).
  exists p. split; [reflexivity |]. split; [exact Hconf |].
  destruct (proj2 confidence_is_probability_of_predicted_class Examples.vit
              "uploads/leaf.PNG" w w' p Hrun)
    as (bytes & img & t & logits & idx & label & r
        & Hd & Hi & Ht & Hm & _ & _ & _ & _ & _ & _ & Hmax).
  vm_compute in Hd. injection Hd as <-.
  vm_compute in Hi. injection Hi as <-.
  vm_compute in Ht. injection Ht as <-.
  vm_compute in Hm. injection Hm as <-.
  apply Hmax. right. vm_compute. reflexivity.
Defined.

(** ** Further properties of the routes *)

(** X2: the two scripts accept exactly the same file names. *)
Theorem allowed_file_same_in_both_services (filename : string) :
  ViT.allowed_file filename = Keras.allowed_file filename.
Proof.
  rewrite vit_allowed_file_supported, keras_allowed_file_supported. reflexivity.
Qed.

Section FailedWrite.
Context {B : ViT.Backend}.

Lemma loop_outcome_unstorable (files : list (FileStorage ViT.content))
      (results : list ViT.entry) :
  Account.storable files = false ->
  exists e, Account.loop_outcome files results = Raise e.
Proof.
  revert results. induction files as [| f files IH]; intros results Hst;
    [discriminate |].
  cbn in Hst. cbn [Account.loop_outcome].
  destruct (Wording.supported (filename f)); cbn in Hst |- *.
  - destruct (ViT.save_ok (Account.upload_path f)); cbn in Hst |- *.
    + apply IH. exact Hst.
    + eexists. reflexivity.
  - apply IH. exact Hst.
Qed.

Lemma unstorable_has_name (files : list (FileStorage ViT.content)) :
  Account.storable files = false ->
  forallb (fun f => (filename f =? "")%string) files = false.
Proof.
  induction files as [| f files IH]; intros Hst; [discriminate |].
  cbn in Hst |- *.
  destruct (Wording.supported (filename f)) eqn:Hs; cbn in Hst.
  - apply supported_nonempty in Hs.
    destruct (String.eqb_spec (filename f) ""); [contradiction | reflexivity].
  - rewrite (IH Hst). apply andb_false_r.
Qed.

End FailedWrite.

(** X1: in the ViT [/predict] route [file.save] is outside every [try]
    block: when one accepted upload cannot be written, the exception leaves
    the route and the request gets no result list, whatever the other uploads
    are. *)
Theorem failed_write_ends_request :
  forall (B : ViT.Backend) (request_files : ViT.Request) (w : ViT.world),
    Account.storable (ViT.getlist "images" request_files) = false ->
    exists e, fst (ViT.predict request_files w) = Raise e.
Proof.
  intros B request_files w Hst.
  assert (Hne : ViT.getlist "images" request_files <> []).
  { intros E. rewrite E in Hst. discriminate. }
  rewrite (predict_account request_files w Hne), (unstorable_has_name _ Hst).
  destruct (loop_outcome_unstorable _ [] Hst) as [e He].
  exists e. cbn [fst]. rewrite He. reflexivity.
Qed.

(** The good first upload gets no entry when the second cannot be written. *)
Lemma failed_write_ends_request_witness :
  exists e,
    fst (@ViT.predict Examples.vit Examples.second_unwritable Examples.empty_world) =
    Raise e.
Proof.
  exact (failed_write_ends_request Examples.vit Examples.second_unwritable
           Examples.empty_world eq_refl).
Defined.

(** ** The Keras routes as a whole *)

(** X4: the [/weather] route of the Keras service never lets an exception
    out and marks a failure with the status: it answers 200 with the snapshot
    exactly after a 200 response of the weather service with a well-formed
    body, and otherwise 400 with a body whose only key is "error", carrying
    what [get_weather] put there.  Without a city it asks for eMpangeni. *)
Theorem keras_weather_status :
  forall (B : Keras.Backend) (city : option string) (w : list Keras.event),
    exists body status call,
      Keras.weather city w = (Ret (body, status), w ++ [Keras.EvGet call]) /\
      url call = Account.weather_url (match city with Some c => c | None => "eMpangeni" end) /\
      ((status = 200%Z /\ Wording.is_snapshot body /\
        exists res, Keras.requests_get call = Ret res /\ status_code res = 200%Z) \/
       (status = 400%Z /\ exists v, body = JObj [("error", v)] /\
        fst (Keras.get_weather
               (match city with Some c => c | None => "eMpangeni" end) w)
        = Ret (JObj [("error", v)]))).
Proof.
  intros B city w.
  set (c := match city with Some c => c | None => "eMpangeni" end).
  unfold Keras.weather. fold c. unfold io_bind.
  rewrite keras_get_weather_account. cbv zeta. cbn [fst].
  set (call := {| url := Account.weather_url c; timeout := None |}).
  destruct (weather_reply_shape "Failed to fetch weather" (Keras.requests_get call))
    as [[(temp & humidity & text & rain & Hr) Hres] | [(msg & Hr) | (res & data & err & v & _ & _ & _ & _ & _ & Hr)]];
    rewrite Hr; cbn.
  - eexists _, _, _. split; [reflexivity |]. split; [reflexivity |].
    left. split; [reflexivity |]. split; [| exact Hres].
    eexists _, _, _, _. reflexivity.
  - eexists _, _, _. split; [reflexivity |]. split; [reflexivity |].
    right. split; [reflexivity |]. eexists. split; reflexivity.
  - eexists _, _, _. split; [reflexivity |]. split; [reflexivity |].
    right. split; [reflexivity |]. eexists. split; reflexivity.
Qed.

(** ** The upload folder *)

Section UploadFolder.
Context {B : ViT.Backend}.










End UploadFolder.






(** ** The report functions of [modelinfo.py] *)

Lemma py_sum_cons (x : nat) (l : list nat) :
  Benchmark.py_sum (x :: l) = (x + Benchmark.py_sum l)%nat.
Proof.
  unfold Benchmark.py_sum. cbn.
  assert (H : forall l a, fold_left Nat.add l a = (a + fold_left Nat.add l 0)%nat).
  { clear. intros l. induction l as [| y l IH]; intros a; cbn; [lia |].
    rewrite (IH (a + y)%nat), (IH y). lia. }
  apply H.
Qed.

(** X8: [count_parameters] never reports more trainable than total
    parameters: the total is the trainable count plus the elements of the
    frozen tensors, so the two are equal exactly when every frozen tensor is
    empty. *)
Theorem count_parameters_trainable_le_total :
  forall parameters : list Benchmark.parameter,
    (snd (Benchmark.count_parameters parameters) <=
     fst (Benchmark.count_parameters parameters))%nat /\
    fst (Benchmark.count_parameters parameters) =
    (snd (Benchmark.count_parameters parameters) +
     Benchmark.py_sum
       (map Benchmark.numel
            (List.filter (fun p => negb (Benchmark.requires_grad p)) parameters)))%nat /\
    (snd (Benchmark.count_parameters parameters) =
     fst (Benchmark.count_parameters parameters) <->
     forall p, In p parameters -> Benchmark.requires_grad p = false ->
               Benchmark.numel p = 0%nat).
Proof.
  intros parameters. unfold Benchmark.count_parameters. cbn [fst snd].
  assert (Hsplit :
    Benchmark.py_sum (map Benchmark.numel parameters) =
    (Benchmark.py_sum (map Benchmark.numel
                           (List.filter Benchmark.requires_grad parameters)) +
     Benchmark.py_sum (map Benchmark.numel
                           (List.filter (fun p => negb (Benchmark.requires_grad p))
                                        parameters)))%nat).
  { induction parameters as [| p ps IH]; [reflexivity |].
    cbn [map List.filter]. rewrite py_sum_cons, IH.
    destruct (Benchmark.requires_grad p); cbn [negb map]; rewrite py_sum_cons; lia. }
  assert (Hzero :
    Benchmark.py_sum (map Benchmark.numel
                          (List.filter (fun p => negb (Benchmark.requires_grad p))
                                       parameters)) = 0%nat <->
    forall p, In p parameters -> Benchmark.requires_grad p = false ->
              Benchmark.numel p = 0%nat).
  { clear Hsplit. induction parameters as [| p ps IH]; [cbn; tauto |].
    cbn [List.filter]. destruct (Benchmark.requires_grad p) eqn:Hp; cbn [negb].
    - rewrite IH. split.
      + intros H q [<- | Hq] Hf; [congruence | apply H; assumption].
      + intros H q Hq. apply H. right. exact Hq.
    - cbn [map]. rewrite py_sum_cons. split.
      + intros H q [<- | Hq] Hf; [lia |].
        apply IH; [lia | exact Hq | exact Hf].
      + intros H. assert (H0 := H p (or_introl eq_refl) Hp).
        assert (Hrest : Benchmark.py_sum
                          (map Benchmark.numel
                               (List.filter (fun p => negb (Benchmark.requires_grad p)) ps))
                        = 0%nat).
        { apply IH. intros q Hq. apply H. right. exact Hq. }
        lia. }
  split; [lia |]. split; [lia |].
  rewrite <- Hzero. lia.
Qed.

Section Timing.
Context {B : Benchmark.Backend}.

Lemma repeat_call_passes (n : nat) (w : Benchmark.world) :
  (forall k, Benchmark.forward_pass k = Ret tt) ->
  Benchmark.repeat_call n w =
  (Ret tt, {| Benchmark.passes := Benchmark.passes w + n;
              Benchmark.reads := Benchmark.reads w |}).
Proof.
  intros Hok. revert w. induction n as [| n IH]; intros w.
  - cbn. unfold io_ret. destruct w. cbn. rewrite Nat.add_0_r. reflexivity.
  - cbn [Benchmark.repeat_call]. unfold io_bind, Benchmark.model_call.
    rewrite Hok, IH. cbn. do 2 f_equal. lia.
Qed.

End Timing.

(** *** Rounding to a float *)

Lemma pow2_pos (k : Z) : (0 < Float.pow2 k)%Q.
Proof.
  unfold Float.pow2. destruct (0 <=? k)%Z eqn:Hk.
  - apply Z.leb_le in Hk. unfold Qlt. cbn. pose proof (Z.pow_pos_nonneg 2 k). lia.
  - reflexivity.
Qed.

Lemma round_half_even_nonneg (N D : Z) :
  (0 <= N)%Z -> (0 < D)%Z -> (0 <= Float.round_half_even N D)%Z.
Proof.
  intros HN HD. unfold Float.round_half_even.
  pose proof (Z.div_pos N D HN HD) as Hq.
  destruct (2 * (N mod D) ?= D)%Z; [destruct (Z.even (N / D)) | |]; lia.
Qed.

Lemma round_half_even_one (N : Z) : Float.round_half_even N 1 = N.
Proof.
  unfold Float.round_half_even. rewrite Z.div_1_r, Z.mod_1_r. reflexivity.
Qed.

Lemma round_pos_nonneg (n d : positive) : (0 <= Float.round_pos n d)%Q.
Proof.
  unfold Float.round_pos.
  set (p := Z.max (Float.exponent n d - 52) (-1074)).
  apply Qmult_le_0_compat; [| apply Qlt_le_weak, pow2_pos].
  assert (Hm : (0 <= if (0 <=? p)%Z
                     then Float.round_half_even (Z.pos n) (Z.pos d * 2 ^ p)
                     else Float.round_half_even (Z.pos n * 2 ^ (- p)) (Z.pos d))%Z).
  { destruct (0 <=? p)%Z eqn:Hp.
    - apply Z.leb_le in Hp. apply round_half_even_nonneg; [lia |].
      pose proof (Z.pow_pos_nonneg 2 p). lia.
    - apply Z.leb_gt in Hp. apply round_half_even_nonneg; [| lia].
      pose proof (Z.pow_pos_nonneg 2 (- p)). lia. }
  unfold Qle. cbn. lia.
Qed.

(** Rounding keeps the sign. *)
Lemma round_nonneg (q : Q) : (0 <= q)%Q -> (0 <= Float.round q)%Q.
Proof.
  intros Hq. unfold Float.round. rewrite Qred_correct.
  destruct q as [[| n | n] d]; cbn [Qnum Qden].
  - apply Qle_refl.
  - apply round_pos_nonneg.
  - unfold Qle in Hq. cbn in Hq. lia.
Qed.

(** An int below [2 ^ 53] is a float. *)
Lemma round_int (n : Z) :
  (0 < n < 2 ^ 53)%Z -> Float.round (inject_Z n) = inject_Z n.
Proof.
  intros [Hpos Hlt]. destruct n as [| n | n]; try lia.
  unfold Float.round, inject_Z. cbn [Qnum Qden].
  assert (Hval : (Float.round_pos n 1 == Z.pos n # 1)%Q).
  { unfold Float.round_pos.
    set (p := Z.max (Float.exponent n 1 - 52) (-1074)).
    assert (Hp : (p <= 0)%Z).
    { assert (He : (Float.exponent n 1 <= Z.log2 (Z.pos n))%Z).
      { unfold Float.exponent. change (Z.log2 1) with 0%Z.
        destruct (Qle_bool _ _); lia. }
      assert (Hlog : (Z.log2 (Z.pos n) < 53)%Z) by (apply Z.log2_lt_pow2; lia).
      unfold p. lia. }
    unfold Float.pow2. destruct (0 <=? p)%Z eqn:Hp0.
    - apply Z.leb_le in Hp0. replace p with 0%Z by lia.
      change (1 * 2 ^ 0)%Z with 1%Z. rewrite round_half_even_one.
      unfold Qeq. cbn. lia.
    - rewrite round_half_even_one.
      pose proof (Z.pow_pos_nonneg 2 (- p) ltac:(lia) ltac:(lia)) as Hpow.
      unfold Qeq. cbn [Qnum Qden inject_Z Qmult].
      rewrite Pos.mul_1_l, Z2Pos.id by exact Hpow. lia. }
  rewrite (Qred_complete _ _ Hval). unfold Qred.
  pose proof (Z.ggcd_gcd (Z.pos n) 1) as Hg.
  pose proof (Z.ggcd_correct_divisors (Z.pos n) 1) as Hd.
  destruct (Z.ggcd (Z.pos n) 1) as [g [aa bb]]. cbn [fst snd] in *.
  rewrite Z.gcd_1_r in Hg. subst g. destruct Hd as [Ha Hb].
  replace aa with (Z.pos n) by lia. replace bb with 1%Z by lia. reflexivity.
Qed.

Lemma of_int_small (n : Z) :
  (0 < n < 2 ^ 53)%Z -> Float.of_int n = Ret (inject_Z n).
Proof.
  intros Hn. unfold Float.of_int. rewrite (round_int n Hn).
  assert (H1 : Qle_bool (Float.pow2 1024) (inject_Z n) = false).
  { destruct (Qle_bool (Float.pow2 1024) (inject_Z n)) eqn:Hb; [| reflexivity].
    apply Qle_bool_iff in Hb. change (Float.pow2 1024) with (inject_Z (2 ^ 1024)) in Hb.
    rewrite <- Zle_Qle in Hb.
    pose proof (Z.pow_lt_mono_r 2 53 1024 ltac:(lia) ltac:(lia) ltac:(lia)). lia. }
  assert (H2 : Qle_bool (inject_Z n) (- Float.pow2 1024) = false).
  { destruct (Qle_bool (inject_Z n) (- Float.pow2 1024)) eqn:Hb; [| reflexivity].
    apply Qle_bool_iff in Hb. pose proof (pow2_pos 1024) as Hpow.
    assert (Hn0 : (0 < inject_Z n)%Q) by (unfold Qlt; cbn; lia). lra. }
  rewrite H1, H2. reflexivity.
Qed.

Lemma div_int_small (a : Q) (n : Z) :
  (0 < n < 2 ^ 53)%Z -> Float.div_int a n = Ret (Float.round (a / inject_Z n)).
Proof.
  intros Hn. unfold Float.div_int. rewrite (of_int_small n Hn). cbn [bind].
  assert (H0 : Qeq_bool (inject_Z n) 0 = false).
  { destruct (Qeq_bool (inject_Z n) 0) eqn:Hb; [| reflexivity].
    apply Qeq_bool_iff in Hb. unfold Qeq in Hb. cbn in Hb. lia. }
  rewrite H0. reflexivity.
Qed.

(** Thirds, tenths and hundredths are not floats; an int above [2 ^ 53]
    rounds to even; half the smallest float rounds to zero. *)
Example round_examples :
  Float.round (2 # 100) = (5764607523034235 # 288230376151711744)%Q /\
  Float.round (1 # 3) = (6004799503160661 # 18014398509481984)%Q /\
  Float.round (- (7 # 3)) = (- (5254199565265579 # 2251799813685248))%Q /\
  Float.round (inject_Z (2 ^ 53 + 1)) = inject_Z (2 ^ 53) /\
  Float.round (inject_Z (2 ^ 53 + 3)) = inject_Z (2 ^ 53 + 4) /\
  Float.round (1 # Z.to_pos (2 ^ 1075)) = 0%Q /\
  Float.round (1 # 2) = (1 # 2)%Q.
Proof. repeat split; vm_compute; reflexivity. Qed.

(** X9: when the forward passes succeed, [average_inference_time] runs the
    model [10 + runs] times (10 times for a negative [runs]) and reads the
    clock twice, around the timed passes only.  What it returns is the float
    division by [runs] of the float difference of the two readings: for
    [runs = 0] a ZeroDivisionError, after the ten warm-up passes, and for
    [0 < runs < 2 ^ 53] the difference rounded, divided by [runs] and
    rounded again.  For no positive [runs] is the result negative when the
    clock does not go back. *)
Theorem average_inference_time_passes :
  forall (B : Benchmark.Backend) (runs : Z) (w : Benchmark.world),
    (forall k, Benchmark.forward_pass k = Ret tt) ->
    Benchmark.passes (snd (Benchmark.average_inference_time runs w)) =
      (Benchmark.passes w + 10 + Z.to_nat runs)%nat /\
    Benchmark.reads (snd (Benchmark.average_inference_time runs w)) =
      (Benchmark.reads w + 2)%nat /\
    fst (Benchmark.average_inference_time runs w) =
      Float.div_int (Float.sub (Benchmark.clock (S (Benchmark.reads w)))
                               (Benchmark.clock (Benchmark.reads w))) runs /\
    (runs = 0%Z ->
     fst (Benchmark.average_inference_time runs w) =
     Raise (Exception "ZeroDivisionError" "float division by zero")) /\
    ((0 < runs < 2 ^ 53)%Z ->
     exists avg,
       fst (Benchmark.average_inference_time runs w) = Ret avg /\
       avg = Float.round
               (Float.round (Benchmark.clock (S (Benchmark.reads w))
                             - Benchmark.clock (Benchmark.reads w))
                / inject_Z runs) /\
       ((Benchmark.clock (Benchmark.reads w)
         <= Benchmark.clock (S (Benchmark.reads w)))%Q -> (0 <= avg)%Q)) /\
    ((0 < runs)%Z ->
     (Benchmark.clock (Benchmark.reads w) <= Benchmark.clock (S (Benchmark.reads w)))%Q ->
     forall avg, fst (Benchmark.average_inference_time runs w) = Ret avg -> (0 <= avg)%Q).
Proof.
  intros B runs w Hok.
  assert (Hrun : Benchmark.average_inference_time runs w =
                 (Float.div_int (Float.sub (Benchmark.clock (S (Benchmark.reads w)))
                                           (Benchmark.clock (Benchmark.reads w))) runs,
                  {| Benchmark.passes := Benchmark.passes w + 10 + Z.to_nat runs;
                     Benchmark.reads := Benchmark.reads w + 2 |})).
  { unfold Benchmark.average_inference_time, io_bind.
    rewrite (repeat_call_passes 10 w Hok). unfold Benchmark.time_time. cbn.
    rewrite (repeat_call_passes (Z.to_nat runs) _ Hok). cbn.
    replace (S (S (Benchmark.reads w))) with (Benchmark.reads w + 2)%nat by lia.
    reflexivity. }
  rewrite Hrun. cbn [fst snd Benchmark.passes Benchmark.reads].
  split; [reflexivity |]. split; [reflexivity |]. split; [reflexivity |].
  split; [| split].
  - intros ->. reflexivity.
  - intros Hruns. rewrite (div_int_small _ runs Hruns). eexists.
    split; [reflexivity |]. split; [reflexivity |].
    intros Hclock. apply round_nonneg. unfold Qdiv. apply Qmult_le_0_compat.
    + apply round_nonneg. lra.
    + apply Qinv_le_0_compat. unfold Qle. cbn. lia.
  - intros Hruns Hclock avg. unfold Float.div_int, Float.of_int.
    destruct (Qle_bool (Float.pow2 1024) (Float.round (inject_Z runs))
              || Qle_bool (Float.round (inject_Z runs)) (- Float.pow2 1024));
      cbn [bind]; [discriminate |].
    destruct (Qeq_bool (Float.round (inject_Z runs)) 0); [discriminate |].
    intros [= <-]. apply round_nonneg. unfold Qdiv. apply Qmult_le_0_compat.
    + apply round_nonneg. lra.
    + apply Qinv_le_0_compat. apply round_nonneg. unfold Qle. cbn. lia.
Qed.

(** Readings 5.0 and 7.0 and 100 runs: 110 passes, and the float 0.02. *)
Lemma average_inference_time_passes_witness :
  Benchmark.passes
    (snd (@Benchmark.average_inference_time ScriptExamples.steady 100
            ScriptExamples.fresh)) = 110%nat /\
  fst (@Benchmark.average_inference_time ScriptExamples.steady 100
         ScriptExamples.fresh) = Ret (5764607523034235 # 288230376151711744)%Q.
Proof.
  split.
  - exact (proj1 (average_inference_time_passes ScriptExamples.steady 100
                    ScriptExamples.fresh (fun _ => eq_refl))).
  - destruct (proj1 (proj2 (proj2 (proj2 (proj2
               (average_inference_time_passes ScriptExamples.steady 100
                  ScriptExamples.fresh (fun _ => eq_refl))))))
               ltac:(split; [reflexivity | reflexivity]))
      as (avg & Hret & Havg & _).
    rewrite Hret, Havg. vm_compute. reflexivity.
Defined.

(** ** The training loop of [vitmodel.py] *)

Section TrainingLoop.
Context {B : Training.Backend}.

Lemma count_correct_le (outputs : list (list Q)) (targets : list nat) (n : nat) :
  Training.count_correct outputs targets = Ret n -> (n <= length targets)%nat.
Proof.
  revert targets n. induction outputs as [| row outputs IH]; intros [| t targets] n;
    cbn [Training.count_correct]; try discriminate.
  - intros [= <-]. cbn. lia.
  - destruct (argmax row) as [predicted | e]; cbn [bind]; [| discriminate].
    destruct (Training.count_correct outputs targets) as [rest | e] eqn:Hrest;
      cbn [bind]; [| discriminate].
    intros [= <-]. specialize (IH targets rest Hrest). cbn [length].
    destruct (predicted =? t)%nat; lia.
Qed.

Lemma count_correct_returns (outputs : list (list Q)) (targets : list nat) :
  length outputs = length targets ->
  Forall (fun row => row <> []) outputs ->
  exists n, Training.count_correct outputs targets = Ret n.
Proof.
  revert targets. induction outputs as [| row outputs IH]; intros [| t targets] Hlen Hrows;
    cbn in Hlen; try discriminate.
  - exists 0%nat. reflexivity.
  - inversion Hrows as [| ? ? Hrow Hrest]; subst.
    destruct (IH targets ltac:(lia) Hrest) as (rest & Hcount).
    cbn [Training.count_correct]. destruct row as [| x row]; [congruence |].
    cbn [argmax bind]. rewrite Hcount. cbn [bind]. eexists. reflexivity.
Qed.

Lemma next_step_full (s : nat) :
  ((s + 1) mod 4 = 0 -> s mod 4 = 3 /\ S s mod 4 = 0)%nat.
Proof.
  intros H. replace (S s) with (s + 1)%nat by lia.
  pose proof (Nat.Div0.div_mod s 4). pose proof (Nat.Div0.div_mod (s + 1) 4).
  pose proof (Nat.mod_upper_bound s 4 ltac:(lia)). lia.
Qed.

Lemma next_step_partial (s : nat) :
  ((s + 1) mod 4 <> 0 -> S s mod 4 = s mod 4 + 1)%nat.
Proof.
  intros H. replace (S s) with (s + 1)%nat by lia.
  pose proof (Nat.Div0.div_mod s 4). pose proof (Nat.Div0.div_mod (s + 1) 4).
  pose proof (Nat.mod_upper_bound s 4 ltac:(lia)).
  pose proof (Nat.mod_upper_bound (s + 1) 4 ltac:(lia)). lia.
Qed.

(** The loop invariant of the training loop: the gradients held at step [s]
    are those of the last [s mod 4] batches. From there the loop takes one
    optimizer step per completed group of four, and counts at most one hit
    per image. *)
Lemma train_steps_account (epoch : nat) (batches : list Training.batch) :
  forall (s : nat) (p p' : Training.progress),
    Training.train_steps epoch s batches p = Ret p' ->
    length (Training.grads (Training.opt p)) = (s mod 4)%nat ->
    Training.steps (Training.opt p') =
      Training.steps (Training.opt p)
      ++ Training.full_groups (Training.grads (Training.opt p) ++ batches) /\
    (Training.correct p' <=
     Training.correct p
     + list_sum (map (fun b => length (Training.labels b)) batches))%nat.
Proof.
  induction batches as [| b batches IH]; intros s p p' Hrun Hlen.
  - cbn in Hrun. injection Hrun as <-. rewrite app_nil_r.
    assert (Hg : Training.full_groups (Training.grads (Training.opt p)) = []).
    { pose proof (Nat.mod_upper_bound s 4 ltac:(lia)) as Hlt.
      destruct (Training.grads (Training.opt p)) as [| a [| b [| c [| d g]]]];
        cbn in Hlen; try reflexivity; lia. }
    rewrite Hg, app_nil_r. cbn. split; [reflexivity | lia].
  - cbn [Training.train_steps] in Hrun.
    destruct (Training.logits true epoch s (Training.steps (Training.opt p)) b)
      as [outputs | e]; cbn [bind] in Hrun; [| discriminate].
    destruct (Training.criterion outputs (Training.labels b)) as [full_loss | e];
      cbn [bind] in Hrun; [| discriminate].
    destruct (Training.count_correct outputs (Training.labels b)) as [hits | e] eqn:Hhits;
      cbn [bind] in Hrun; [| discriminate].
    apply count_correct_le in Hhits.
    unfold Training.ACCUMULATION_STEPS in Hrun.
    destruct ((s + 1) mod 4 =? 0)%nat eqn:Hfull.
    + apply Nat.eqb_eq in Hfull. destruct (next_step_full s Hfull) as (Hs & Hnext).
      apply IH in Hrun; [| cbn; symmetry; exact Hnext].
      cbn [Training.opt Training.zero_grad Training.optimizer_step Training.backward
           Training.steps Training.grads Training.correct] in Hrun.
      destruct Hrun as (Hsteps & Hcorrect). rewrite Hs in Hlen.
      destruct (Training.grads (Training.opt p)) as [| a1 [| a2 [| a3 [| a4 g]]]];
        cbn in Hlen; try lia.
      split.
      * rewrite Hsteps. cbn. rewrite <- app_assoc. reflexivity.
      * cbn [map]. unfold list_sum in *. cbn [fold_right]. lia.
    + apply Nat.eqb_neq in Hfull. pose proof (next_step_partial s Hfull) as Hnext.
      apply IH in Hrun.
      * cbn [Training.opt Training.backward Training.steps Training.grads
             Training.correct] in Hrun.
        destruct Hrun as (Hsteps & Hcorrect). split.
        -- rewrite Hsteps, <- app_assoc. reflexivity.
        -- cbn [map]. unfold list_sum in *. cbn [fold_right]. lia.
      * cbn [Training.opt Training.backward Training.grads].
        rewrite length_app, Hlen, Hnext. reflexivity.
Qed.

Lemma validate_account (epoch : nat) (weights : list (list Training.batch))
      (batches : list Training.batch) :
  forall (s n n' : nat),
    Training.validate epoch s weights batches n = Ret n' ->
    (n' <= n + list_sum (map (fun b => length (Training.labels b)) batches))%nat.
Proof.
  induction batches as [| b batches IH]; intros s n n' Hrun.
  - cbn in Hrun. injection Hrun as <-. cbn. lia.
  - cbn [Training.validate] in Hrun.
    destruct (Training.logits false epoch s weights b) as [outputs | e];
      cbn [bind] in Hrun; [| discriminate].
    destruct (Training.count_correct outputs (Training.labels b)) as [hits | e] eqn:Hhits;
      cbn [bind] in Hrun; [| discriminate].
    apply count_correct_le in Hhits. apply IH in Hrun. cbn [map]. unfold list_sum in *. cbn [fold_right]. lia.
Qed.

Lemma true_div_range (a b : nat) (q : Q) :
  Training.true_div a b = Ret q -> (a <= b)%nat -> (0 <= q /\ q <= 1)%Q.
Proof.
  unfold Training.true_div. destruct (b =? 0)%nat eqn:Hb; [discriminate |].
  apply Nat.eqb_neq in Hb. intros [= <-] Hab.
  assert (Hpos : (0 < inject_Z (Z.of_nat b))%Q).
  { unfold Qlt. cbn. lia. }
  split.
  - unfold Qdiv. apply Qmult_le_0_compat.
    + unfold Qle. cbn. lia.
    + apply Qinv_le_0_compat. apply Qlt_le_weak. exact Hpos.
  - apply Qle_shift_div_r; [exact Hpos |]. rewrite Qmult_1_l.
    rewrite <- Zle_Qle. lia.
Qed.

(** One epoch: the gradients left over from the epoch before are dropped by
    [optimizer.zero_grad()], so the optimizer steps of the epoch are the
    complete groups of four of its own batches. *)
Lemma run_epoch_account (epoch : nat) (o o' : Training.optimizer_state)
      (r : Training.epoch_report) :
  Training.run_epoch epoch o = Ret (o', r) ->
  Training.steps o' =
    Training.steps o ++ Training.full_groups (Training.train_loader epoch) /\
  ((list_sum (map (fun b => length (Training.labels b)) (Training.train_loader epoch))
    <= Training.len_train_data)%nat ->
   (0 <= Training.train_acc r /\ Training.train_acc r <= 1)%Q) /\
  ((list_sum (map (fun b => length (Training.labels b)) Training.val_loader)
    <= Training.len_val_data)%nat ->
   (0 <= Training.val_acc r /\ Training.val_acc r <= 1)%Q).
Proof.
  unfold Training.run_epoch.
  destruct (Training.train_steps epoch 0 (Training.train_loader epoch) _)
    as [p | e] eqn:Hsteps; cbn [bind]; [| discriminate].
  apply train_steps_account in Hsteps; [| reflexivity].
  cbn [Training.opt Training.zero_grad Training.steps Training.grads Training.correct]
    in Hsteps.
  destruct Hsteps as (Hsteps & Hcorrect). rewrite app_nil_l in Hsteps.
  destruct (Training.true_div (Training.correct p) Training.len_train_data)
    as [acc | e] eqn:Hacc; cbn [bind]; [| discriminate].
  destruct (length (Training.train_loader epoch) =? 0)%nat; cbn [bind]; [discriminate |].
  destruct (Training.validate epoch 0 (Training.steps (Training.opt p))
                              Training.val_loader 0)
    as [val_correct | e] eqn:Hval; cbn [bind]; [| discriminate].
  apply validate_account in Hval.
  destruct (Training.true_div val_correct Training.len_val_data)
    as [vacc | e] eqn:Hvacc; cbn [bind]; [| discriminate].
  intros [= <- <-]. cbn [Training.train_acc Training.val_acc].
  split; [exact Hsteps |]. split; intros Hsize.
  - apply (true_div_range _ _ _ Hacc). lia.
  - apply (true_div_range _ _ _ Hvacc). lia.
Qed.

Lemma run_epochs_account (n : nat) :
  forall (epoch : nat) (o o' : Training.optimizer_state)
         (printed printed' : list Training.epoch_report),
    Training.run_epochs n epoch o printed = Ret (o', printed') ->
    Training.steps o' =
      Training.steps o
      ++ flat_map (fun e => Training.full_groups (Training.train_loader e)) (seq epoch n) /\
    exists new,
      printed' = printed ++ new /\ length new = n /\
      ((forall e, (epoch <= e < epoch + n)%nat ->
                  (list_sum (map (fun b => length (Training.labels b))
                                 (Training.train_loader e))
                   <= Training.len_train_data)%nat) ->
       (list_sum (map (fun b => length (Training.labels b)) Training.val_loader)
        <= Training.len_val_data)%nat ->
       Forall (fun r => (0 <= Training.train_acc r /\ Training.train_acc r <= 1)%Q /\
                        (0 <= Training.val_acc r /\ Training.val_acc r <= 1)%Q) new).
Proof.
  induction n as [| n IH]; intros epoch o o' printed printed' Hrun.
  - cbn in Hrun. injection Hrun as <- <-. cbn. rewrite app_nil_r.
    split; [reflexivity |]. exists []. rewrite app_nil_r.
    repeat split; constructor.
  - cbn [Training.run_epochs] in Hrun.
    destruct (Training.run_epoch epoch o) as [[o1 r] | e] eqn:Hepoch;
      cbn [bind fst snd] in Hrun; [| discriminate].
    apply run_epoch_account in Hepoch. destruct Hepoch as (Hsteps & Htrain & Hval).
    apply IH in Hrun. destruct Hrun as (Hrest & new & Hprinted & Hlen & Hrange).
    split.
    + rewrite Hrest, Hsteps. cbn [seq flat_map]. rewrite <- app_assoc. reflexivity.
    + exists (r :: new). split; [| split].
      * rewrite Hprinted, <- app_assoc. reflexivity.
      * cbn. rewrite Hlen. reflexivity.
      * intros Hsizes Hvsize. constructor.
        -- split; [apply Htrain, Hsizes; lia | apply Hval, Hvsize].
        -- apply Hrange; [| exact Hvsize]. intros e He. apply Hsizes. lia.
Qed.

Lemma full_groups_few {A} (l : list A) :
  (length l < 4)%nat -> Training.full_groups l = [].
Proof.
  destruct l as [| a [| b [| c [| d l]]]]; cbn; intros H; try reflexivity; lia.
Qed.

Lemma full_groups_length {A} (n : nat) :
  forall l : list A, (length l <= n)%nat ->
                     length (Training.full_groups l) = (length l / 4)%nat.
Proof.
  induction n as [| n IH]; intros l Hl.
  - destruct l; [reflexivity | cbn in Hl; lia].
  - destruct l as [| a [| b [| c [| d l]]]]; try reflexivity.
    cbn [Training.full_groups length] in *. rewrite IH by lia.
    pose proof (Nat.Div0.div_mod (length l) 4).
    pose proof (Nat.Div0.div_mod (S (S (S (S (length l))))) 4).
    pose proof (Nat.mod_upper_bound (length l) 4 ltac:(lia)).
    pose proof (Nat.mod_upper_bound (S (S (S (S (length l))))) 4 ltac:(lia)).
    lia.
Qed.

End TrainingLoop.

(** X10: gradient accumulation in [vitmodel.py]. When the script gets to
    [torch.save], the weights it saves come from one optimizer step per
    complete group of four consecutive batches of each of the ten epochs, in
    order: the batches after the last complete group of an epoch never reach
    the weights, since the next epoch starts with [optimizer.zero_grad()]
    (and the last epoch is followed by none). So the number of optimizer
    steps is the sum over the epochs of [len(train_loader) // 4], and a
    training set of fewer than four batches leaves the pretrained weights
    unchanged. Ten reports are printed. *)
Theorem train_steps_on_groups_of_four :
  forall (B : Training.Backend) (saved : list (list Training.batch))
         (reports : list Training.epoch_report),
    Training.train = Ret (saved, reports) ->
    saved = flat_map (fun e => Training.full_groups (Training.train_loader e))
                     (seq 0 Training.EPOCHS) /\
    length saved =
      list_sum (map (fun e => (length (Training.train_loader e) / 4)%nat)
                    (seq 0 Training.EPOCHS)) /\
    ((forall e, (length (Training.train_loader e) < 4)%nat) -> saved = []) /\
    length reports = Training.EPOCHS.
Proof.
  intros B saved reports Hrun. unfold Training.train in Hrun.
  destruct (Training.run_epochs Training.EPOCHS 0 _ []) as [[o printed] | e] eqn:Hepochs;
    cbn [bind fst snd] in Hrun; [| discriminate].
  injection Hrun as <- <-.
  apply run_epochs_account in Hepochs.
  destruct Hepochs as (Hsteps & new & Hprinted & Hlen & _).
  cbn [Training.steps app] in Hsteps. cbn [app] in Hprinted. subst printed.
  split; [exact Hsteps |]. split; [| split; [| exact Hlen]].
  - rewrite Hsteps. generalize (seq 0 Training.EPOCHS). intros epochs.
    induction epochs as [| e epochs IH]; [reflexivity |].
    cbn [flat_map map]. rewrite length_app, IH.
    rewrite (full_groups_length (length (Training.train_loader e))) by lia.
    unfold list_sum. cbn [fold_right]. reflexivity.
  - intros Hfew. rewrite Hsteps. generalize (seq 0 Training.EPOCHS). intros epochs.
    induction epochs as [| e epochs IH]; [reflexivity |].
    cbn [flat_map]. rewrite IH, (full_groups_few _ (Hfew e)). reflexivity.
Qed.

Lemma train_steps_on_groups_of_four_witness :
  @Training.train ScriptExamples.small_run
  = Ret (ScriptExamples.small_run_saved, ScriptExamples.small_run_reports) /\
  length ScriptExamples.small_run_saved = 10%nat /\
  length ScriptExamples.small_run_reports = 10%nat.
Proof.
  assert (Hrun : @Training.train ScriptExamples.small_run
                 = Ret (ScriptExamples.small_run_saved, ScriptExamples.small_run_reports))
    by (vm_compute; reflexivity).
  split; [exact Hrun |].
  destruct (train_steps_on_groups_of_four ScriptExamples.small_run _ _ Hrun)
    as (_ & Hlen & _ & Hreports).
  split; [exact Hlen | exact Hreports].
Defined.

(** X11: the accuracies [vitmodel.py] prints are fractions: when
    [len(train_data)] and [len(val_data)] are at least the numbers of images
    the loaders yield in an epoch, every printed training and validation
    accuracy is between 0 and 1, whatever the model predicts. *)
Theorem train_accuracies_are_fractions :
  forall (B : Training.Backend) (saved : list (list Training.batch))
         (reports : list Training.epoch_report),
    Training.train = Ret (saved, reports) ->
    (forall e, (e < Training.EPOCHS)%nat ->
               (list_sum (map (fun b => length (Training.labels b))
                              (Training.train_loader e))
                <= Training.len_train_data)%nat) ->
    (list_sum (map (fun b => length (Training.labels b)) Training.val_loader)
     <= Training.len_val_data)%nat ->
    Forall (fun r => (0 <= Training.train_acc r /\ Training.train_acc r <= 1)%Q /\
                     (0 <= Training.val_acc r /\ Training.val_acc r <= 1)%Q) reports.
Proof.
  intros B saved reports Hrun Hsizes Hvsize. unfold Training.train in Hrun.
  destruct (Training.run_epochs Training.EPOCHS 0 _ []) as [[o printed] | e] eqn:Hepochs;
    cbn [bind fst snd] in Hrun; [| discriminate].
  injection Hrun as <- <-.
  apply run_epochs_account in Hepochs.
  destruct Hepochs as (_ & new & Hprinted & _ & Hrange).
  cbn [app] in Hprinted. subst printed.
  apply Hrange; [| exact Hvsize]. intros e He. apply Hsizes. lia.
Qed.

Lemma train_accuracies_are_fractions_witness :
  Forall (fun r => (0 <= Training.train_acc r /\ Training.train_acc r <= 1)%Q /\
                   (0 <= Training.val_acc r /\ Training.val_acc r <= 1)%Q)
         ScriptExamples.small_run_reports.
Proof.
  apply (train_accuracies_are_fractions ScriptExamples.small_run
           ScriptExamples.small_run_saved ScriptExamples.small_run_reports).
  - vm_compute. reflexivity.
  - intros e _. vm_compute. lia.
  - vm_compute. lia.
Defined.

Section TrainingRuns.
Context {B : Training.Backend}.

(** The model gives one non-empty row of logits per image, and the loss is
    defined on such rows. *)
Hypothesis logits_rows :
  forall mode epoch step weights b,
    exists rows,
      Training.logits mode epoch step weights b = Ret rows /\
      length rows = length (Training.labels b) /\
      Forall (fun row => row <> []) rows.
Hypothesis criterion_defined :
  forall rows targets,
    length rows = length targets -> exists loss, Training.criterion rows targets = Ret loss.

Lemma train_steps_returns (epoch : nat) (batches : list Training.batch) :
  forall (s : nat) (p : Training.progress),
    exists p', Training.train_steps epoch s batches p = Ret p'.
Proof.
  induction batches as [| b batches IH]; intros s p; [eexists; reflexivity |].
  cbn [Training.train_steps].
  destruct (logits_rows true epoch s (Training.steps (Training.opt p)) b)
    as (rows & -> & Hlen & Hrows). cbn [bind].
  destruct (criterion_defined rows (Training.labels b) Hlen) as (loss & ->). cbn [bind].
  destruct (count_correct_returns rows (Training.labels b) Hlen Hrows) as (hits & ->).
  cbn [bind]. apply IH.
Qed.

Lemma validate_returns (epoch : nat) (weights : list (list Training.batch))
      (batches : list Training.batch) :
  forall (s n : nat), exists n', Training.validate epoch s weights batches n = Ret n'.
Proof.
  induction batches as [| b batches IH]; intros s n; [eexists; reflexivity |].
  cbn [Training.validate].
  destruct (logits_rows false epoch s weights b) as (rows & -> & Hlen & Hrows).
  cbn [bind].
  destruct (count_correct_returns rows (Training.labels b) Hlen Hrows) as (hits & ->).
  cbn [bind]. apply IH.
Qed.

(** An epoch ends with its two lines printed, or in one of its three
    divisions. *)
Lemma run_epoch_cases (epoch : nat) (o : Training.optimizer_state) :
  if (Training.len_train_data =? 0)%nat
     || (length (Training.train_loader epoch) =? 0)%nat
     || (Training.len_val_data =? 0)%nat
  then Training.run_epoch epoch o
       = Raise (Exception "ZeroDivisionError" "division by zero")
  else exists r, Training.run_epoch epoch o = Ret r.
Proof.
  unfold Training.run_epoch.
  destruct (train_steps_returns epoch (Training.train_loader epoch) 0
              {| Training.opt := Training.zero_grad o;
                 Training.total_loss := 0; Training.correct := 0 |}) as (p & ->).
  cbn [bind]. unfold Training.true_div.
  destruct (Training.len_train_data =? 0)%nat; cbn [bind orb]; [reflexivity |].
  destruct (length (Training.train_loader epoch) =? 0)%nat; cbn [bind orb];
    [reflexivity |].
  destruct (validate_returns epoch (Training.steps (Training.opt p))
              Training.val_loader 0 0) as (val_correct & ->).
  cbn [bind].
  destruct (Training.len_val_data =? 0)%nat; cbn [bind]; [reflexivity |].
  eexists. reflexivity.
Qed.

Lemma run_epochs_returns (n : nat) :
  forall (epoch : nat) (o : Training.optimizer_state)
         (printed : list Training.epoch_report),
    (0 < Training.len_train_data)%nat ->
    (0 < Training.len_val_data)%nat ->
    (forall e, (epoch <= e < epoch + n)%nat -> Training.train_loader e <> []) ->
    exists r, Training.run_epochs n epoch o printed = Ret r.
Proof.
  induction n as [| n IH]; intros epoch o printed Htrain Hval Hloaders;
    [eexists; reflexivity |].
  cbn [Training.run_epochs]. pose proof (run_epoch_cases epoch o) as Hcase.
  assert (H1 : (Training.len_train_data =? 0)%nat = false) by (apply Nat.eqb_neq; lia).
  assert (H2 : (Training.len_val_data =? 0)%nat = false) by (apply Nat.eqb_neq; lia).
  assert (H3 : (length (Training.train_loader epoch) =? 0)%nat = false).
  { apply Nat.eqb_neq. intros Hnil. apply (Hloaders epoch ltac:(lia)).
    destruct (Training.train_loader epoch); [reflexivity | discriminate]. }
  rewrite H1, H2, H3 in Hcase. cbn [orb] in Hcase. destruct Hcase as (r & ->).
  cbn [bind]. apply IH; [exact Htrain | exact Hval |].
  intros e He. apply Hloaders. lia.
Qed.

End TrainingRuns.

(** X12: with a model that gives one non-empty row of logits per image and a
    loss defined on such rows, [vitmodel.py] runs its ten epochs and reaches
    [torch.save] when the training set, the validation set and every epoch's
    loader are non-empty: none of the three divisions of an epoch fails and
    no comparison of predictions with labels is ill-shaped. *)
Theorem train_completes :
  forall B : Training.Backend,
    (forall mode epoch step weights b,
        exists rows,
          Training.logits mode epoch step weights b = Ret rows /\
          length rows = length (Training.labels b) /\
          Forall (fun row => row <> []) rows) ->
    (forall rows targets,
        length rows = length targets ->
        exists loss, Training.criterion rows targets = Ret loss) ->
    (0 < Training.len_train_data)%nat ->
    (0 < Training.len_val_data)%nat ->
    (forall e, (e < Training.EPOCHS)%nat -> Training.train_loader e <> []) ->
    exists saved reports,
      Training.train = Ret (saved, reports) /\ length reports = Training.EPOCHS.
Proof.
  intros B Hlogits Hcriterion Htrain Hval Hloaders. unfold Training.train.
  destruct (run_epochs_returns Hlogits Hcriterion Training.EPOCHS 0
              {| Training.steps := []; Training.grads := [] |} [] Htrain Hval)
    as ([o printed] & Hrun).
  - intros e He. apply Hloaders. lia.
  - rewrite Hrun. cbn [bind fst snd]. eexists _, _. split; [reflexivity |].
    apply run_epochs_account in Hrun. destruct Hrun as (_ & new & -> & Hlen & _).
    exact Hlen.
Qed.

Lemma train_completes_witness :
  exists saved reports,
    @Training.train ScriptExamples.small_run = Ret (saved, reports) /\
    length reports = 10%nat.
Proof.
  apply (train_completes ScriptExamples.small_run).
  - intros mode epoch step weights b. eexists. split; [reflexivity |].
    split; [apply length_map |].
    induction b as [| l b IH]; constructor; [discriminate | exact IH].
  - intros rows targets _. eexists. reflexivity.
  - cbn. lia.
  - cbn. lia.
  - intros e _. discriminate.
Defined.

(** Three batches an epoch: no optimizer step in ten epochs. *)
Example three_batches_never_step :
  exists reports, @Training.train ScriptExamples.three_batches = Ret ([], reports).
Proof. eexists. vm_compute. reflexivity. Qed.

(** ** The scripts of the pages on the replies of their services *)

Lemma assoc_jsonify_alerts (k : string) (alerts : list (string * string)) :
  assoc k (map (fun kv => (fst kv, JStr (snd kv))) alerts)
  = option_map JStr (assoc k alerts).
Proof.
  induction alerts as [| [k' v] alerts IH]; [reflexivity |].
  cbn [map assoc fst snd]. destruct (String.eqb k k'); [reflexivity | exact IH].
Qed.

Lemma read_weather_alerts (p : prediction) :
  Page.read (Some (Page.jsonify_prediction p)) "weather_alerts"
  = Ret (Some (JObj (map (fun kv => (fst kv, JStr (snd kv))) (pred_weather_alerts p)))).
Proof. reflexivity. Qed.

(** On a prediction of the service the test of a branch is whether the
    record has a non-empty message under the key, guarded or not. *)
Lemma has_alert_prediction (guarded : bool) (p : prediction) (k : string) :
  Page.has_alert guarded (Some (Page.jsonify_prediction p)) k
  = Ret (match assoc k (pred_weather_alerts p) with
         | Some msg => negb (msg =? "")%string
         | None => false
         end).
Proof.
  unfold Page.has_alert. rewrite read_weather_alerts. cbn [bind Page.truthy Page.read].
  rewrite assoc_jsonify_alerts.
  destruct guarded; destruct (assoc k (pred_weather_alerts p)); reflexivity.
Qed.

Lemma read_alert_message (p : prediction) (k : string) :
  (let! alerts := Page.read (Some (Page.jsonify_prediction p)) "weather_alerts" in
   let! message := Page.read alerts k in
   Ret (Page.Warning message))
  = Ret (Page.Warning (option_map JStr (assoc k (pred_weather_alerts p)))).
Proof.
  rewrite read_weather_alerts. cbn [bind Page.read]. rewrite assoc_jsonify_alerts.
  reflexivity.
Qed.

(** The warning picked on a prediction of the service, in closed form. *)
Lemma weather_alert_form {E : Page.Engine} (guarded : bool)
      (weather : list (string * json)) (p : prediction) :
    Page.weather_alert guarded (Some (JObj weather)) (Some (Page.jsonify_prediction p))
  = Ret (if Page.gt (assoc "humidity" weather) 80
            && match assoc "high_humidity" (pred_weather_alerts p) with
               | Some msg => negb (msg =? "")%string
               | None => false
               end
         then Page.Warning (option_map JStr (assoc "high_humidity" (pred_weather_alerts p)))
         else if Page.truthy (assoc "rain" weather)
                 && match assoc "high_rain" (pred_weather_alerts p) with
                    | Some msg => negb (msg =? "")%string
                    | None => false
                    end
              then Page.Warning (option_map JStr (assoc "high_rain" (pred_weather_alerts p)))
              else Page.NoAlert).
Proof.
  unfold Page.weather_alert.
  change (Page.read (Some (JObj weather)) "humidity")
    with (Ret (assoc "humidity" weather) : outcome Page.js).
  change (Page.read (Some (JObj weather)) "rain")
    with (Ret (assoc "rain" weather) : outcome Page.js).
  cbn [bind].
  destruct (Page.gt (assoc "humidity" weather) 80); cbn [andb].
  - rewrite has_alert_prediction. cbn [bind].
    destruct (assoc "high_humidity" (pred_weather_alerts p)) as [msg |] eqn:Hh.
    + destruct (negb (msg =? "")%string).
      * rewrite read_alert_message, Hh. reflexivity.
      * destruct (Page.truthy (assoc "rain" weather)); cbn [andb bind];
          [| reflexivity].
        rewrite has_alert_prediction. cbn [bind].
        destruct (assoc "high_rain" (pred_weather_alerts p)) as [msg' |] eqn:Hr;
          [| reflexivity].
        destruct (negb (msg' =? "")%string); [| reflexivity].
        rewrite read_alert_message, Hr. reflexivity.
    + destruct (Page.truthy (assoc "rain" weather)); cbn [andb bind];
        [| reflexivity].
      rewrite has_alert_prediction. cbn [bind].
      destruct (assoc "high_rain" (pred_weather_alerts p)) as [msg' |] eqn:Hr;
        [| reflexivity].
      destruct (negb (msg' =? "")%string); [| reflexivity].
      rewrite read_alert_message, Hr. reflexivity.
  - destruct (Page.truthy (assoc "rain" weather)); cbn [andb bind];
      [| reflexivity].
    rewrite has_alert_prediction. cbn [bind].
    destruct (assoc "high_rain" (pred_weather_alerts p)) as [msg' |] eqn:Hr;
      [| reflexivity].
    destruct (negb (msg' =? "")%string); [| reflexivity].
    rewrite read_alert_message, Hr. reflexivity.
Qed.


(** X14: [DISEASE_INFO] of [test2_0.py] gives Rosette one weather alert,
    under the key [aphid_risk], and the page reads only [high_humidity] and
    [high_rain]: a Rosette prediction gets no weather warning, whatever the
    weather reply, the confidence and the scores. *)
Theorem rosette_alert_never_shown :
  forall (E : Page.Engine) (weather : list (string * json)) (conf : Q) (scores : list Q),
    (exists r text,
        assoc "ROSETTE" ViT.DISEASE_INFO = Some r /\
        weather_alerts r = [("aphid_risk", text)] /\ text <> "") /\
    Page.analyzeImages_alert
      (Some (JObj weather))
      (Some (Page.jsonify_prediction
               (result_dict "ROSETTE" (assoc "ROSETTE" ViT.DISEASE_INFO) conf scores)))
    = Ret Page.NoAlert.
Proof.
  intros E weather conf scores. split.
  - eexists _, _. split; [reflexivity |]. split; [reflexivity | discriminate].
  - unfold Page.analyzeImages_alert. rewrite weather_alert_form.
    change (assoc "high_humidity" (pred_weather_alerts _)) with (@None string).
    change (assoc "high_rain" (pred_weather_alerts _)) with (@None string).
    rewrite !andb_false_r. reflexivity.
Qed.

(** X15: the pie chart of each page counts a history entry as healthy
    exactly when the service predicted its healthy class: of the names the
    services send, only that of [healthy_leaf_1] (index 4 of [CLASS_NAMES],
    index 3 of [CLASSES]) passes the page's filter, and the filter does not
    throw on any of them. *)
Theorem healthy_filter_is_healthy_class :
  (forall (idx : nat) (label : string) (conf : Q) (scores : list Q),
      ViT.CLASS_NAMES !! idx = Some label ->
      (let! predicted_class :=
         Page.read (Some (Page.jsonify_prediction
                            (result_dict label (assoc label ViT.DISEASE_INFO) conf scores)))
                   "predicted_class" in
       Page.vit_healthy predicted_class)
      = Ret (idx =? 4)%nat) /\
  (forall (idx : nat) (label : string) (conf : Q) (scores : list Q),
      Keras.CLASSES !! idx = Some label ->
      (let! predicted_class :=
         Page.read (Some (Page.jsonify_prediction
                            (result_dict label (assoc label Keras.DISEASE_INFO) conf scores)))
                   "predicted_class" in
       Page.keras_healthy predicted_class)
      = Ret (idx =? 3)%nat).
Proof.
  split; intros idx label conf scores Hlabel.
  - do 8 (destruct idx as [| idx];
          [cbn in Hlabel; injection Hlabel as <-; vm_compute; reflexivity |]).
    cbn in Hlabel. discriminate.
  - do 6 (destruct idx as [| idx];
          [cbn in Hlabel; injection Hlabel as <-; vm_compute; reflexivity |]).
    cbn in Hlabel. discriminate.
Qed.

(** *** [np.argmax] and [indexOf(Math.max(...))] *)

Lemma fold_max_ge (l : list Q) (best : Q) :
  (best <= fold_left (fun m y => if Qltb m y then y else m) l best)%Q.
Proof.
  revert best. induction l as [| x l IH]; intros best; cbn [fold_left].
  - apply Qle_refl.
  - destruct (Qltb best x) eqn:Hlt.
    + apply Qle_trans with x; [apply Qlt_le_weak, Qltb_lt; exact Hlt | apply IH].
    + apply IH.
Qed.

(** The scan of [argmax] stays at [besti] when no later score is larger, and
    else stops where [indexOf] finds the largest score. *)
Lemma argmax_from_indexOf (l : list Q) :
  forall (best : Q) (besti i : nat),
    (Qeq_bool best (fold_left (fun m y => if Qltb m y then y else m) l best) = true ->
     argmax_from best besti i l = besti) /\
    (Qeq_bool best (fold_left (fun m y => if Qltb m y then y else m) l best) = false ->
     Z.of_nat (argmax_from best besti i l)
     = Page.indexOf_from (fold_left (fun m y => if Qltb m y then y else m) l best)
                         (Z.of_nat i) l).
Proof.
  induction l as [| x l IH]; intros best besti i; cbn [fold_left argmax_from].
  - split; [reflexivity |]. intros Hne.
    assert (Heq : Qeq_bool best best = true) by (apply Qeq_bool_iff, Qeq_refl).
    congruence.
  - destruct (Qltb best x) eqn:Hlt.
    + destruct (IH x i (S i)) as (Hsame & Hlater).
      pose proof (fold_max_ge l x) as Hge. apply Qltb_lt in Hlt.
      set (m := fold_left (fun m y => if Qltb m y then y else m) l x) in *.
      split.
      * intros Heq. apply Qeq_bool_iff in Heq. exfalso.
        apply (Qlt_irrefl best). rewrite Heq at 2.
        apply Qlt_le_trans with x; assumption.
      * intros _. cbn [Page.indexOf_from].
        destruct (Qeq_bool x m) eqn:Hx.
        -- rewrite (Hsame eq_refl). reflexivity.
        -- rewrite (Hlater eq_refl). f_equal. lia.
    + destruct (IH best besti (S i)) as (Hsame & Hlater).
      pose proof (fold_max_ge l best) as Hge. apply Qltb_ge in Hlt.
      set (m := fold_left (fun m y => if Qltb m y then y else m) l best) in *.
      split; [exact Hsame |].
      intros Hne. cbn [Page.indexOf_from].
      assert (Hx : Qeq_bool x m = false).
      { destruct (Qeq_bool x m) eqn:Hx; [| reflexivity].
        apply Qeq_bool_iff in Hx.
        assert (Heq : Qeq_bool best m = true).
        { apply Qeq_bool_iff. apply Qle_antisym; [exact Hge |].
          rewrite <- Hx. exact Hlt. }
        congruence. }
      rewrite Hx, (Hlater Hne). f_equal. lia.
Qed.

Lemma argmax_maxIndex (v : list Q) (idx : nat) :
  argmax v = Ret idx -> Page.maxIndex v = Z.of_nat idx.
Proof.
  destruct v as [| x v]; [discriminate |].
  cbn [argmax]. intros [= <-]. unfold Page.maxIndex, Page.Math_max.
  destruct (argmax_from_indexOf v x 0 1) as (Hsame & Hlater).
  cbn [Page.indexOf_from].
  destruct (Qeq_bool x (fold_left (fun m y => if Qltb m y then y else m) v x)) eqn:Hx.
  - rewrite (Hsame eq_refl). reflexivity.
  - rewrite (Hlater eq_refl). reflexivity.
Qed.

(** X16: the bar that [updateCharts] of [nuuuttsss.py] highlights is the bar
    of the predicted class. For every dict [predict_class] returns,
    [maxIndex], the first position of [Math.max] of the scores, is the index
    [np.argmax] gave the service, and the label under that bar is the
    [predicted_class] of the dict. *)
Theorem highlighted_bar_is_predicted_class :
  forall (B : Keras.Backend) (image_array : Keras.array) (p : prediction),
    Keras.classify image_array = Ret p ->
    exists idx,
      argmax (all_confidences p) = Ret idx /\
      Page.maxIndex (all_confidences p) = Z.of_nat idx /\
      Page.categoryBar_labels !! idx = Some (predicted_class p).
Proof.
  intros B image_array p Hp.
  destruct (keras_classify_inv image_array p Hp)
    as (f & scores & idx & label & conf & _ & _ & Ha & _ & Hl & ->).
  exists idx. cbn [all_confidences result_dict].
  split; [exact Ha |]. split; [apply argmax_maxIndex; exact Ha |].
  do 6 (destruct idx as [| idx];
        [cbn in Hl; injection Hl as <-; reflexivity |]).
  cbn in Hl. discriminate.
Qed.

Lemma highlighted_bar_is_predicted_class_witness :
  exists idx,
    Page.maxIndex [(1 # 10); (1 # 10); (6 # 10); (1 # 10); (1 # 20); (1 # 20)]%Q
    = Z.of_nat idx /\
    Page.categoryBar_labels !! idx = Some "Nutritional Deficiency".
Proof.
  destruct (highlighted_bar_is_predicted_class Examples.keras 7%nat _ eq_refl)
    as (idx & _ & Hmax & Hlabel).
  exists idx. split; [exact Hmax | exact Hlabel].
Defined.

(** A nutrient-deficiency card on a humid, rainy day carries the rain
    message of its class (the class has no humidity message); after a failed
    weather lookup it carries none. *)
Example alerts_by_weather :
  @Page.uploadImage_alert PageExamples.plain (Some PageExamples.humid_rain)
    (Some (Page.jsonify_prediction
             (result_dict "nutrition_deficiency_1"
                          (assoc "nutrition_deficiency_1" Keras.DISEASE_INFO) 1 [])))
  = Ret (Page.Warning (Some (JStr "Heavy rain may leach nutrients. Check soil health."))) /\
  @Page.uploadImage_alert PageExamples.plain (Some PageExamples.no_weather)
    (Some (Page.jsonify_prediction
             (result_dict "nutrition_deficiency_1"
                          (assoc "nutrition_deficiency_1" Keras.DISEASE_INFO) 1 [])))
  = Ret Page.NoAlert.
Proof. split; vm_compute; reflexivity. Qed.

(** ** The heat map of the Keras page under the pointer *)

Lemma Qsquare_nonneg (a : Q) : (0 <= a * a)%Q.
Proof.
  destruct (Qlt_le_dec a 0) as [H | H].
  - assert (Hsq : (a * a == (- a) * (- a))%Q) by ring.
    rewrite Hsq. apply Qmult_le_0_compat; lra.
  - apply Qmult_le_0_compat; assumption.
Qed.

Lemma Qsquare_lt_bound (r a : Q) :
  (0 < r)%Q -> (a * a < r * r)%Q -> (- r < a /\ a < r)%Q.
Proof. intros Hr Ha. split; nra. Qed.

Lemma Qltb_true_iff (a b : Q) : Qltb a b = true <-> (a < b)%Q.
Proof.
  split; [apply Qltb_lt |]. intros H. destruct (Qltb a b) eqn:Hb; [reflexivity |].
  apply Qltb_ge in Hb. lra.
Qed.

Section HeatmapPointer.
Variables (width height : nat).

(** The listener runs its callback for every point, and each run sets the
    cursor and all the labels anew: what it leaves is what the last point
    leaves. *)
Lemma mousemove_last (front : list Heatmap.point) (last : Heatmap.point)
      (mouseX mouseY : Q) (d : Heatmap.dom) :
  Heatmap.mousemove width (front ++ [last]) mouseX mouseY d
  = Heatmap.on_point width mouseX mouseY
                     (Heatmap.mousemove width front mouseX mouseY d) last.
Proof. unfold Heatmap.mousemove. rewrite fold_left_app. reflexivity. Qed.

Lemma on_point_far (pt : Heatmap.point) (mouseX mouseY : Q) (d : Heatmap.dom) :
  Heatmap.near width pt mouseX mouseY = false ->
  Heatmap.cursor (Heatmap.on_point width mouseX mouseY d pt) = "default" /\
  Forall (fun l => Heatmap.opacity l = "1")
         (Heatmap.labels (Heatmap.on_point width mouseX mouseY d pt)).
Proof.
  intros Hfar. unfold Heatmap.on_point. rewrite Hfar. cbn. split; [reflexivity |].
  induction (Heatmap.labels d) as [| l ls IH]; constructor; [reflexivity | exact IH].
Qed.

Lemma points_from_lookup (classNames : list string) (confidences : list Q) :
  forall (i k : nat) (pt : Heatmap.point),
    Heatmap.points_from width height classNames i confidences !! k = Some pt ->
    exists c, pt = Heatmap.place width height classNames (i + k) c.
Proof.
  induction confidences as [| c confidences IH]; intros i k pt Hpt; [discriminate |].
  destruct k as [| k]; cbn in Hpt.
  - injection Hpt as <-. exists c. rewrite Nat.add_0_r. reflexivity.
  - destruct (IH (S i) k pt Hpt) as (c' & ->). exists c'.
    replace (i + S k)%nat with (S i + k)%nat by lia. reflexivity.
Qed.

Lemma points_from_last (classNames : list string) (confidences : list Q) :
  forall i : nat,
    confidences <> [] ->
    exists front c,
      Heatmap.points_from width height classNames i confidences
      = front ++ [Heatmap.place width height classNames
                                (i + (length confidences - 1)) c].
Proof.
  induction confidences as [| c confidences IH]; intros i Hne; [congruence |].
  destruct confidences as [| c' confidences].
  - exists [], c. cbn. rewrite Nat.add_0_r. reflexivity.
  - destruct (IH (S i) ltac:(discriminate)) as (front & c'' & Hrest).
    exists (Heatmap.place width height classNames i c :: front), c''.
    cbn [Heatmap.points_from] in *. rewrite Hrest. cbn [length].
    replace (i + (S (S (length confidences)) - 1))%nat
      with (S i + (S (length confidences) - 1))%nat by lia.
    reflexivity.
Qed.

(** The spots of two columns do not overlap: the pointer is not within
    reach of two points of different columns. *)
Lemma near_other_column (classNames : list string) (i j : nat) (c c' : Q)
      (mouseX mouseY : Q) :
  (i mod 3 <> j mod 3)%nat ->
  Heatmap.near width (Heatmap.place width height classNames i c) mouseX mouseY = true ->
  Heatmap.near width (Heatmap.place width height classNames j c') mouseX mouseY = false.
Proof.
  intros Hcol Hnear. unfold Heatmap.near in *.
  cbn [Heatmap.x Heatmap.y Heatmap.place] in *. unfold Heatmap.cols in *.
  set (cw := Heatmap.cellWidth width) in *.
  apply andb_true_iff in Hnear. destruct Hnear as (Hreach & Hin).
  apply Qltb_true_iff in Hreach, Hin.
  apply andb_false_iff. right.
  destruct (Qltb _ _) eqn:Hj; [| reflexivity]. exfalso.
  apply Qltb_true_iff in Hj.
  set (dy := (mouseY - _)%Q) in Hin. set (dy' := (mouseY - _)%Q) in Hj.
  pose proof (Qsquare_nonneg dy) as Hdy. pose proof (Qsquare_nonneg dy') as Hdy'.
  assert (Hr : (cw / (5 # 2) == cw * (4 # 10))%Q) by field.
  rewrite Hr in Hreach, Hin, Hj.
  pose proof (Nat.mod_upper_bound i 3 ltac:(lia)) as Hi3.
  pose proof (Nat.mod_upper_bound j 3 ltac:(lia)) as Hj3.
  clearbody cw dy dy'.
  assert (Hx : forall a : Q, (a * a + dy * dy < cw * (4 # 10) * (cw * (4 # 10)))%Q ->
                             (- (cw * (4 # 10)) < a /\ a < cw * (4 # 10))%Q).
  { intros a Ha. apply Qsquare_lt_bound; [exact Hreach | lra]. }
  assert (Hx' : forall a : Q, (a * a + dy' * dy' < cw * (4 # 10) * (cw * (4 # 10)))%Q ->
                              (- (cw * (4 # 10)) < a /\ a < cw * (4 # 10))%Q).
  { intros a Ha. apply Qsquare_lt_bound; [exact Hreach | lra]. }
  apply Hx in Hin. apply Hx' in Hj.
  destruct (i mod 3)%nat as [| [| [| ?]]]; [| | | lia];
    destruct (j mod 3)%nat as [| [| [| ?]]]; try lia; try congruence;
    change (inject_Z (Z.of_nat 0)) with 0%Q in *;
    change (inject_Z (Z.of_nat 1)) with 1%Q in *;
    change (inject_Z (Z.of_nat 2)) with 2%Q in *; lra.
Qed.

End HeatmapPointer.

(** X17: the [mousemove] listener of [createHeatmap] in [nuuuttsss.py] runs
    its callback for every point in turn, and the callback of a point the
    pointer is not on resets the cursor and all the labels: what the
    listener leaves is decided by the last point. So with the pointer on
    the spot of a class in another column than the last score's (with six
    scores: Early Rust, Late Leaf Spot, Healthy Leaf, Early Leaf Spot), the
    cursor is left as [default] and every label at opacity 1: the spot
    under the pointer is not highlighted. *)
Theorem heatmap_hover_undone_by_later_points :
  forall (width height : nat) (confidences : list Q) (classNames : list string)
         (i : nat) (pt : Heatmap.point) (mouseX mouseY : Q) (d : Heatmap.dom),
    fst (Heatmap.createHeatmap width height confidences classNames) !! i = Some pt ->
    Heatmap.near width pt mouseX mouseY = true ->
    (i mod 3 <> (length confidences - 1) mod 3)%nat ->
    Heatmap.cursor
      (Heatmap.mousemove width
         (fst (Heatmap.createHeatmap width height confidences classNames))
         mouseX mouseY d) = "default" /\
    Forall (fun l => Heatmap.opacity l = "1")
           (Heatmap.labels
              (Heatmap.mousemove width
                 (fst (Heatmap.createHeatmap width height confidences classNames))
                 mouseX mouseY d)).
Proof.
  intros width height confidences classNames i pt mouseX mouseY d Hpt Hnear Hcol.
  cbn [fst Heatmap.createHeatmap] in *.
  assert (Hne : confidences <> []) by (intros ->; discriminate).
  destruct (points_from_lookup width height classNames confidences 0 i pt Hpt)
    as (c & ->).
  destruct (points_from_last width height classNames confidences 0 Hne)
    as (front & c' & ->).
  rewrite mousemove_last. apply on_point_far.
  apply (near_other_column width height classNames (0 + i) _ c c' mouseX mouseY);
    [exact Hcol | exact Hnear].
Qed.

Lemma heatmap_hover_undone_by_later_points_witness :
  Heatmap.cursor
    (Heatmap.mousemove 300
       (fst (Heatmap.createHeatmap 300 200
               [(1 # 10); (1 # 10); (6 # 10); (1 # 10); (1 # 20); (1 # 20)]%Q
               Page.categoryBar_labels))
       50 50
       {| Heatmap.cursor := "default";
          Heatmap.labels :=
            snd (Heatmap.createHeatmap 300 200
                   [(1 # 10); (1 # 10); (6 # 10); (1 # 10); (1 # 20); (1 # 20)]%Q
                   Page.categoryBar_labels) |})
  = "default".
Proof.
  refine (proj1 (heatmap_hover_undone_by_later_points
                   300 200 [(1 # 10); (1 # 10); (6 # 10); (1 # 10); (1 # 20); (1 # 20)]%Q
                   Page.categoryBar_labels 0 _ 50 50 _ eq_refl eq_refl _)).
  cbn. discriminate.
Defined.

(** With the pointer in the middle of the last spot the listener does
    highlight: the cursor is a pointer and the last label alone keeps
    opacity 1. *)
Example heatmap_hover_last_spot :
  let shown := Heatmap.createHeatmap 300 200
                 [(1 # 10); (1 # 10); (6 # 10); (1 # 10); (1 # 20); (1 # 20)]%Q
                 Page.categoryBar_labels in
  let after := Heatmap.mousemove 300 (fst shown) 250 150
                 {| Heatmap.cursor := "default"; Heatmap.labels := snd shown |} in
  Heatmap.cursor after = "pointer" /\
  map Heatmap.opacity (Heatmap.labels after) = ["0.5"; "0.5"; "0.5"; "0.5"; "0.5"; "1"].
Proof. split; vm_compute; reflexivity. Qed.

(** ** The handlers and their prints *)

Section ConsoleViT.
Context {B : ViT.Backend} {O : Console.Stdout}.

(** The [try] block of [predict_image] on a stored file and on a missing
    one. *)
Lemma predict_image_body_stored (path : string) (bytes : ViT.content) (w : ViT.world) :
  ViT.disk w !! path = Some bytes ->
  ViT.predict_image_body path w =
  (ViT.classify bytes,
   {| ViT.disk := ViT.disk w;
      ViT.log := ViT.log w ++ ViT.classify_events path bytes |}).
Proof.
  intros Hdisk.
  unfold ViT.predict_image_body, ViT.classify, ViT.classify_events,
    ViT.image_open, ViT.run_transform, ViT.run_model, ViT.emit,
    io_bind, io_lift, io_ret, bind.
  cbn. rewrite Hdisk.
  destruct (ViT.pil_open bytes) as [img | e]; cbn; [| reflexivity].
  destruct (ViT.transform img) as [t | e]; cbn;
    [| rewrite <- List.app_assoc; reflexivity].
  destruct (ViT.model t) as [outputs | e]; cbn;
    [| rewrite <- !List.app_assoc; reflexivity].
  destruct (argmax outputs) as [class_id | e]; cbn;
    [| rewrite <- !List.app_assoc; reflexivity].
  destruct (getitem_list ViT.CLASS_NAMES class_id) as [label | e]; cbn;
    [| rewrite <- !List.app_assoc; reflexivity].
  destruct (getitem_list (ViT.softmax outputs) class_id) as [conf | e]; cbn;
    rewrite <- !List.app_assoc; reflexivity.
Qed.

Lemma predict_image_body_missing (path : string) (w : ViT.world) :
  ViT.disk w !! path = None ->
  ViT.predict_image_body path w =
  (Raise (Exception "FileNotFoundError" path),
   {| ViT.disk := ViT.disk w; ViT.log := ViT.log w ++ [ViT.EvOpen path] |}).
Proof.
  intros Hdisk.
  unfold ViT.predict_image_body, ViT.image_open, ViT.emit, io_bind, io_lift, io_ret.
  cbn. rewrite Hdisk. reflexivity.
Qed.

(** A [try] block whose handler prints: what comes out, from what the block
    does. *)
Lemma printing_handler {S A : Type} (body : io S A) (prefix : string) (s : S) :
  io_try (let* a := body in io_ret (Some a))
         (fun e => run* io_lift (Console.print (prefix +:+ str_exn e)) in io_ret None) s
  = (match fst (body s) with
     | Ret a => Ret (Some a)
     | Raise e => Console.handled prefix e
     end, snd (body s)).
Proof.
  unfold io_try, io_bind, io_lift, io_ret, Console.handled.
  destruct (body s) as [[a | e] s']; cbn [fst snd]; [reflexivity |].
  destruct (Console.print (prefix +:+ str_exn e)) as [[] | e']; reflexivity.
Qed.

Lemma silent_handler {S A : Type} (body : io S A) (s : S) :
  io_try (let* a := body in io_ret (Some a)) (fun _ => io_ret None) s
  = (match fst (body s) with
     | Ret a => Ret (Some a)
     | Raise _ => Ret None
     end, snd (body s)).
Proof.
  unfold io_try, io_bind, io_ret.
  destruct (body s) as [[a | e] s']; reflexivity.
Qed.

End ConsoleViT.

(** X3: [predict_image] of [test2_0.py] lets out no exception of PIL, of the
    transform or of the model: it returns the dict when the file at the path
    is classified, and otherwise its handler prints "Prediction error: " and
    the exception, and [None] is returned.  The one exception that can leave
    the function is one raised by that [print], when the console cannot take
    the message; on a console that takes every message the function is
    [ViT.predict_image] and never raises.  The calls made and the upload
    folder are the same in all cases. *)
Theorem predict_image_raises_only_from_print :
  forall (B : ViT.Backend) (O : Console.Stdout) (path : string) (w : ViT.world),
    Console.predict_image path w =
    (match match ViT.disk w !! path with
           | Some bytes => ViT.classify bytes
           | None => Raise (Exception "FileNotFoundError" path)
           end with
     | Ret p => Ret (Some p)
     | Raise e => Console.handled "Prediction error: " e
     end,
     snd (ViT.predict_image path w)) /\
    (forall e', fst (Console.predict_image path w) = Raise e' ->
                exists e, Console.print ("Prediction error: " +:+ str_exn e) = Raise e') /\
    ((forall message, Console.print message = Ret tt) ->
     Console.predict_image path w = ViT.predict_image path w /\
     exists r, fst (Console.predict_image path w) = Ret r).
Proof.
  intros B O path w.
  assert (Hfst : fst (ViT.predict_image_body path w) =
                 match ViT.disk w !! path with
                 | Some bytes => ViT.classify bytes
                 | None => Raise (Exception "FileNotFoundError" path)
                 end).
  { destruct (ViT.disk w !! path) as [bytes |] eqn:Hdisk.
    - rewrite (predict_image_body_stored _ _ _ Hdisk). reflexivity.
    - rewrite (predict_image_body_missing _ _ Hdisk). reflexivity. }
  assert (Hprint : Console.predict_image path w =
                   (match fst (ViT.predict_image_body path w) with
                    | Ret p => Ret (Some p)
                    | Raise e => Console.handled "Prediction error: " e
                    end, snd (ViT.predict_image_body path w)))
    by apply printing_handler.
  assert (Hsilent : ViT.predict_image path w =
                    (match fst (ViT.predict_image_body path w) with
                     | Ret p => Ret (Some p)
                     | Raise _ => Ret None
                     end, snd (ViT.predict_image_body path w)))
    by apply silent_handler.
  rewrite Hprint, Hsilent, Hfst. cbn [fst snd].
  destruct (match ViT.disk w !! path with
            | Some bytes => ViT.classify bytes
            | None => Raise (Exception "FileNotFoundError" path)
            end) as [p | e].
  - split; [reflexivity |]. split; [intros e' He'; discriminate |].
    intros _. split; [reflexivity | eexists; reflexivity].
  - split; [reflexivity |]. unfold Console.handled. split.
    + intros e' He'. exists e.
      destruct (Console.print ("Prediction error: " +:+ str_exn e)) as [[] | e''];
        [discriminate | congruence].
    + intros Hok. rewrite Hok. split; [reflexivity | eexists; reflexivity].
Qed.

(** A file name with an accent on an ASCII console: the file is not there,
    the handler's message carries the path, and the print raises. *)
Example predict_image_print_raises :
  fst (@Console.predict_image Examples.vit Console.ascii_only "uploads/café.jpg"
         Examples.empty_world)
  = Raise (Exception "UnicodeEncodeError" "'ascii' codec can't encode character") /\
  fst (@Console.predict_image Examples.vit Console.accepting "uploads/café.jpg"
         Examples.empty_world)
  = Ret None.
Proof. split; vm_compute; reflexivity. Qed.

Section ConsoleKeras.
Context {B : Keras.Backend} {O : Console.Stdout}.

Lemma predict_class_body_account (image_array : Keras.array) (w : list Keras.event) :
  Keras.predict_class_body image_array w =
  (Keras.classify image_array,
   w ++ match Keras.model with Some _ => [Keras.EvModel] | None => [] end).
Proof.
  unfold Keras.predict_class_body, Keras.classify, Keras.model_predict, Keras.emit,
    io_bind, io_lift, io_ret, bind.
  destruct Keras.model as [f |]; cbn; [| rewrite List.app_nil_r; reflexivity].
  destruct (f image_array) as [scores | e]; cbn; [| reflexivity].
  destruct (argmax scores) as [idx | e]; cbn; [| reflexivity].
  destruct (getitem_list scores idx) as [conf | e]; cbn; [| reflexivity].
  destruct (getitem_list Keras.CLASSES idx) as [label | e]; cbn; reflexivity.
Qed.

Lemma console_preprocess_image_account (file : FileStorage Keras.content)
      (w : list Keras.event) :
  Console.preprocess_image file w =
  (match Keras.pil_preprocess (stream file) with
   | Ret arr => Ret (Some arr)
   | Raise e => Console.handled "Error preprocessing image: " e
   end, w ++ [Keras.EvPreprocess (filename file)]).
Proof.
  unfold Console.preprocess_image, Console.handled, Keras.emit,
    io_try, io_bind, io_lift, io_ret.
  cbn. destruct (Keras.pil_preprocess (stream file)) as [arr | e]; [reflexivity |].
  destruct (Console.print ("Error preprocessing image: " +:+ str_exn e)) as [[] | e'];
    reflexivity.
Qed.

Lemma console_predict_class_account (image_array : Keras.array) (w : list Keras.event) :
  Console.predict_class image_array w =
  (match Keras.classify image_array with
   | Ret p => Ret (Some p)
   | Raise e => Console.handled "Error in prediction: " e
   end, w ++ match Keras.model with Some _ => [Keras.EvModel] | None => [] end).
Proof.
  unfold Console.predict_class. rewrite printing_handler.
  rewrite predict_class_body_account. reflexivity.
Qed.

(** The route on a request that has a file under [image]. *)
Lemma console_predict_account (request_files : Keras.Request)
      (file : FileStorage Keras.content) (w : list Keras.event) :
  assoc "image" request_files = Some file ->
  Console.predict request_files w =
  if (filename file =? "")%string then
    (Ret (Keras.JsonError "No file selected" 400), w)
  else if Wording.supported (filename file) then
    match Keras.pil_preprocess (stream file) with
    | Raise e =>
        (match Console.print ("Error preprocessing image: " +:+ str_exn e) with
         | Ret _ => Ret (Keras.JsonError "Error processing image" 500)
         | Raise e' => Raise e'
         end, w ++ [Keras.EvPreprocess (filename file)])
    | Ret arr =>
        (match Keras.classify arr with
         | Ret p => Ret (Keras.JsonPrediction p)
         | Raise e =>
             match Console.print ("Error in prediction: " +:+ str_exn e) with
             | Ret _ => Ret (Keras.JsonError "Error making prediction" 500)
             | Raise e' => Raise e'
             end
         end,
         w ++ Keras.EvPreprocess (filename file) ::
              match Keras.model with Some _ => [Keras.EvModel] | None => [] end)
    end
  else
    (Ret (Keras.JsonError
            "Invalid file type. Please upload PNG, JPG, JPEG, or WebP files." 400), w).
Proof.
  intros Hfile. unfold Console.predict. rewrite Hfile.
  destruct (filename file =? "")%string; [reflexivity |].
  rewrite keras_allowed_file_supported.
  destruct (Wording.supported (filename file)); cbn [negb]; [| reflexivity].
  unfold io_bind at 1. rewrite console_preprocess_image_account.
  unfold Console.handled.
  destruct (Keras.pil_preprocess (stream file)) as [arr | e]; cbn.
  - unfold io_bind. rewrite console_predict_class_account.
    rewrite <- List.app_assoc. cbn. unfold Console.handled.
    destruct (Keras.classify arr) as [p | e]; [reflexivity |].
    destruct (Console.print ("Error in prediction: " +:+ str_exn e)) as [[] | e'];
      reflexivity.
  - destruct (Console.print ("Error preprocessing image: " +:+ str_exn e)) as [[] | e'];
      reflexivity.
Qed.

End ConsoleKeras.

(** X5: the [/predict] route of the Keras service lets out no exception of
    PIL or of the model.  It answers 400 without any call when there is no
    file, no file name or an unsupported extension; 500 after preprocessing
    alone when the image cannot be read, the model not being called; and
    otherwise after preprocessing and, when a model is loaded, one model
    call, with the dict or with 500.  Before each 500 a handler has printed
    the exception, and the one exception that can leave the route is one
    raised by that [print], when the console cannot take the message: on a
    console that takes every message the route is [Keras.predict] and always
    answers. *)
Theorem keras_predict_raises_only_from_print :
  forall (B : Keras.Backend) (O : Console.Stdout) (request_files : Keras.Request)
         (w : list Keras.event),
    (exists out evs,
        Console.predict request_files w = (out, w ++ evs) /\
        match out with
        | Ret (Keras.JsonError _ status) =>
            (status = 400%Z /\ evs = [] /\
             match assoc "image" request_files with
             | None => True
             | Some file => Wording.supported (filename file) = false
             end) \/
            (status = 500%Z /\
             exists file, assoc "image" request_files = Some file /\
               Wording.supported (filename file) = true /\
               match Keras.pil_preprocess (stream file) with
               | Raise e =>
                   Console.print ("Error preprocessing image: " +:+ str_exn e) = Ret tt /\
                   evs = [Keras.EvPreprocess (filename file)]
               | Ret arr =>
                   (exists e, Keras.classify arr = Raise e /\
                              Console.print ("Error in prediction: " +:+ str_exn e) = Ret tt) /\
                   evs = Keras.EvPreprocess (filename file) ::
                         match Keras.model with Some _ => [Keras.EvModel] | None => [] end
               end)
        | Ret (Keras.JsonPrediction p) =>
            exists file arr,
              assoc "image" request_files = Some file /\
              Wording.supported (filename file) = true /\
              Keras.pil_preprocess (stream file) = Ret arr /\
              Keras.classify arr = Ret p /\
              evs = [Keras.EvPreprocess (filename file); Keras.EvModel]
        | Raise e' =>
            exists file, assoc "image" request_files = Some file /\
              Wording.supported (filename file) = true /\
              match Keras.pil_preprocess (stream file) with
              | Raise e =>
                  Console.print ("Error preprocessing image: " +:+ str_exn e) = Raise e' /\
                  evs = [Keras.EvPreprocess (filename file)]
              | Ret arr =>
                  (exists e, Keras.classify arr = Raise e /\
                             Console.print ("Error in prediction: " +:+ str_exn e) = Raise e') /\
                  evs = Keras.EvPreprocess (filename file) ::
                        match Keras.model with Some _ => [Keras.EvModel] | None => [] end
              end
        end) /\
    ((forall message, Console.print message = Ret tt) ->
     Console.predict request_files w = Keras.predict request_files w /\
     exists reply, fst (Console.predict request_files w) = Ret reply).
Proof.
  intros B O request_files w.
  destruct (assoc "image" request_files) as [file |] eqn:Hfile.
  - rewrite (console_predict_account _ _ _ Hfile), (keras_predict_account _ _ _ Hfile).
    destruct (String.eqb_spec (filename file) "") as [Hname | Hname].
    + split.
      * exists (Ret (Keras.JsonError "No file selected" 400)), [].
        split; [rewrite List.app_nil_r; reflexivity |].
        left. split; [reflexivity |]. split; [reflexivity |].
        rewrite Hname. reflexivity.
      * intros _. split; [reflexivity | eexists; reflexivity].
    + destruct (Wording.supported (filename file)) eqn:Hs.
      * destruct (Keras.pil_preprocess (stream file)) as [arr | e] eqn:Hp.
        -- destruct (Keras.classify arr) as [p | e] eqn:Hc.
           ++ split.
              ** eexists _, _. split; [reflexivity |].
                 exists file, arr. repeat (split; [first [assumption | reflexivity] |]).
                 apply keras_classify_inv in Hc as (f & _ & _ & _ & _ & Hm & _).
                 rewrite Hm. reflexivity.
              ** intros _. split; [reflexivity | eexists; reflexivity].
           ++ split.
              ** destruct (Console.print ("Error in prediction: " +:+ str_exn e))
                   as [[] | e'] eqn:Hprint.
                 --- eexists _, _. split; [reflexivity |].
                     right. split; [reflexivity |]. exists file.
                     split; [reflexivity |]. split; [exact Hs |]. rewrite Hp.
                     split; [exists e; split; [exact Hc | exact Hprint] | reflexivity].
                 --- eexists _, _. split; [reflexivity |].
                     exists file. split; [reflexivity |]. split; [exact Hs |]. rewrite Hp.
                     split; [exists e; split; [exact Hc | exact Hprint] | reflexivity].
              ** intros Hok. rewrite Hok. split; [reflexivity | eexists; reflexivity].
        -- split.
           ++ destruct (Console.print ("Error preprocessing image: " +:+ str_exn e))
                as [[] | e'] eqn:Hprint.
              ** eexists _, _. split; [reflexivity |].
                 right. split; [reflexivity |]. exists file.
                 split; [reflexivity |]. split; [exact Hs |]. rewrite Hp.
                 split; [exact Hprint | reflexivity].
              ** eexists _, _. split; [reflexivity |].
                 exists file. split; [reflexivity |]. split; [exact Hs |]. rewrite Hp.
                 split; [exact Hprint | reflexivity].
           ++ intros Hok. rewrite Hok. split; [reflexivity | eexists; reflexivity].
      * split.
        -- eexists _, []. split; [rewrite List.app_nil_r; reflexivity |].
           left. split; [reflexivity |]. split; reflexivity.
        -- intros _. split; [reflexivity | eexists; reflexivity].
  - unfold Console.predict, Keras.predict. rewrite Hfile. split.
    + eexists _, []. split; [unfold io_ret; rewrite List.app_nil_r; reflexivity |].
      left. split; [reflexivity |]. split; [reflexivity | exact I].
    + intros _. split; [reflexivity | eexists; reflexivity].
Qed.
